(** * Advanced Phishing Link Detector: the game engine of [app.py]

    A shallow embedding of the session logic of [AdvancedPhishGame]
    (level flow, tolerant matching, scoring, lives, the per-level
    countdown with pause and resume) together with the properties the
    specification states about it.

    Conventions of the embedding.
    - Python [int] is [Z]; [time.time()] readings are rationals ([Q]),
      passed to the handlers by the environment.
    - Python [str] is [string]; case folding and white space follow
      Python on the ASCII range (all flags of [EMAILS] are ASCII); a
      character above 127 has no case and is not white space.
    - The Tk side is reduced to what the logic reads or what reports an
      outcome: the pending [after] callbacks, the maximum of the progress
      bar, the message label, the state of the "Next" button and the
      summary windows opened by [finish_game]. Pure rendering (chips,
      score and timer labels) is left out.
    - The leaderboard file is an input: the list [load_leaderboard]
      returns is passed to the functions that read it, and what
      [save_leaderboard] is given stands for what is written.
    - A handler returns [Done s] or [Raised e s]: Tk reports an exception
      raised inside a callback and goes on with the state as it was
      mutated up to the raise. *)

From Stdlib Require Import ZArith QArith Qround List String Ascii Bool Lia Arith.
From Stdlib Require Import Permutation Sorted.
Import ListNotations.
Open Scope string_scope.
Open Scope list_scope.

(** ** Python strings *)

Module PyStr.

(** [str.isspace] on the ASCII range: TAB, LF, VT, FF, CR, FS, GS, RS, US
    and the space. *)
Definition is_space (c : ascii) : bool :=
  let n := nat_of_ascii c in
  ((9 <=? n) && (n <=? 13) || (28 <=? n) && (n <=? 32))%nat.

Definition lower_char (c : ascii) : ascii :=
  let n := nat_of_ascii c in
  if ((65 <=? n) && (n <=? 90))%nat then ascii_of_nat (n + 32) else c.

(** [s.lower()] *)
Fixpoint lower (s : string) : string :=
  match s with
  | EmptyString => EmptyString
  | String c r => String (lower_char c) (lower r)
  end.

Fixpoint lstrip (s : string) : string :=
  match s with
  | EmptyString => EmptyString
  | String c r => if is_space c then lstrip r else s
  end.

Fixpoint rstrip (s : string) : string :=
  match s with
  | EmptyString => EmptyString
  | String c r =>
      match rstrip r with
      | EmptyString => if is_space c then EmptyString else String c EmptyString
      | r' => String c r'
      end
  end.

(** [s.strip()] *)
Definition strip (s : string) : string := rstrip (lstrip s).

(** Truth value of a string: [not s] holds for the empty string only. *)
Definition truthy (s : string) : bool :=
  match s with EmptyString => false | _ => true end.

Fixpoint startswith (t u : string) : bool :=
  match u, t with
  | EmptyString, _ => true
  | String _ _, EmptyString => false
  | String a u', String b t' => Ascii.eqb a b && startswith t' u'
  end.

(** [u in t]: [u] occurs in [t] as a contiguous substring. *)
Fixpoint contains (t u : string) : bool :=
  startswith t u ||
  match t with
  | EmptyString => false
  | String _ t' => contains t' u
  end.

(** [s.split()]: the maximal runs of non-space characters, in order.
    [w] is the word being read. *)
Fixpoint split_from (s w : string) : list string :=
  match s with
  | EmptyString => if truthy w then [w] else []
  | String c r =>
      if is_space c
      then (if truthy w then w :: split_from r EmptyString
            else split_from r EmptyString)
      else split_from r (w ++ String c EmptyString)
  end.

Definition split (s : string) : list string := split_from s EmptyString.

(** [x in xs] for a list of strings. *)
Definition mem (x : string) (xs : list string) : bool :=
  existsb (String.eqb x) xs.

End PyStr.

(** ** [difflib.SequenceMatcher(None, a, b).ratio()]

    The matcher belongs to Python's standard library, not to the
    repository; it is modelled here after CPython's [difflib] so that
    [fuzzy_match] can be run. No junk predicate is given, so the junk
    set is empty; the "popular" letters of a [b] of 200 characters or
    more are left out of the index [b2j] as [autojunk] does. *)

Module Difflib.

Section Matcher.
Variables a b : list ascii.

Definition popular (c : ascii) : bool :=
  ((200 <=? List.length b) &&
   (List.length b / 100 + 1 <? count_occ ascii_dec b c))%nat.

Definition at_a (i : nat) : ascii := nth i a zero.
Definition at_b (j : nat) : ascii := nth j b zero.

(** [b2j.get(c, [])]: the positions of [c] in [b], ascending. *)
Definition b2j (c : ascii) : list nat :=
  if popular c then []
  else filter (fun j => Ascii.eqb (at_b j) c) (seq 0 (List.length b)).

(** [j2len] is kept as a function; a missing key reads 0. *)
Definition j2len_get (j2len : list (nat * nat)) (j : nat) : nat :=
  match find (fun p => Nat.eqb (fst p) j) j2len with
  | Some p => snd p
  | None => 0%nat
  end.

(** The inner loop over [b2j[a[i]]], restricted to [blo <= j < bhi]. *)
Fixpoint scan_row (i blo bhi : nat) (js : list nat)
         (j2len newj2len : list (nat * nat)) (best : nat * nat * nat)
  : list (nat * nat) * (nat * nat * nat) :=
  match js with
  | [] => (newj2len, best)
  | j :: js' =>
      if (j <? blo)%nat then scan_row i blo bhi js' j2len newj2len best
      else if (bhi <=? j)%nat then (newj2len, best)
      else
        (* the key j-1 = -1 is never present *)
        let prev := if (j =? 0)%nat then 0%nat
                    else j2len_get j2len (j - 1) in
        let k := (prev + 1)%nat in
        let newj2len := (j, k) :: newj2len in
        let '(_, _, bestsize) := best in
        let best := if (bestsize <? k)%nat
                    then ((i + 1 - k)%nat, (j + 1 - k)%nat, k) else best in
        scan_row i blo bhi js' j2len newj2len best
  end.

Fixpoint scan_rows (rows : list nat) (blo bhi : nat)
         (j2len : list (nat * nat)) (best : nat * nat * nat)
  : nat * nat * nat :=
  match rows with
  | [] => best
  | i :: rows' =>
      let '(newj2len, best) :=
        scan_row i blo bhi (b2j (at_a i)) j2len [] best in
      scan_rows rows' blo bhi newj2len best
  end.

(** Extension of the best block to the left, then to the right. *)
Fixpoint extend_left (fuel alo blo : nat) (best : nat * nat * nat)
  : nat * nat * nat :=
  match fuel with
  | O => best
  | S fuel' =>
      let '(besti, bestj, bestsize) := best in
      if ((alo <? besti) && (blo <? bestj))%nat &&
         Ascii.eqb (at_a (besti - 1)) (at_b (bestj - 1))
      then extend_left fuel' alo blo
             ((besti - 1)%nat, (bestj - 1)%nat, (bestsize + 1)%nat)
      else best
  end.

Fixpoint extend_right (fuel ahi bhi : nat) (best : nat * nat * nat)
  : nat * nat * nat :=
  match fuel with
  | O => best
  | S fuel' =>
      let '(besti, bestj, bestsize) := best in
      if ((besti + bestsize <? ahi) && (bestj + bestsize <? bhi))%nat &&
         Ascii.eqb (at_a (besti + bestsize)) (at_b (bestj + bestsize))
      then extend_right fuel' ahi bhi (besti, bestj, (bestsize + 1)%nat)
      else best
  end.

Definition find_longest_match (alo ahi blo bhi : nat) : nat * nat * nat :=
  let best := scan_rows (seq alo (ahi - alo)) blo bhi [] (alo, blo, 0%nat) in
  let best := extend_left (List.length a) alo blo best in
  extend_right (List.length a) ahi bhi best.

(** Sum of the sizes of the matching blocks of the window
    [a[alo:ahi]], [b[blo:bhi]]. Each nested window is strictly
    shorter on the [a] side, so [length a + 1] levels are enough. *)
Fixpoint matched (fuel alo ahi blo bhi : nat) : nat :=
  match fuel with
  | O => 0%nat
  | S fuel' =>
      let '(i, j, k) := find_longest_match alo ahi blo bhi in
      if (k =? 0)%nat then 0%nat
      else
        (k
         + (if (alo <? i) && (blo <? j)
            then matched fuel' alo i blo j else 0)
         + (if (i + k <? ahi) && (j + k <? bhi)
            then matched fuel' (i + k) ahi (j + k) bhi else 0))%nat
  end.

Definition matches : nat :=
  matched (S (List.length a)) 0 (List.length a) 0 (List.length b).

(** [_calculate_ratio(matches, len(a) + len(b))] *)
Definition ratio_of : Q :=
  let len := (List.length a + List.length b)%nat in
  if (len =? 0)%nat then 1
  else (2 * inject_Z (Z.of_nat matches)) / inject_Z (Z.of_nat len).
End Matcher.

Definition ratio (a b : string) : Q :=
  ratio_of (list_ascii_of_string a) (list_ascii_of_string b).

End Difflib.

(** ** Configuration *)

Definition BASE_TIME : Z := 40.
Definition HINT_COST_BASE : Z := 6.
Definition BONUS_PERFECT : Z := 15.

(** ** [fuzzy_match] *)

Import PyStr.

(** The loop over [t.split()]: true as soon as a word longer than two
    characters has a ratio of at least 0.78 with [u]. *)
Fixpoint word_level (u : string) (ws : list string) : bool :=
  match ws with
  | [] => false
  | w :: ws' =>
      if (2 <? String.length w)%nat
      then (if Qle_bool (78 # 100) (Difflib.ratio u w) then true
            else word_level u ws')
      else word_level u ws'
  end.

Definition fuzzy_match (user_input token : string) : bool :=
  if negb (truthy user_input) || negb (truthy token) then false
  else
    let u := strip (lower user_input) in
    let t := strip (lower token) in
    if String.eqb u t || contains t u || contains u t then true
    else if word_level u (split t) then true
    else Qle_bool (72 # 100) (Difflib.ratio u t).

(** ** The random source

    [random] is driven by a list of draws supplied by the environment;
    [randbelow n] reduces the next draw into [0, n). *)

Module Random.

Definition randbelow (n r : nat) : nat := (r mod n)%nat.

Fixpoint list_set {A} (l : list A) (i : nat) (x : A) : list A :=
  match l, i with
  | [], _ => []
  | _ :: l', O => x :: l'
  | y :: l', S i' => y :: list_set l' i' x
  end.

(** The selection loop of [random.sample] on a copy of the population:
    the item drawn goes to the result and the last item not yet selected
    takes its place. [i] counts the items selected so far. *)
Fixpoint sample_loop {A} (k i : nat) (pool : list A) (rs : list nat)
  : list A :=
  match k with
  | O => []
  | S k' =>
      let n := List.length pool in
      let j := randbelow (n - i) (hd 0%nat rs) in
      match nth_error pool j, nth_error pool (n - i - 1) with
      | Some x, Some y =>
          x :: sample_loop k' (S i) (list_set pool j y) (tl rs)
      | _, _ => []
      end
  end.

(** [random.sample(population, k)]; [None] is the [ValueError] raised
    for a sample larger than the population or negative. *)
Definition sample {A} (population : list A) (k : Z) (rs : list nat)
  : option (list A) :=
  if (0 <=? k)%Z && (k <=? Z.of_nat (List.length population))%Z
  then Some (sample_loop (Z.to_nat k) 0 population rs)
  else None.

(** [random.shuffle(x)]: for [i] from [len(x) - 1] down to 1, exchange
    [x[i]] with [x[j]] for a drawn [j <= i]. The argument [i] of the loop
    is the number of positions still to visit. *)
Fixpoint shuffle_loop {A} (i : nat) (x : list A) (rs : list nat) : list A :=
  match i with
  | O => x
  | S i' =>
      let j := randbelow (i + 1) (hd 0%nat rs) in
      match nth_error x i, nth_error x j with
      | Some xi, Some xj =>
          shuffle_loop i' (list_set (list_set x i xj) j xi) (tl rs)
      | _, _ => x
      end
  end.

Definition shuffle {A} (x : list A) (rs : list nat) : list A :=
  shuffle_loop (List.length x - 1) x rs.

(** [random.choice(seq)] for a non-empty [seq]. *)
Definition choice {A} (seq : list A) (r : nat) : option A :=
  nth_error seq (randbelow (List.length seq) r).

End Random.

(** ** Data model *)

(** One entry of [EMAILS]. *)
Record Email := mkEmail {
  title : string;
  text : string;
  flags : list string
}.

(** One entry of [self.results]. *)
Record LevelResult := mkResult {
  res_title : string;
  res_text : string;
  found : list string;
  missed : list string;
  skipped : bool
}.

(** The texts shown in [lbl_msg]. *)
Inductive Msg :=
| MsgEmpty
| MsgMatched (flag : string)
| MsgAllFound
| MsgNotRecognized
| MsgTimeUp
| MsgNoHints
| MsgHint (hint_token : string) (cost : Z)
| MsgResumed
| MsgPaused.

Inductive Exn :=
  IndexError | TypeError | ValueError | RecursionError | KeyError.

(** The fields of [AdvancedPhishGame] and the Tk state they depend on:
    [pb_maximum] is [self.pb['maximum']], [btn_next] tells whether the
    "Next Email" button is enabled, [after_pending] holds the handles of
    the callbacks scheduled with [root.after] and not yet run or
    cancelled (oldest first), [after_next] numbers the next handle and
    [summaries] lists the score shown by every [SummaryWindow] opened. *)
Record Game := mkGame {
  all_emails : list Email;
  total_levels : Z;
  current_level : Z;
  score : Z;
  lives : Z;
  flags_found : list string;
  results : list LevelResult;
  start_time : option Q;
  paused : bool;
  timer_id : option nat;
  time_left : Z;
  pb_maximum : Z;
  lbl_msg : Msg;
  btn_next : bool;
  after_pending : list nat;
  after_next : nat;
  summaries : list Z
}.

Definition set_all_emails (v : list Email) (s : Game) : Game :=
  {| all_emails := v;
     total_levels := total_levels s;
     current_level := current_level s;
     score := score s;
     lives := lives s;
     flags_found := flags_found s;
     results := results s;
     start_time := start_time s;
     paused := paused s;
     timer_id := timer_id s;
     time_left := time_left s;
     pb_maximum := pb_maximum s;
     lbl_msg := lbl_msg s;
     btn_next := btn_next s;
     after_pending := after_pending s;
     after_next := after_next s;
     summaries := summaries s |}.

Definition set_current_level (v : Z) (s : Game) : Game :=
  {| all_emails := all_emails s;
     total_levels := total_levels s;
     current_level := v;
     score := score s;
     lives := lives s;
     flags_found := flags_found s;
     results := results s;
     start_time := start_time s;
     paused := paused s;
     timer_id := timer_id s;
     time_left := time_left s;
     pb_maximum := pb_maximum s;
     lbl_msg := lbl_msg s;
     btn_next := btn_next s;
     after_pending := after_pending s;
     after_next := after_next s;
     summaries := summaries s |}.

Definition set_score (v : Z) (s : Game) : Game :=
  {| all_emails := all_emails s;
     total_levels := total_levels s;
     current_level := current_level s;
     score := v;
     lives := lives s;
     flags_found := flags_found s;
     results := results s;
     start_time := start_time s;
     paused := paused s;
     timer_id := timer_id s;
     time_left := time_left s;
     pb_maximum := pb_maximum s;
     lbl_msg := lbl_msg s;
     btn_next := btn_next s;
     after_pending := after_pending s;
     after_next := after_next s;
     summaries := summaries s |}.

Definition set_lives (v : Z) (s : Game) : Game :=
  {| all_emails := all_emails s;
     total_levels := total_levels s;
     current_level := current_level s;
     score := score s;
     lives := v;
     flags_found := flags_found s;
     results := results s;
     start_time := start_time s;
     paused := paused s;
     timer_id := timer_id s;
     time_left := time_left s;
     pb_maximum := pb_maximum s;
     lbl_msg := lbl_msg s;
     btn_next := btn_next s;
     after_pending := after_pending s;
     after_next := after_next s;
     summaries := summaries s |}.

Definition set_flags_found (v : list string) (s : Game) : Game :=
  {| all_emails := all_emails s;
     total_levels := total_levels s;
     current_level := current_level s;
     score := score s;
     lives := lives s;
     flags_found := v;
     results := results s;
     start_time := start_time s;
     paused := paused s;
     timer_id := timer_id s;
     time_left := time_left s;
     pb_maximum := pb_maximum s;
     lbl_msg := lbl_msg s;
     btn_next := btn_next s;
     after_pending := after_pending s;
     after_next := after_next s;
     summaries := summaries s |}.

Definition set_results (v : list LevelResult) (s : Game) : Game :=
  {| all_emails := all_emails s;
     total_levels := total_levels s;
     current_level := current_level s;
     score := score s;
     lives := lives s;
     flags_found := flags_found s;
     results := v;
     start_time := start_time s;
     paused := paused s;
     timer_id := timer_id s;
     time_left := time_left s;
     pb_maximum := pb_maximum s;
     lbl_msg := lbl_msg s;
     btn_next := btn_next s;
     after_pending := after_pending s;
     after_next := after_next s;
     summaries := summaries s |}.

Definition set_start_time (v : option Q) (s : Game) : Game :=
  {| all_emails := all_emails s;
     total_levels := total_levels s;
     current_level := current_level s;
     score := score s;
     lives := lives s;
     flags_found := flags_found s;
     results := results s;
     start_time := v;
     paused := paused s;
     timer_id := timer_id s;
     time_left := time_left s;
     pb_maximum := pb_maximum s;
     lbl_msg := lbl_msg s;
     btn_next := btn_next s;
     after_pending := after_pending s;
     after_next := after_next s;
     summaries := summaries s |}.

Definition set_paused (v : bool) (s : Game) : Game :=
  {| all_emails := all_emails s;
     total_levels := total_levels s;
     current_level := current_level s;
     score := score s;
     lives := lives s;
     flags_found := flags_found s;
     results := results s;
     start_time := start_time s;
     paused := v;
     timer_id := timer_id s;
     time_left := time_left s;
     pb_maximum := pb_maximum s;
     lbl_msg := lbl_msg s;
     btn_next := btn_next s;
     after_pending := after_pending s;
     after_next := after_next s;
     summaries := summaries s |}.

Definition set_timer_id (v : option nat) (s : Game) : Game :=
  {| all_emails := all_emails s;
     total_levels := total_levels s;
     current_level := current_level s;
     score := score s;
     lives := lives s;
     flags_found := flags_found s;
     results := results s;
     start_time := start_time s;
     paused := paused s;
     timer_id := v;
     time_left := time_left s;
     pb_maximum := pb_maximum s;
     lbl_msg := lbl_msg s;
     btn_next := btn_next s;
     after_pending := after_pending s;
     after_next := after_next s;
     summaries := summaries s |}.

Definition set_time_left (v : Z) (s : Game) : Game :=
  {| all_emails := all_emails s;
     total_levels := total_levels s;
     current_level := current_level s;
     score := score s;
     lives := lives s;
     flags_found := flags_found s;
     results := results s;
     start_time := start_time s;
     paused := paused s;
     timer_id := timer_id s;
     time_left := v;
     pb_maximum := pb_maximum s;
     lbl_msg := lbl_msg s;
     btn_next := btn_next s;
     after_pending := after_pending s;
     after_next := after_next s;
     summaries := summaries s |}.

Definition set_pb_maximum (v : Z) (s : Game) : Game :=
  {| all_emails := all_emails s;
     total_levels := total_levels s;
     current_level := current_level s;
     score := score s;
     lives := lives s;
     flags_found := flags_found s;
     results := results s;
     start_time := start_time s;
     paused := paused s;
     timer_id := timer_id s;
     time_left := time_left s;
     pb_maximum := v;
     lbl_msg := lbl_msg s;
     btn_next := btn_next s;
     after_pending := after_pending s;
     after_next := after_next s;
     summaries := summaries s |}.

Definition set_lbl_msg (v : Msg) (s : Game) : Game :=
  {| all_emails := all_emails s;
     total_levels := total_levels s;
     current_level := current_level s;
     score := score s;
     lives := lives s;
     flags_found := flags_found s;
     results := results s;
     start_time := start_time s;
     paused := paused s;
     timer_id := timer_id s;
     time_left := time_left s;
     pb_maximum := pb_maximum s;
     lbl_msg := v;
     btn_next := btn_next s;
     after_pending := after_pending s;
     after_next := after_next s;
     summaries := summaries s |}.

Definition set_btn_next (v : bool) (s : Game) : Game :=
  {| all_emails := all_emails s;
     total_levels := total_levels s;
     current_level := current_level s;
     score := score s;
     lives := lives s;
     flags_found := flags_found s;
     results := results s;
     start_time := start_time s;
     paused := paused s;
     timer_id := timer_id s;
     time_left := time_left s;
     pb_maximum := pb_maximum s;
     lbl_msg := lbl_msg s;
     btn_next := v;
     after_pending := after_pending s;
     after_next := after_next s;
     summaries := summaries s |}.

Definition set_after_pending (v : list nat) (s : Game) : Game :=
  {| all_emails := all_emails s;
     total_levels := total_levels s;
     current_level := current_level s;
     score := score s;
     lives := lives s;
     flags_found := flags_found s;
     results := results s;
     start_time := start_time s;
     paused := paused s;
     timer_id := timer_id s;
     time_left := time_left s;
     pb_maximum := pb_maximum s;
     lbl_msg := lbl_msg s;
     btn_next := btn_next s;
     after_pending := v;
     after_next := after_next s;
     summaries := summaries s |}.

Definition set_after_next (v : nat) (s : Game) : Game :=
  {| all_emails := all_emails s;
     total_levels := total_levels s;
     current_level := current_level s;
     score := score s;
     lives := lives s;
     flags_found := flags_found s;
     results := results s;
     start_time := start_time s;
     paused := paused s;
     timer_id := timer_id s;
     time_left := time_left s;
     pb_maximum := pb_maximum s;
     lbl_msg := lbl_msg s;
     btn_next := btn_next s;
     after_pending := after_pending s;
     after_next := v;
     summaries := summaries s |}.

Definition set_summaries (v : list Z) (s : Game) : Game :=
  {| all_emails := all_emails s;
     total_levels := total_levels s;
     current_level := current_level s;
     score := score s;
     lives := lives s;
     flags_found := flags_found s;
     results := results s;
     start_time := start_time s;
     paused := paused s;
     timer_id := timer_id s;
     time_left := time_left s;
     pb_maximum := pb_maximum s;
     lbl_msg := lbl_msg s;
     btn_next := btn_next s;
     after_pending := after_pending s;
     after_next := after_next s;
     summaries := v |}.

Inductive outcome :=
| Done (s : Game)
| Raised (e : Exn) (s : Game).

Definition state_of (o : outcome) : Game :=
  match o with Done s | Raised _ s => s end.

Definition bind (o : outcome) (k : Game -> outcome) : outcome :=
  match o with
  | Done s => k s
  | Raised e s => Raised e s
  end.

(** [l[i]] with Python's indexing: a negative index counts from the end,
    [None] is the [IndexError]. *)
Definition getitem {A} (l : list A) (i : Z) : option A :=
  let n := Z.of_nat (List.length l) in
  if (0 <=? i)%Z then nth_error l (Z.to_nat i)
  else if (- n <=? i)%Z then nth_error l (Z.to_nat (n + i))
  else None.

(** ** Timer primitives *)

(** [root.after_cancel(id)] *)
Definition after_cancel (id : nat) (s : Game) : Game :=
  set_after_pending (filter (fun i => negb (Nat.eqb i id)) (after_pending s)) s.

(** [stop_timer]: a handle is a non-empty string, hence always true. *)
Definition stop_timer (s : Game) : Game :=
  match timer_id s with
  | Some id => set_timer_id None (after_cancel id s)
  | None => s
  end.

(** [self.timer_id = self.root.after(1000, self._tick)] *)
Definition schedule_tick (s : Game) : Game :=
  let id := after_next s in
  set_timer_id (Some id)
    (set_after_next (S id) (set_after_pending (after_pending s ++ [id]) s)).

(** [finish_game]: stops the timer and opens the summary window. *)
Definition finish_game (s : Game) : Game :=
  let s := stop_timer s in
  set_summaries (summaries s ++ [score s]) s.

(** [max(10, BASE_TIME - (self.current_level * 6))] *)
Definition level_time (level : Z) : Z := Z.max 10 (BASE_TIME - level * 6).

(** The flags of [email_obj] not in [flags_found], in authoring order:
    [[f for f in email_obj['flags'] if f not in self.flags_found]]. *)
Definition unfound (fs flags_found : list string) : list string :=
  filter (fun f => negb (mem f flags_found)) fs.

(** ** Level flow

    [_tick] calls [on_time_up], which through [save_result_and_continue],
    [load_level] and [start_timer] calls [_tick] again. The functions are
    first written over the [_tick] they call. *)

Section Flow.
Variable tick : Q -> Game -> outcome.

Definition start_timer_with (now : Q) (s : Game) : outcome :=
  tick now (stop_timer s).

Definition load_level_with (level_index : Z) (now : Q) (s : Game)
  : outcome :=
  let s := set_current_level level_index s in
  if (total_levels s <=? level_index)%Z then Done (finish_game s)
  else
    match getitem (all_emails s) level_index with
    | None => Raised IndexError s
    | Some email_obj =>
        let s := set_flags_found [] s in
        let s := set_lbl_msg MsgEmpty s in
        let s := set_btn_next false s in
        let s := set_time_left (level_time (current_level s)) s in
        let s := set_pb_maximum (level_time (current_level s)) s in
        let s := set_start_time (Some now) s in
        start_timer_with now s
    end.

Definition save_result_and_continue_with (skip : bool) (now : Q) (s : Game)
  : outcome :=
  match getitem (all_emails s) (current_level s) with
  | None => Raised IndexError s
  | Some current =>
      let missed := unfound (flags current) (flags_found s) in
      let s := set_results
                 (results s ++
                  [mkResult (title current) (text current)
                            (flags_found s) missed skip]) s in
      let s := stop_timer s in
      if (lives s <=? 0)%Z then Done (finish_game s)
      else if (total_levels s <=? current_level s + 1)%Z
      then Done (finish_game s)
      else
        let s := set_current_level (current_level s + 1) s in
        load_level_with (current_level s) now s
  end.

Definition on_time_up_with (now : Q) (s : Game) : outcome :=
  let s := set_lbl_msg MsgTimeUp s in
  let s := set_lives (lives s - 1) s in
  save_result_and_continue_with true now s.

Definition tick_body (now : Q) (s : Game) : outcome :=
  if paused s then Done s
  else if (time_left s <=? 0)%Z then on_time_up_with now s
  else
    let s := set_time_left (time_left s - 1) s in
    Done (schedule_tick s).
End Flow.

(** [_tick] with [depth] nested calls allowed; Python raises
    [RecursionError] beyond its limit. The chain never nests more than
    twice ([tick_depth_enough] below), so two levels are the function. *)
Fixpoint tick_at_depth (depth : nat) (now : Q) (s : Game) : outcome :=
  match depth with
  | O => Raised RecursionError s
  | S d => tick_body (tick_at_depth d) now s
  end.

Definition _tick : Q -> Game -> outcome := tick_at_depth 2.

Definition start_timer := start_timer_with _tick.
Definition load_level := load_level_with _tick.
Definition save_result_and_continue := save_result_and_continue_with _tick.
Definition on_time_up := on_time_up_with _tick.

(** ** Player operations *)

(** The loop of [on_submit] over [email_obj['flags']]: flags already
    found are skipped, the first other flag that matches ends the loop. *)
Fixpoint find_flag (user_text : string) (flags_found fs : list string)
  : option string :=
  match fs with
  | [] => None
  | f :: fs' =>
      if mem f flags_found then find_flag user_text flags_found fs'
      else if fuzzy_match user_text f then Some f
      else find_flag user_text flags_found fs'
  end.

(** [max(0, int((self.pb['maximum'] - elapsed) // 3))] *)
Definition speed_bonus (maximum : Z) (elapsed : Q) : Z :=
  Z.max 0 (Qfloor ((inject_Z maximum - elapsed) / 3)).

(** [on_submit]; [entry] is the content of the entry field. *)
Definition on_submit (entry : string) (now : Q) (s : Game) : outcome :=
  if paused s then Done s
  else
    let user_text := strip entry in
    if negb (truthy user_text) then Done s
    else
      match getitem (all_emails s) (current_level s) with
      | None => Raised IndexError s
      | Some email_obj =>
          let matched_flag :=
            find_flag user_text (flags_found s) (flags email_obj) in
          match matched_flag with
          | Some (String _ _ as f) =>
              let s := set_flags_found (flags_found s ++ [f]) s in
              let s := set_lbl_msg (MsgMatched f) s in
              match start_time s with
              | None => Raised TypeError s
              | Some t0 =>
                  let elapsed := now - t0 in
                  let gained := (10 + speed_bonus (pb_maximum s) elapsed)%Z in
                  let s := set_score (score s + gained)%Z s in
                  let s := if (1 <=? List.length (flags_found s))%nat
                           then set_btn_next true s else s in
                  if (List.length (flags_found s) =?
                      List.length (flags email_obj))%nat
                  then
                    let s := set_score (score s + BONUS_PERFECT)%Z s in
                    let s := set_lbl_msg MsgAllFound s in
                    let s := stop_timer s in
                    Done (set_btn_next true s)
                  else Done s
              end
          | _ =>
              let s := set_score (Z.max 0 (score s - 3)) s in
              Done (set_lbl_msg MsgNotRecognized s)
          end
      end.

(** [use_hint]; [r] is the draw used by [random.choice]. *)
Definition use_hint (r : nat) (s : Game) : outcome :=
  if paused s then Done s
  else
    match getitem (all_emails s) (current_level s) with
    | None => Raised IndexError s
    | Some email_obj =>
        let remaining := unfound (flags email_obj) (flags_found s) in
        match remaining with
        | [] => Done (set_lbl_msg MsgNoHints s)
        | _ :: _ =>
            let cost := Z.min 20 (HINT_COST_BASE + current_level s * 3) in
            let s := set_score (Z.max 0 (score s - cost)) s in
            match Random.choice remaining r with
            | None => Raised IndexError s
            | Some hint_token =>
                let s := set_lbl_msg (MsgHint hint_token cost) s in
                if (1 <=? List.length (flags_found s))%nat
                then Done (set_btn_next true s) else Done s
            end
        end
    end.

Definition next_level (now : Q) (s : Game) : outcome :=
  if paused s then Done s
  else save_result_and_continue false now s.

Definition toggle_pause (now : Q) (s : Game) : outcome :=
  if paused s then
    let s := set_paused false s in
    bind (start_timer now s) (fun s => Done (set_lbl_msg MsgResumed s))
  else
    let s := set_paused true s in
    let s := stop_timer s in
    Done (set_lbl_msg MsgPaused s).

(** [restart_game]; [confirmed] is the answer to the dialog and [rs] the
    draws used by [random.shuffle]. *)
Definition restart_game (confirmed : bool) (rs : list nat) (now : Q) (s : Game)
  : outcome :=
  if negb confirmed then Done s
  else
    let s := set_score 0 s in
    let s := set_lives 3 s in
    let s := set_current_level 0 s in
    let s := set_results [] s in
    let s := set_all_emails (Random.shuffle (all_emails s) rs) s in
    load_level 0 now s.

(** ** The leaderboard shown at start-up

    [init_ui] ends with [update_leaderboard_ui], which lists the first
    five entries that [load_leaderboard] returns. That is whatever list
    the file holds (and the empty list when there is no file, when it
    is not JSON or not a list), so its items are arbitrary JSON
    values. *)

(** A value as [json.load] returns it. The bindings of a dictionary
    have distinct keys. *)
Unset Elimination Schemes.
Inductive Json :=
| JNull
| JBool (b : bool)
| JInt (z : Z)
| JFloat (q : Q)
| JStr (s : string)
| JList (l : list Json)
| JDict (d : list (string * Json)).
Set Elimination Schemes.

Fixpoint lookup (key : string) (d : list (string * Json)) : option Json :=
  match d with
  | [] => None
  | (k, v) :: d' => if String.eqb k key then Some v else lookup key d'
  end.

(** [item[key]] for a string [key]: only a dictionary can be indexed by
    a string, and the key has to be there. *)
Definition subscript (item : Json) (key : string) : Exn + Json :=
  match item with
  | JDict d =>
      match lookup key d with
      | Some v => inr v
      | None => inl KeyError
      end
  | _ => inl TypeError
  end.

(** A line of the list box: the placeholder, or the two values that
    [f"{item['name']} - {item['score']}"] puts on it. *)
Inductive Row :=
| NoScoresYet
| RowOf (name score : Json).

(** The loop of [update_leaderboard_ui]; the first item that cannot be
    listed ends it with its exception. *)
Fixpoint leader_rows (items : list Json) : Exn + list Row :=
  match items with
  | [] => inr []
  | item :: rest =>
      match subscript item "name" with
      | inl e => inl e
      | inr name =>
          match subscript item "score" with
          | inl e => inl e
          | inr score =>
              match leader_rows rest with
              | inl e => inl e
              | inr rows => inr (RowOf name score :: rows)
              end
          end
      end
  end.

(** [update_leaderboard_ui]; [board] is what [load_leaderboard]
    returned. The result is the content of the list box. *)
Definition update_leaderboard_ui (board : list Json) : Exn + list Row :=
  match board with
  | [] => inr [NoScoresYet]
  | _ :: _ => leader_rows (firstn 5 board)
  end.

(** [AdvancedPhishGame.__init__] over the table [EMAILS]; [rs] are the
    draws used by [random.sample] and [board] is the leaderboard that
    [init_ui] loads and shows. The result is the session after
    construction or the exception that aborted it. *)
Definition __init__ (EMAILS : list Email) (rs : list nat)
           (board : list Json) (now : Q)
  : Exn + Game :=
  let len := Z.of_nat (List.length EMAILS) in
  match Random.sample EMAILS (Z.min len 6) rs with
  | None => inl ValueError
  | Some all_emails =>
      let total_levels := Z.min 5 (Z.of_nat (List.length all_emails)) in
      let s := {| all_emails := all_emails;
                  total_levels := total_levels;
                  current_level := 0;
                  score := 0;
                  lives := 3;
                  flags_found := [];
                  results := [];
                  start_time := None;
                  paused := false;
                  timer_id := None;
                  time_left := BASE_TIME;
                  pb_maximum := BASE_TIME;
                  lbl_msg := MsgEmpty;
                  btn_next := false;
                  after_pending := [];
                  after_next := 0;
                  summaries := [] |} in
      match update_leaderboard_ui board with
      | inl e => inl e
      | inr _ =>
          match load_level 0 now s with
          | Done s => inr s
          | Raised e _ => inl e
          end
      end
  end.

(** ** Events

    What the Tk main loop delivers: the player's actions and the firing
    of a scheduled tick. Every event comes with the reading of the clock
    at its time. *)

Inductive Action :=
| Submit (entry : string)
| Hint (r : nat)
| Next
| TogglePause
| Restart (confirmed : bool) (rs : list nat)
| TimerFires.

Definition Event : Type := Q * Action.

(** The oldest pending callback runs, if there is one. *)
Definition timer_fires (now : Q) (s : Game) : outcome :=
  match after_pending s with
  | [] => Done s
  | _ :: rest => _tick now (set_after_pending rest s)
  end.

Definition dispatch (ev : Event) (s : Game) : outcome :=
  let '(now, act) := ev in
  match act with
  | Submit entry => on_submit entry now s
  | Hint r => use_hint r s
  | Next => next_level now s
  | TogglePause => toggle_pause now s
  | Restart confirmed rs => restart_game confirmed rs now s
  | TimerFires => timer_fires now s
  end.

Fixpoint run (evs : list Event) (s : Game) : Game :=
  match evs with
  | [] => s
  | ev :: evs' => run evs' (state_of (dispatch ev s))
  end.

(** ** The table [EMAILS] of the source

    The two bodies with a typographic apostrophe are kept byte for byte
    as the file has them. *)

Definition EMAILS : list Email :=
  [ mkEmail "Bank Security Notice"
"Dear Customer,

We detected unusual activity on your account. Please verify your account immediately by clicking:
http://secure-bank.verify-account.xyz/confirm

Failure to do so will result in account suspension.

Sincerely,
Secure Bank Support"
      ["verify"; "verify-account"; ".xyz"; "http://"; "suspension";
       "Dear Customer"];
    mkEmail "Password Reset (IT)"
"Hello John,

Our system requires you to reset your password due to a security update.
Click here to reset: https://company-it-reset.secure-now.net/reset?user=john

If you didn't request this, reply with your username and password.

-- IT Helpdesk"
      ["reset"; "company-it-reset"; "secure-now.net";
       "reply with your username"; "password"];
    mkEmail "PayPal Account Change"
"Hi,

We updated your account details. To view changes, go to:
http://paypal.com-security.info/view

Note: This link will expire in 24 hours.

Regards,
PayPal Security Team"
      ["paypal"; "paypal.com-security.info"; "expire"; "24 hours"; "link"];
    mkEmail "Unauthorized Login Alert"
"ATTENTION!

We detected unauthorized login from Russia.
If this wasnâ€™t you, confirm immediately: http://secure-login-warning.com
Failure to act may result in account lock."
      ["Russia"; "unauthorized"; "secure-login-warning.com";
       "confirm immediately"; "account lock"];
    mkEmail "Prize / Payment Request"
"Congratulations!

You are the lucky winner of a $1000 Amazon gift card.
Please enter your credit card details here: http://amazon-prize-free.net

Donâ€™t miss this chance!"
      ["$1000"; "credit card"; "amazon-prize-free.net"; "winner";
       "enter your credit card"];
    mkEmail "Fake Invoice"
"Hello,

Please find attached invoice INV-9923. Open the attachment to view it: INV_9923.exe

If you have questions contact accounts@payroll.example

Regards."
      ["INV-9923"; "INV_9923.exe"; ".exe"; "accounts@"; "invoice"] ].

(** ** Invariants of the session *)

Fixpoint nodupb (l : list string) : bool :=
  match l with
  | [] => true
  | x :: r => negb (mem x r) && nodupb r
  end.

(** Every flag of [fs] is in [flags_found]. *)
Definition all_found (fs flags_found : list string) : bool :=
  forallb (fun f => mem f flags_found) fs.

(** The data model of the specification: the flags of a template are
    pairwise distinct. *)
Definition unique_flags (emails : list Email) : bool :=
  forallb (fun e => nodupb (flags e)) emails.

(** At most one tick is pending, and [timer_id] is its handle. *)
Definition timer_ok (s : Game) : bool :=
  match after_pending s with
  | [] => true
  | [id] => match timer_id s with
            | Some id' => Nat.eqb id id'
            | None => false
            end
  | _ => false
  end.

Definition level_ok (s : Game) : bool :=
  (0 <=? current_level s)%Z &&
  ((current_level s <? total_levels s)%Z ||
   ((total_levels s =? 0)%Z && (current_level s =? 0)%Z)).

Definition found_ok (s : Game) : bool :=
  nodupb (flags_found s) &&
  match getitem (all_emails s) (current_level s) with
  | Some e => forallb (fun f => mem f (flags e)) (flags_found s)
  | None => match flags_found s with [] => true | _ => false end
  end.

Definition started_ok (s : Game) : bool :=
  (total_levels s <=? 0)%Z ||
  match start_time s with Some _ => true | None => false end.

(** The invariant kept by every operation of a session. *)
Definition inv (s : Game) : bool :=
  (0 <=? score s)%Z &&
  (total_levels s =? Z.min 5 (Z.of_nat (List.length (all_emails s))))%Z &&
  level_ok s &&
  found_ok s &&
  timer_ok s &&
  (negb (paused s) || match after_pending s with [] => true | _ => false end) &&
  (pb_maximum s =? level_time (current_level s))%Z &&
  ((0 <=? time_left s)%Z && (time_left s <=? pb_maximum s)%Z) &&
  started_ok s.

(** ** The specification's reading of the points of a guess

    The specification takes the elapsed time of a level to be
    [timeLimit - timeRemaining]; [claimed_points] is the gain of a
    correct guess under that reading. *)
Definition claimed_elapsed (s : Game) : Z :=
  level_time (current_level s) - time_left s.

Definition claimed_points (s : Game) : Z :=
  10 + Z.max 0 ((level_time (current_level s) - claimed_elapsed s) / 3).

(** [n] firings of the timer at the given times. *)
Definition ticks (times : list Q) : list Event :=
  map (fun t => (t, TimerFires)) times.

Definition is_submit (ev : Event) : Prop :=
  match snd ev with Submit _ => True | _ => False end.

(** Draws for the examples: with every draw 0 the sample takes the head
    of the pool each time. *)
Definition demo_rs : list nat := [0; 0; 0; 0; 0; 0]%nat.

(** ** Auxiliary states and predicates used by the statements *)

(** A stripped string is empty or starts with a character that is not
    white space. *)
Definition starts_clean (s : string) : Prop :=
  match s with
  | EmptyString => True
  | String c _ => is_space c = false
  end.

(** The state after a guess that matched [f], before the check for a
    perfect level. *)
Definition credited (f : string) (gained : Z) (s : Game) : Game :=
  set_btn_next true
    (set_score (score s + gained)
       (set_lbl_msg (MsgMatched f)
          (set_flags_found (flags_found s ++ [f]) s))).

(** The perfect bonus on top of it. *)
Definition perfected (s : Game) : Game :=
  set_btn_next true
    (stop_timer (set_lbl_msg MsgAllFound (set_score (score s + BONUS_PERFECT) s))).

(** The level as [load_level] sets it up, before the timer starts. *)
Definition fresh_level (level_index : Z) (now : Q) (s : Game) : Game :=
  set_start_time (Some now)
    (set_pb_maximum (level_time level_index)
       (set_time_left (level_time level_index)
          (set_btn_next false
             (set_lbl_msg MsgEmpty
                (set_flags_found [] (set_current_level level_index s)))))).

(** The entry [save_result_and_continue] appends for the level. *)
Definition level_result (skip : bool) (e : Email) (s : Game) : LevelResult :=
  mkResult (title e) (text e) (flags_found s)
           (unfound (flags e) (flags_found s)) skip.

(** The state once the level has been recorded and its timer stopped. *)
Definition recorded (skip : bool) (e : Email) (s : Game) : Game :=
  stop_timer (set_results (results s ++ [level_result skip e s]) s).

(** The "Next Email" button is in the state "normal" exactly when a flag
    of the level shown has been found. *)
Definition next_ok (s : Game) : bool :=
  Bool.eqb (btn_next s) (1 <=? List.length (flags_found s))%nat.

(** ** The leaderboard

    [load_leaderboard] and [save_leaderboard] read and write a JSON
    file and swallow every failure; what is modelled is the list that
    [save_score_and_exit] hands to the file, as a function of the list
    that was loaded. An entry is the dictionary with the keys "name",
    "score" and "time", as the game writes it ([leader_json]); on a
    file with entries of another shape the sort raises and nothing is
    written. *)

Definition MAX_LEADERS : nat := 10.

Record Leader := mkLeader {
  leader_name : string;
  leader_score : Z;
  leader_time : Q
}.

(** [str.upper] on the ASCII range, where it changes the letters a to z
    only and keeps the length. Outside that range Python's [upper] can
    lengthen a string (the sharp s becomes "SS"); [is_ascii] below marks
    the strings on which [upper] is Python's. *)
Definition upper_char (c : ascii) : ascii :=
  let n := nat_of_ascii c in
  if ((97 <=? n) && (n <=? 122))%nat then ascii_of_nat (n - 32) else c.

(** [s.upper()] *)
Fixpoint upper (s : string) : string :=
  match s with
  | EmptyString => EmptyString
  | String c r => String (upper_char c) (upper r)
  end.

(** [s.isascii()]: every character is below 128. *)
Fixpoint is_ascii (s : string) : bool :=
  match s with
  | EmptyString => true
  | String c r => (nat_of_ascii c <? 128)%nat && is_ascii r
  end.

(** [s[:n]] *)
Fixpoint take (n : nat) (s : string) : string :=
  match n, s with
  | S n', String c r => String c (take n' r)
  | _, _ => EmptyString
  end.

(** The dictionary [{"name": ..., "score": ..., "time": ...}] of an
    entry, as the file holds it. *)
Definition leader_json (l : Leader) : Json :=
  JDict [("name", JStr (leader_name l));
         ("score", JInt (leader_score l));
         ("time", JFloat (leader_time l))].

(** [board.sort(key=lambda x: x["score"], reverse=True)]: the sort is
    stable, entries of equal score keep the order they had. [x] comes
    from before the entries of [l]. *)
Fixpoint insert_leader (x : Leader) (l : list Leader) : list Leader :=
  match l with
  | [] => [x]
  | y :: l' =>
      if (leader_score x <? leader_score y)%Z then y :: insert_leader x l'
      else x :: l
  end.

Definition sort_by_score (board : list Leader) : list Leader :=
  fold_right insert_leader [] board.

(** What [save_leaderboard] writes: [board[:MAX_LEADERS]]. *)
Definition save_leaderboard (board : list Leader) : list Leader :=
  firstn MAX_LEADERS board.

(** [save_score_and_exit]: the board written to the file, [board] being
    the one loaded, [final_score] the score of the game and [now] the
    reading of the clock. *)
Definition save_score_and_exit (name : string) (final_score : Z) (now : Q)
           (board : list Leader) : list Leader :=
  let name := if truthy name then name else "ANON" in
  let board :=
    board ++ [mkLeader (upper (take 3 name)) final_score now] in
  let board := sort_by_score board in
  let board := firstn MAX_LEADERS board in
  save_leaderboard board.

(** [SummaryWindow.on_save]: [answer] is what the dialog returned,
    [None] when it was cancelled; the result is the board written, if
    any. *)
Definition on_save (answer : option string) (final_score : Z) (now : Q)
           (board : list Leader) : option (list Leader) :=
  match answer with
  | Some name =>
      if truthy name
      then Some (save_score_and_exit (upper (take 3 name)) final_score now
                                     board)
      else None
  | None => None
  end.

(** ** Highlighting

    [highlight_in_text] looks for the token in the text shown, both in
    lower case, and tags the characters from the first occurrence. *)

(** [t.find(u)] counted from position [i] of the whole text: the least
    index at which [u] occurs, [None] for Python's [-1]. *)
Fixpoint find_from (t u : string) (i : nat) : option nat :=
  if startswith t u then Some i
  else match t with
       | EmptyString => None
       | String _ t' => find_from t' u (S i)
       end.

Definition find (t u : string) : option nat := find_from t u 0.

(** The range of characters tagged, as (start, end), if any. *)
Definition highlight_in_text (content token : string) : option (nat * nat) :=
  match find (lower content) (lower token) with
  | Some idx => Some (idx, (idx + String.length token)%nat)
  | None => None
  end.

(** [s[k:]] *)
Fixpoint drop (k : nat) (s : string) : string :=
  match k, s with
  | S k', String _ r => drop k' r
  | _, _ => s
  end.

(** The order of the board: [a] may stand before [b]. *)
Definition by_score (a b : Leader) : Prop :=
  (leader_score b <= leader_score a)%Z.

(** ** Sessions used as examples *)

Definition no_game : Game :=
  mkGame [] 0 0 0 0 [] [] None false None 0 0 MsgEmpty false [] 0 [].

(** The session built over [emails] at time [now], with no leaderboard
    file. *)
Definition session (emails : list Email) (rs : list nat) (now : Q) : Game :=
  match __init__ emails rs [] now with
  | inr g => g
  | inl _ => no_game
  end.

(** A session on [EMAILS] started at time 0; its first level is the
    "Bank Security Notice". *)
Definition demo_session : Game := session EMAILS demo_rs 0.

(** A wrong guess and a hint, one and two seconds into the first
    level. *)
Definition wrong_then_hint : list Event :=
  [(1%Q, Submit "zzz"); (2%Q, Hint 0%nat)].

(** A pause of thirty seconds, from half a second into the level. *)
Definition pause_thirty : list Event :=
  [((1 # 2)%Q, TogglePause); ((61 # 2)%Q, TogglePause)].

(** The clock readings 1, 2, ..., n. *)
Definition seconds (n : nat) : list Q :=
  map (fun k => inject_Z (Z.of_nat k)) (seq 1 n).

(** "verify" is found half a second into the first level, then the
    timer fires 39 times: the countdown shows 0. *)
Definition countdown : list Event :=
  ((1 # 2)%Q, Submit "verify") :: ticks (seconds 39).

(** The same, followed by a pause before the next firing. *)
Definition countdown_paused : list Event :=
  countdown ++ [((79 # 2)%Q, TogglePause)].

(** The flag "http://" of the two-flag template found after one
    second. *)
Definition found_http : list Event := [(1%Q, Submit "http://")].

(** A template that lists a flag twice. *)
Definition twice_listed : list Email :=
  [mkEmail "Notice" "Please verify, verify now." ["verify"; "verify"]].

(** The first entry of [EMAILS]. *)
Definition bank_notice : Email := hd (mkEmail "" "" []) EMAILS.

(** The template of the end-to-end scenario of the specification. *)
Definition two_flags : list Email :=
  [mkEmail "Notice" "Open http://example.test to avoid suspension."
           ["http://"; "suspension"]].

Definition two_flags_session : Game := session two_flags [] 0.

(** [inv] as a record of propositions. *)
Record Inv (s : Game) : Prop := mkInv {
  inv_score : (0 <= score s)%Z;
  inv_total :
    total_levels s = Z.min 5 (Z.of_nat (List.length (all_emails s)));
  inv_level : level_ok s = true;
  inv_found : found_ok s = true;
  inv_timer : timer_ok s = true;
  inv_paused : paused s = true -> after_pending s = [];
  inv_pb : pb_maximum s = level_time (current_level s);
  inv_time : (0 <= time_left s <= pb_maximum s)%Z;
  inv_start : (0 < total_levels s)%Z -> start_time s <> None
}.

(** * Properties *)

(** Projections of updated states are computed, arithmetic is left
    alone. *)
Ltac gsimpl :=
  cbn [all_emails total_levels current_level score lives flags_found results start_time paused timer_id time_left pb_maximum lbl_msg btn_next after_pending after_next summaries
       set_all_emails set_current_level set_score set_lives
       set_flags_found set_results set_start_time set_paused
       set_timer_id set_time_left set_pb_maximum set_lbl_msg
       set_btn_next set_after_pending set_after_next set_summaries
       state_of bind negb andb orb fst snd] in *.

Ltac conj_split := repeat match goal with |- _ /\ _ => split end.

Ltac gsimpl_goal :=
  cbn [all_emails total_levels current_level score lives flags_found results start_time paused timer_id time_left pb_maximum lbl_msg btn_next after_pending after_next summaries
       set_all_emails set_current_level set_score set_lives
       set_flags_found set_results set_start_time set_paused
       set_timer_id set_time_left set_pb_maximum set_lbl_msg
       set_btn_next set_after_pending set_after_next set_summaries
       state_of bind negb andb orb fst snd].

(** ** Strings *)

Lemma is_space_lower_char (c : ascii) :
  is_space (lower_char c) = is_space c.
Proof. destruct c as [[] [] [] [] [] [] [] []]; reflexivity. Qed.

Lemma lstrip_lower (s : string) : lstrip (lower s) = lower (lstrip s).
Proof.
  induction s as [|c r IH]; simpl; [reflexivity|].
  rewrite is_space_lower_char. destruct (is_space c); [exact IH | reflexivity].
Qed.

Lemma rstrip_lower (s : string) : rstrip (lower s) = lower (rstrip s).
Proof.
  induction s as [|c r IH]; simpl; [reflexivity|].
  rewrite IH, is_space_lower_char.
  destruct (rstrip r); simpl; [destruct (is_space c)|]; reflexivity.
Qed.

Lemma strip_lower (s : string) : strip (lower s) = lower (strip s).
Proof. unfold strip. now rewrite lstrip_lower, rstrip_lower. Qed.

Lemma rstrip_idem (s : string) : rstrip (rstrip s) = rstrip s.
Proof.
  induction s as [|c r IH]; simpl; [reflexivity|].
  destruct (rstrip r) eqn:E.
  - destruct (is_space c) eqn:Ec; simpl; [reflexivity | now rewrite Ec].
  - simpl in *. now rewrite IH.
Qed.

Lemma lstrip_clean (s : string) : starts_clean (lstrip s).
Proof.
  induction s as [|c r IH]; simpl; [exact I|].
  destruct (is_space c) eqn:E; [exact IH | exact E].
Qed.

Lemma rstrip_clean (s : string) : starts_clean s -> starts_clean (rstrip s).
Proof.
  destruct s as [|c r]; simpl; [trivial|]. intros E.
  destruct (rstrip r); [rewrite E|]; exact E.
Qed.

Lemma lstrip_of_clean (s : string) : starts_clean s -> lstrip s = s.
Proof. destruct s as [|c r]; simpl; [trivial|]. now intros ->. Qed.

Lemma strip_idem (s : string) : strip (strip s) = strip s.
Proof.
  unfold strip.
  rewrite (lstrip_of_clean (rstrip (lstrip s))).
  - apply rstrip_idem.
  - apply rstrip_clean, lstrip_clean.
Qed.

Lemma truthy_strip (s : string) : truthy (strip s) = true -> truthy s = true.
Proof. destruct s; [discriminate | reflexivity]. Qed.

Lemma truthy_String (s : string) :
  truthy s = true -> exists c r, s = String c r.
Proof. destruct s as [|c r]; [discriminate | eauto]. Qed.

Lemma mem_In (x : string) (l : list string) : mem x l = true <-> In x l.
Proof.
  unfold mem. rewrite existsb_exists. split.
  - intros [y [Hy E]]. apply String.eqb_eq in E. now subst.
  - intros H. exists x. split; [exact H | apply String.eqb_refl].
Qed.

Lemma mem_not_In (x : string) (l : list string) :
  mem x l = false <-> ~ In x l.
Proof.
  rewrite <- mem_In. destruct (mem x l); split; congruence.
Qed.

Lemma nodupb_NoDup (l : list string) : nodupb l = true <-> NoDup l.
Proof.
  induction l as [|x r IH]; simpl.
  - split; [constructor | reflexivity].
  - rewrite andb_true_iff, negb_true_iff, mem_not_In, IH. split.
    + intros [H1 H2]. now constructor.
    + intros H. inversion H. auto.
Qed.

(** ** The matcher *)

Lemma fuzzy_match_truthy (u t : string) :
  fuzzy_match u t = true -> truthy u = true /\ truthy t = true.
Proof.
  unfold fuzzy_match. destruct (truthy u), (truthy t); simpl; auto; discriminate.
Qed.

Lemma fuzzy_match_empty_guess (t : string) : fuzzy_match "" t = false.
Proof. reflexivity. Qed.

Lemma fuzzy_match_empty_token (g : string) : fuzzy_match g "" = false.
Proof. unfold fuzzy_match. destruct (truthy g); reflexivity. Qed.

(** A flag typed as it is written matches itself, unless it is blank. *)
Lemma fuzzy_match_self (h : string) :
  truthy (strip h) = true -> fuzzy_match (strip h) h = true.
Proof.
  intros H. unfold fuzzy_match.
  rewrite H, (truthy_strip _ H). simpl.
  rewrite !strip_lower, strip_idem, String.eqb_refl. reflexivity.
Qed.

(** ** The search loop of [on_submit] *)

Lemma find_flag_Some (u : string) (fnd fs : list string) (f : string) :
  find_flag u fnd fs = Some f ->
  exists pre post,
    fs = pre ++ f :: post /\
    (forall g, In g pre -> mem g fnd = true \/ fuzzy_match u g = false) /\
    mem f fnd = false /\ fuzzy_match u f = true.
Proof.
  induction fs as [|x fs IH]; simpl; [discriminate|].
  destruct (mem x fnd) eqn:Em; [|destruct (fuzzy_match u x) eqn:Ef].
  - intros H. destruct (IH H) as (pre & post & -> & Hpre & Hf).
    exists (x :: pre), post. split; [reflexivity|]. split; [|exact Hf].
    intros g [<-|Hg]; auto.
  - intros [= <-]. exists [], fs. split; [reflexivity|].
    split; [intros g []|]. split; assumption.
  - intros H. destruct (IH H) as (pre & post & -> & Hpre & Hf).
    exists (x :: pre), post. split; [reflexivity|]. split; [|exact Hf].
    intros g [<-|Hg]; auto.
Qed.

Lemma find_flag_None (u : string) (fnd fs : list string) :
  find_flag u fnd fs = None <->
  (forall g, In g fs -> mem g fnd = true \/ fuzzy_match u g = false).
Proof.
  induction fs as [|x fs IH]; simpl.
  - split; [intros _ g [] | reflexivity].
  - destruct (mem x fnd) eqn:Em; [|destruct (fuzzy_match u x) eqn:Ef].
    + rewrite IH. split; [intros H g [<-|Hg]; auto | intros H g Hg; auto].
    + split; [discriminate|]. intros H.
      destruct (H x (or_introl eq_refl)); congruence.
    + rewrite IH. split; [intros H g [<-|Hg]; auto | intros H g Hg; auto].
Qed.

Lemma find_flag_In (u : string) (fnd fs : list string) (f : string) :
  find_flag u fnd fs = Some f ->
  In f fs /\ ~ In f fnd /\ fuzzy_match u f = true /\ truthy u = true.
Proof.
  intros H. destruct (find_flag_Some _ _ _ _ H) as (pre & post & -> & _ & Hm & Hf).
  repeat split.
  - apply in_or_app. right. left. reflexivity.
  - now apply mem_not_In.
  - exact Hf.
  - apply (fuzzy_match_truthy _ _ Hf).
Qed.

(** All flags found: the loop finds nothing, whatever is typed. *)
Lemma find_flag_all_found (u : string) (fnd fs : list string) :
  all_found fs fnd = true -> find_flag u fnd fs = None.
Proof.
  unfold all_found. rewrite forallb_forall. intros H.
  apply find_flag_None. intros g Hg. left. auto.
Qed.

(** ** [on_submit], branch by branch *)

Lemma on_submit_matched (entry : string) (now t0 : Q) (s : Game)
      (e : Email) (f : string) :
  paused s = false ->
  getitem (all_emails s) (current_level s) = Some e ->
  find_flag (strip entry) (flags_found s) (flags e) = Some f ->
  start_time s = Some t0 ->
  on_submit entry now s =
  let s1 := credited f (10 + speed_bonus (pb_maximum s) (now - t0)) s in
  if (List.length (flags_found s ++ [f]) =? List.length (flags e))%nat
  then Done (perfected s1) else Done s1.
Proof.
  intros Hp He Hf Ht.
  destruct (find_flag_In _ _ _ _ Hf) as (_ & _ & Hm & Hu).
  destruct (truthy_String f (proj2 (fuzzy_match_truthy _ _ Hm))) as (c & r & ->).
  unfold on_submit. rewrite Hp, Hu. gsimpl. rewrite He, Hf. gsimpl.
  rewrite Ht. gsimpl.
  assert (H1 : (1 <=? List.length (flags_found s ++ [String c r]))%nat = true).
  { apply Nat.leb_le. rewrite length_app. simpl. lia. }
  rewrite H1. gsimpl.
  destruct (List.length (flags_found s ++ [String c r]) =? List.length (flags e))%nat;
    reflexivity.
Qed.

Lemma on_submit_unmatched (entry : string) (now : Q) (s : Game) (e : Email) :
  paused s = false ->
  truthy (strip entry) = true ->
  getitem (all_emails s) (current_level s) = Some e ->
  find_flag (strip entry) (flags_found s) (flags e) = None ->
  on_submit entry now s =
  Done (set_lbl_msg MsgNotRecognized (set_score (Z.max 0 (score s - 3)) s)).
Proof.
  intros Hp Hu He Hf. unfold on_submit. rewrite Hp, Hu, He, Hf. reflexivity.
Qed.

Lemma speed_bonus_nonneg (m : Z) (el : Q) : (0 <= speed_bonus m el)%Z.
Proof. unfold speed_bonus. lia. Qed.

(** ** The countdown *)

Lemma stop_timer_frame (s : Game) :
  all_emails (stop_timer s) = all_emails s /\
  total_levels (stop_timer s) = total_levels s /\
  current_level (stop_timer s) = current_level s /\
  score (stop_timer s) = score s /\
  lives (stop_timer s) = lives s /\
  flags_found (stop_timer s) = flags_found s /\
  results (stop_timer s) = results s /\
  start_time (stop_timer s) = start_time s /\
  paused (stop_timer s) = paused s /\
  time_left (stop_timer s) = time_left s /\
  pb_maximum (stop_timer s) = pb_maximum s /\
  lbl_msg (stop_timer s) = lbl_msg s /\
  btn_next (stop_timer s) = btn_next s /\
  after_next (stop_timer s) = after_next s /\
  summaries (stop_timer s) = summaries s /\
  timer_id (stop_timer s) = None.
Proof.
  unfold stop_timer. destruct (timer_id s) eqn:E; gsimpl; rewrite ?E; tauto.
Qed.

(** With at most the tick of [timer_id] pending, [stop_timer] leaves no
    callback behind. *)
Lemma stop_timer_pending (s : Game) :
  timer_ok s = true -> after_pending (stop_timer s) = [].
Proof.
  unfold timer_ok, stop_timer, after_cancel.
  destruct (after_pending s) as [|id [|id' l]] eqn:Ep; try discriminate.
  - destruct (timer_id s); gsimpl; auto.
  - destruct (timer_id s) as [id'|]; [|discriminate].
    intros H. apply Nat.eqb_eq in H. subst id'. gsimpl. simpl.
    now rewrite Nat.eqb_refl.
Qed.

Lemma credited_frame f gained s :
  score (credited f gained s) = (score s + gained)%Z /\
  flags_found (credited f gained s) = flags_found s ++ [f] /\
  after_pending (credited f gained s) = after_pending s /\
  timer_id (credited f gained s) = timer_id s /\
  lbl_msg (credited f gained s) = MsgMatched f /\
  lives (credited f gained s) = lives s /\
  current_level (credited f gained s) = current_level s /\
  time_left (credited f gained s) = time_left s.
Proof. unfold credited. gsimpl_goal. repeat split. Qed.

Lemma perfected_frame s :
  score (perfected s) = (score s + BONUS_PERFECT)%Z /\
  flags_found (perfected s) = flags_found s /\
  timer_id (perfected s) = None /\
  lbl_msg (perfected s) = MsgAllFound /\
  lives (perfected s) = lives s /\
  current_level (perfected s) = current_level s /\
  time_left (perfected s) = time_left s /\
  (timer_ok s = true -> after_pending (perfected s) = []).
Proof.
  unfold perfected.
  remember (set_lbl_msg MsgAllFound (set_score (score s + BONUS_PERFECT) s))
    as s1 eqn:Es1.
  assert (F : score s1 = (score s + BONUS_PERFECT)%Z /\
              flags_found s1 = flags_found s /\ lives s1 = lives s /\
              current_level s1 = current_level s /\
              time_left s1 = time_left s /\ timer_ok s1 = timer_ok s /\
              lbl_msg s1 = MsgAllFound)
    by (subst s1; repeat split).
  destruct F as (F1 & F2 & F3 & F4 & F5 & F6 & F7).
  destruct (stop_timer_frame s1)
    as (_ & _ & E3 & E4 & E5 & E6 & _ & _ & _ & E10 & _ & E12 & _ & _ & _ & E16).
  pose proof (stop_timer_pending s1) as Hp. clear Es1.
  gsimpl_goal. rewrite E3, E4, E5, E6, E10, E12, E16, F1, F2, F3, F4, F5, F7.
  rewrite F6 in Hp. repeat split; auto.
Qed.

Ltac stop_frame :=
  repeat match goal with
    | |- context [stop_timer ?s] =>
        lazymatch goal with
        | _ : timer_id (stop_timer s) = None |- _ => fail
        | _ =>
            destruct (stop_timer_frame s)
              as (? & ? & ? & ? & ? & ? & ? & ? & ? & ? & ? & ? & ? & ? & ? & ?)
        end
    end.

Lemma tick_body_paused tick now s :
  paused s = true -> tick_body tick now s = Done s.
Proof. unfold tick_body. now intros ->. Qed.

Lemma tick_body_live tick now s :
  paused s = false -> (0 < time_left s)%Z ->
  tick_body tick now s =
  Done (schedule_tick (set_time_left (time_left s - 1) s)).
Proof.
  unfold tick_body. intros -> H.
  apply Z.leb_gt in H. now rewrite H.
Qed.

Lemma tick_body_expired tick now s :
  paused s = false -> (time_left s <= 0)%Z ->
  tick_body tick now s = on_time_up_with tick now s.
Proof.
  unfold tick_body. intros -> H.
  apply Z.leb_le in H. now rewrite H.
Qed.

Lemma level_time_pos (level : Z) : (10 <= level_time level)%Z.
Proof. unfold level_time. lia. Qed.

(** A level that has just been loaded cannot expire at its first tick:
    the [_tick] called from [load_level] never calls further. *)
Lemma load_level_with_indep f g level_index now s :
  load_level_with (tick_body f) level_index now s =
  load_level_with (tick_body g) level_index now s.
Proof.
  unfold load_level_with. gsimpl.
  destruct (total_levels s <=? level_index)%Z; [reflexivity|].
  destruct (getitem (all_emails s) level_index); [|reflexivity].
  unfold start_timer_with.
  match goal with |- tick_body _ _ (stop_timer ?x) = _ =>
    destruct (stop_timer_frame x)
      as (_ & _ & _ & _ & _ & _ & _ & _ & Hp & Ht & _); gsimpl;
    destruct (paused s) eqn:E
  end.
  - rewrite !tick_body_paused; auto.
  - pose proof (level_time_pos level_index).
    rewrite !tick_body_live; auto; lia.
Qed.

Lemma save_result_and_continue_with_indep f g skip now s :
  save_result_and_continue_with (tick_body f) skip now s =
  save_result_and_continue_with (tick_body g) skip now s.
Proof.
  unfold save_result_and_continue_with.
  destruct (getitem (all_emails s) (current_level s)) as [current|];
    [|reflexivity].
  cbv zeta.
  set (s1 := stop_timer _).
  destruct (lives s1 <=? 0)%Z; [reflexivity|].
  destruct (total_levels s1 <=? current_level s1 + 1)%Z; [reflexivity|].
  apply load_level_with_indep.
Qed.

Lemma on_time_up_with_indep f g now s :
  on_time_up_with (tick_body f) now s = on_time_up_with (tick_body g) now s.
Proof. apply save_result_and_continue_with_indep. Qed.

(** [_tick] satisfies the equation the source writes. *)
Lemma _tick_eq now s : _tick now s = tick_body _tick now s.
Proof.
  unfold _tick. simpl. unfold tick_body at 1 3.
  destruct (paused s); [reflexivity|].
  destruct (time_left s <=? 0)%Z; [|reflexivity].
  apply on_time_up_with_indep.
Qed.

(** Allowing deeper nesting changes nothing. *)
Lemma tick_depth_enough depth now s :
  tick_at_depth (S (S depth)) now s = _tick now s.
Proof.
  unfold _tick. simpl. unfold tick_body at 1 3.
  destruct (paused s); [reflexivity|].
  destruct (time_left s <=? 0)%Z; [|reflexivity].
  apply on_time_up_with_indep.
Qed.

Lemma _tick_expired now s :
  paused s = false -> (time_left s <= 0)%Z -> _tick now s = on_time_up now s.
Proof. intros. rewrite _tick_eq. now apply tick_body_expired. Qed.

Lemma _tick_live now s :
  paused s = false -> (0 < time_left s)%Z ->
  _tick now s = Done (schedule_tick (set_time_left (time_left s - 1) s)).
Proof. intros. rewrite _tick_eq. now apply tick_body_live. Qed.

Lemma _tick_paused now s : paused s = true -> _tick now s = Done s.
Proof. intros. rewrite _tick_eq. now apply tick_body_paused. Qed.

Lemma load_level_loaded level_index now s e :
  (level_index < total_levels s)%Z ->
  getitem (all_emails s) level_index = Some e ->
  load_level level_index now s =
  let s1 := stop_timer (fresh_level level_index now s) in
  if paused s then Done s1
  else Done (schedule_tick (set_time_left (level_time level_index - 1) s1)).
Proof.
  intros Hl He. unfold load_level, load_level_with. gsimpl.
  apply Z.leb_gt in Hl. rewrite Hl, He.
  unfold start_timer_with. fold (fresh_level level_index now s).
  destruct (stop_timer_frame (fresh_level level_index now s))
    as (_ & _ & _ & _ & _ & _ & _ & _ & Hp & Ht & _).
  unfold fresh_level in Hp, Ht at 2. gsimpl.
  destruct (paused s) eqn:E.
  - now rewrite _tick_paused.
  - pose proof (level_time_pos level_index).
    rewrite _tick_live; [now rewrite Ht | exact Hp | lia].
Qed.

Lemma load_level_finished level_index now s :
  (total_levels s <= level_index)%Z ->
  load_level level_index now s =
  Done (finish_game (set_current_level level_index s)).
Proof.
  intros Hl. unfold load_level, load_level_with. gsimpl.
  apply Z.leb_le in Hl. now rewrite Hl.
Qed.

(** ** The invariant *)

Lemma inv_Inv (s : Game) : inv s = true <-> Inv s.
Proof.
  unfold inv. rewrite !andb_true_iff, orb_true_iff, negb_true_iff.
  rewrite !Z.leb_le, !Z.eqb_eq. unfold started_ok.
  rewrite orb_true_iff, Z.leb_le. split.
  - intros ((((((((H1 & H2) & H3) & H4) & H5) & H6) & H7) & H8 & H9) & H10).
    constructor; auto.
    + intros Hp. destruct H6 as [H6|H6]; [congruence|].
      destruct (after_pending s); [reflexivity | discriminate].
    + intros Ht. destruct H10 as [H10|H10]; [lia|].
      destruct (start_time s); [discriminate | discriminate].
  - intros [H1 H2 H3 H4 H5 H6 H7 H8 H9]. repeat split; auto; try lia.
    + destruct (paused s); [right; now rewrite H6 | now left].
    + destruct (Z_le_gt_dec (total_levels s) 0) as [Hl|Hl]; [now left|right].
      destruct (start_time s); [reflexivity|]. exfalso. apply H9; [lia | reflexivity].
Qed.

Lemma level_ok_spec (s : Game) :
  level_ok s = true <->
  (0 <= current_level s)%Z /\
  ((current_level s < total_levels s)%Z \/
   (total_levels s = 0 /\ current_level s = 0)%Z).
Proof.
  unfold level_ok.
  rewrite andb_true_iff, orb_true_iff, andb_true_iff.
  rewrite Z.leb_le, Z.ltb_lt, !Z.eqb_eq. tauto.
Qed.

Lemma found_ok_spec (s : Game) :
  found_ok s = true <->
  NoDup (flags_found s) /\
  match getitem (all_emails s) (current_level s) with
  | Some e => incl (flags_found s) (flags e)
  | None => flags_found s = []
  end.
Proof.
  unfold found_ok. rewrite andb_true_iff, nodupb_NoDup.
  destruct (getitem (all_emails s) (current_level s)) as [e|].
  - rewrite forallb_forall. unfold incl.
    split; intros [H1 H2]; split; auto; intros x Hx; apply mem_In; auto.
  - destruct (flags_found s); split; intros [H1 H2]; split; auto; discriminate.
Qed.

Lemma getitem_nonneg {A} (l : list A) (i : Z) :
  (0 <= i)%Z -> getitem l i = nth_error l (Z.to_nat i).
Proof. unfold getitem. intros H. apply Z.leb_le in H. now rewrite H. Qed.

Lemma getitem_in_range {A} (l : list A) (i : Z) :
  (0 <= i < Z.of_nat (List.length l))%Z -> exists x, getitem l i = Some x.
Proof.
  intros H. rewrite getitem_nonneg by lia.
  destruct (nth_error l (Z.to_nat i)) eqn:E; [eauto|].
  apply nth_error_None in E. lia.
Qed.

Lemma getitem_nil {A} (i : Z) : getitem (@nil A) i = None.
Proof.
  unfold getitem. simpl.
  destruct (0 <=? i)%Z; [now destruct (Z.to_nat i)|].
  destruct (- 0 <=? i)%Z; [now destruct (Z.to_nat (0 + i))|reflexivity].
Qed.

Lemma getitem_In {A} (l : list A) (i : Z) (x : A) :
  getitem l i = Some x -> In x l.
Proof.
  unfold getitem.
  destruct (0 <=? i)%Z; [apply nth_error_In|].
  destruct (_ <=? i)%Z; [apply nth_error_In | discriminate].
Qed.

(** Under the invariant the current template exists as soon as there is
    a level to play, and only then. *)
Lemma Inv_current (s : Game) :
  Inv s ->
  ((0 < total_levels s)%Z /\
   exists e, getitem (all_emails s) (current_level s) = Some e) \/
  (total_levels s = 0%Z /\ current_level s = 0%Z /\ all_emails s = [] /\
   getitem (all_emails s) (current_level s) = None /\ flags_found s = []).
Proof.
  intros [_ Ht Hl Hf _ _ _ _ _].
  apply level_ok_spec in Hl. apply found_ok_spec in Hf.
  destruct Hl as [H0 [Hl|[Hz Hc]]].
  - left. split; [lia|]. apply getitem_in_range. lia.
  - right. assert (El : all_emails s = []).
    { destruct (all_emails s); [reflexivity|]. simpl List.length in Ht. lia. }
    rewrite El in *. rewrite getitem_nil in *. tauto.
Qed.

(** ** The random source *)

Lemma length_list_set {A} (l : list A) (i : nat) (x : A) :
  List.length (Random.list_set l i x) = List.length l.
Proof.
  revert i. induction l as [|y l IH]; intros [|i]; simpl; auto.
Qed.

Lemma Forall_list_set {A} (P : A -> Prop) (l : list A) (i : nat) (x : A) :
  Forall P l -> P x -> Forall P (Random.list_set l i x).
Proof.
  intros Hl Hx. revert i.
  induction Hl as [|y l Hy Hl IH]; intros [|i]; simpl; auto.
Qed.

Lemma length_sample_loop {A} (k i : nat) (pool : list A) (rs : list nat) :
  (i + k <= List.length pool)%nat ->
  List.length (Random.sample_loop k i pool rs) = k.
Proof.
  revert i pool rs. induction k as [|k IH]; intros i pool rs H; [reflexivity|].
  simpl.
  assert (Hj : (Random.randbelow (List.length pool - i) (hd 0%nat rs)
                < List.length pool)%nat).
  { unfold Random.randbelow.
    pose proof (Nat.mod_upper_bound (hd 0%nat rs) (List.length pool - i)). lia. }
  destruct (nth_error pool _) eqn:E1.
  2:{ apply nth_error_None in E1. lia. }
  destruct (nth_error pool (List.length pool - i - 1)) eqn:E2.
  2:{ apply nth_error_None in E2. lia. }
  simpl. f_equal. apply IH. rewrite length_list_set. lia.
Qed.

Lemma Forall_sample_loop {A} (P : A -> Prop) (k i : nat) (pool : list A)
      (rs : list nat) :
  Forall P pool -> Forall P (Random.sample_loop k i pool rs).
Proof.
  revert i pool rs. induction k as [|k IH]; intros i pool rs H; simpl; auto.
  destruct (nth_error pool _) eqn:E1; [|constructor].
  destruct (nth_error pool (List.length pool - i - 1)) eqn:E2; [|constructor].
  rewrite Forall_forall in H.
  constructor.
  - apply H. eapply nth_error_In; eauto.
  - apply IH. apply Forall_list_set.
    + now apply Forall_forall.
    + apply H. eapply nth_error_In; eauto.
Qed.

Lemma length_shuffle_loop {A} (i : nat) (x : list A) (rs : list nat) :
  List.length (Random.shuffle_loop i x rs) = List.length x.
Proof.
  revert x rs. induction i as [|i IH]; intros x rs; [reflexivity|].
  cbn [Random.shuffle_loop].
  destruct (nth_error x (S i)); [|reflexivity].
  destruct (nth_error x (Random.randbelow _ _)); [|reflexivity].
  now rewrite IH, !length_list_set.
Qed.

Lemma length_shuffle {A} (x : list A) (rs : list nat) :
  List.length (Random.shuffle x rs) = List.length x.
Proof. apply length_shuffle_loop. Qed.

Lemma Forall_shuffle {A} (P : A -> Prop) (x : list A) (rs : list nat) :
  Forall P x -> Forall P (Random.shuffle x rs).
Proof.
  unfold Random.shuffle. generalize (List.length x - 1)%nat as i.
  intros i. revert x rs. induction i as [|i IH]; intros x rs H; [assumption|].
  cbn [Random.shuffle_loop].
  destruct (nth_error x (S i)) eqn:E1; [|assumption].
  destruct (nth_error x (Random.randbelow _ _)) eqn:E2; [|assumption].
  rewrite Forall_forall in H.
  apply IH. repeat apply Forall_list_set.
  - now apply Forall_forall.
  - apply H. eapply nth_error_In; eauto.
  - apply H. eapply nth_error_In; eauto.
Qed.

Lemma choice_In {A} (seq : list A) (r : nat) :
  seq <> [] -> exists x, Random.choice seq r = Some x /\ In x seq.
Proof.
  intros H. unfold Random.choice, Random.randbelow.
  destruct (nth_error seq (r mod List.length seq)) eqn:E.
  - eexists. split; [reflexivity|]. eapply nth_error_In; eauto.
  - apply nth_error_None in E.
    assert (List.length seq <> 0)%nat by (destruct seq; simpl; congruence).
    pose proof (Nat.mod_upper_bound r (List.length seq)). lia.
Qed.

(** ** Every operation keeps the invariant *)

Ltac inv_open H :=
  destruct H as [Hscore Htotal Hlevel Hfound Htimer Hpaused Hpb Htime Hstart].

Ltac inv_unfold := unfold level_ok, found_ok, timer_ok in *; gsimpl.

(** The invariant only reads eleven fields. *)
Lemma Inv_ext (s s' : Game) :
  Inv s ->
  score s' = score s -> total_levels s' = total_levels s ->
  all_emails s' = all_emails s -> current_level s' = current_level s ->
  flags_found s' = flags_found s -> after_pending s' = after_pending s ->
  timer_id s' = timer_id s -> paused s' = paused s ->
  pb_maximum s' = pb_maximum s -> time_left s' = time_left s ->
  start_time s' = start_time s ->
  Inv s'.
Proof.
  intros H E1 E2 E3 E4 E5 E6 E7 E8 E9 E10 E11. inv_open H.
  constructor; unfold level_ok, found_ok, timer_ok in *;
    rewrite ?E1, ?E2, ?E3, ?E4, ?E5, ?E6, ?E7, ?E8, ?E9, ?E10, ?E11; auto.
Qed.

Lemma Inv_set_lbl_msg m s : Inv s -> Inv (set_lbl_msg m s).
Proof. intros H. apply (Inv_ext s); auto. Qed.

Lemma Inv_set_btn_next b s : Inv s -> Inv (set_btn_next b s).
Proof. intros H. apply (Inv_ext s); auto. Qed.

Lemma Inv_set_lives v s : Inv s -> Inv (set_lives v s).
Proof. intros H. apply (Inv_ext s); auto. Qed.

Lemma Inv_set_results v s : Inv s -> Inv (set_results v s).
Proof. intros H. apply (Inv_ext s); auto. Qed.

Lemma Inv_set_summaries v s : Inv s -> Inv (set_summaries v s).
Proof. intros H. apply (Inv_ext s); auto. Qed.

Lemma Inv_set_score v s : (0 <= v)%Z -> Inv s -> Inv (set_score v s).
Proof. intros Hv H. inv_open H. constructor; inv_unfold; auto. Qed.

Lemma Inv_set_time_left v s :
  (0 <= v <= pb_maximum s)%Z -> Inv s -> Inv (set_time_left v s).
Proof. intros Hv H. inv_open H. constructor; inv_unfold; auto. Qed.

Lemma Inv_stop_timer s : Inv s -> Inv (stop_timer s).
Proof.
  intros H. pose proof (stop_timer_pending s (inv_timer s H)) as Hp.
  destruct (stop_timer_frame s)
    as (E1 & E2 & E3 & E4 & E5 & E6 & E7 & E8 & E9 & E10 & E11 & _).
  inv_open H.
  constructor; unfold level_ok, found_ok, timer_ok in *;
    rewrite ?E1, ?E2, ?E3, ?E4, ?E6, ?E8, ?E9, ?E10, ?E11, ?Hp; auto.
Qed.

Lemma Inv_finish_game s : Inv s -> Inv (finish_game s).
Proof.
  intros H. unfold finish_game. apply Inv_set_summaries, Inv_stop_timer, H.
Qed.

Lemma Inv_schedule_tick s :
  Inv s -> after_pending s = [] -> paused s = false -> Inv (schedule_tick s).
Proof.
  intros H Hp Hq. inv_open H. unfold schedule_tick.
  constructor; inv_unfold; auto.
  - rewrite Hp. simpl. apply Nat.eqb_refl.
  - congruence.
Qed.

Lemma Inv_pause s :
  Inv s -> Inv (set_lbl_msg MsgPaused (stop_timer (set_paused true s))).
Proof.
  intros H. apply Inv_set_lbl_msg.
  assert (Ht : timer_ok (set_paused true s) = true) by apply H.
  pose proof (stop_timer_pending _ Ht) as Hp.
  destruct (stop_timer_frame (set_paused true s))
    as (E1 & E2 & E3 & E4 & E5 & E6 & E7 & E8 & E9 & E10 & E11 & _).
  gsimpl. inv_open H.
  constructor; unfold level_ok, found_ok, timer_ok in *;
    rewrite ?E1, ?E2, ?E3, ?E4, ?E6, ?E8, ?E10, ?E11, ?Hp; auto.
Qed.

(** The state handed to [_tick] on resume. *)
Lemma Inv_resume s :
  Inv s -> Inv (stop_timer (set_paused false s)) /\
           after_pending (stop_timer (set_paused false s)) = [] /\
           paused (stop_timer (set_paused false s)) = false.
Proof.
  intros H.
  assert (Ht : timer_ok (set_paused false s) = true) by apply H.
  pose proof (stop_timer_pending _ Ht) as Hp.
  destruct (stop_timer_frame (set_paused false s))
    as (E1 & E2 & E3 & E4 & E5 & E6 & E7 & E8 & E9 & E10 & E11 & _).
  gsimpl. split; [|auto]. inv_open H.
  constructor; unfold level_ok, found_ok, timer_ok in *;
    rewrite ?E1, ?E2, ?E3, ?E4, ?E6, ?E8, ?E9, ?E10, ?E11, ?Hp; auto.
Qed.

(** A level freshly loaded satisfies the invariant, whatever the flags
    and the clock of the level before. *)
Lemma Inv_load_level level_index now s :
  (0 <= score s)%Z ->
  total_levels s = Z.min 5 (Z.of_nat (List.length (all_emails s))) ->
  timer_ok s = true ->
  (0 <= level_index < total_levels s)%Z ->
  exists s', load_level level_index now s = Done s' /\ Inv s' /\
             current_level s' = level_index /\ flags_found s' = [] /\
             score s' = score s /\ lives s' = lives s /\
             results s' = results s /\ all_emails s' = all_emails s /\
             total_levels s' = total_levels s /\ paused s' = paused s /\
             summaries s' = summaries s.
Proof.
  intros Hs Ht Htm Hl.
  destruct (getitem_in_range (all_emails s) level_index) as [e He]; [lia|].
  rewrite (load_level_loaded _ _ _ e) by (lia || assumption). cbv zeta.
  destruct (stop_timer_frame (fresh_level level_index now s))
    as (E1 & E2 & E3 & E4 & E5 & E6 & E7 & E8 & E9 & E10 & E11 & E12 & E13 & E14 & E15 & E16).
  unfold fresh_level in *. gsimpl.
  set (s1 := stop_timer _) in *.
  assert (Hp : after_pending s1 = [])
    by (apply stop_timer_pending; exact Htm).
  pose proof (level_time_pos level_index) as Hlt.
  assert (Hinv : Inv s1).
  { constructor; unfold level_ok, found_ok, timer_ok;
      rewrite ?E1, ?E2, ?E3, ?E4, ?E6, ?E8, ?E9, ?E10, ?E11, ?Hp; auto.
    - apply andb_true_iff. split; [apply Z.leb_le; lia|].
      apply orb_true_iff. left. apply Z.ltb_lt. lia.
    - rewrite He. reflexivity.
    - lia.
    - discriminate. }
  destruct (paused s) eqn:Eq.
  - exists s1. split; [reflexivity|]. split; [exact Hinv|].
    repeat split; auto.
  - eexists. split; [reflexivity|]. split.
    + apply Inv_schedule_tick; gsimpl; auto.
      apply Inv_set_time_left; [lia | exact Hinv].
    + unfold schedule_tick. gsimpl_goal. conj_split; assumption.
Qed.

Lemma save_result_and_continue_eq skip now s e :
  getitem (all_emails s) (current_level s) = Some e ->
  save_result_and_continue skip now s =
  let s1 := recorded skip e s in
  if (lives s <=? 0)%Z then Done (finish_game s1)
  else if (total_levels s <=? current_level s + 1)%Z
  then Done (finish_game s1)
  else load_level (current_level s + 1) now
         (set_current_level (current_level s + 1) s1).
Proof.
  intros He. unfold save_result_and_continue, save_result_and_continue_with.
  rewrite He. cbv zeta. fold (level_result skip e s). fold (recorded skip e s).
  unfold recorded.
  match goal with |- context [stop_timer ?x] =>
    destruct (stop_timer_frame x) as (_ & E2 & E3 & _ & E5 & _)
  end.
  gsimpl. rewrite E2, E3, E5. reflexivity.
Qed.

Lemma recorded_frame skip e s :
  Inv s ->
  Inv (recorded skip e s) /\
  after_pending (recorded skip e s) = [] /\
  score (recorded skip e s) = score s /\
  lives (recorded skip e s) = lives s /\
  results (recorded skip e s) = results s ++ [level_result skip e s] /\
  all_emails (recorded skip e s) = all_emails s /\
  total_levels (recorded skip e s) = total_levels s /\
  current_level (recorded skip e s) = current_level s /\
  flags_found (recorded skip e s) = flags_found s /\
  paused (recorded skip e s) = paused s /\
  summaries (recorded skip e s) = summaries s.
Proof.
  intros H. unfold recorded.
  assert (H' : Inv (set_results (results s ++ [level_result skip e s]) s))
    by now apply Inv_set_results.
  split; [now apply Inv_stop_timer|].
  split; [apply stop_timer_pending, H'|].
  match goal with |- context [stop_timer ?x] =>
    destruct (stop_timer_frame x)
      as (E1 & E2 & E3 & E4 & E5 & E6 & E7 & E8 & E9 & E10 & E11 & E12 & E13 & E14 & E15 & E16)
  end.
  gsimpl. repeat split; assumption.
Qed.

Lemma finish_game_frame s :
  score (finish_game s) = score s /\ lives (finish_game s) = lives s /\
  results (finish_game s) = results s /\
  all_emails (finish_game s) = all_emails s /\
  total_levels (finish_game s) = total_levels s /\
  current_level (finish_game s) = current_level s /\
  flags_found (finish_game s) = flags_found s /\
  paused (finish_game s) = paused s /\
  summaries (finish_game s) = summaries s ++ [score s].
Proof.
  unfold finish_game.
  destruct (stop_timer_frame s)
    as (E1 & E2 & E3 & E4 & E5 & E6 & E7 & E8 & E9 & E10 & E11 & E12 & E13 & E14 & E15 & E16).
  gsimpl. rewrite E15, E4. repeat split; assumption.
Qed.

(** Finalising a level: the record is appended, score and lives are
    kept, and the session ends or the next level is loaded. *)
Lemma save_result_and_continue_sound skip now s e :
  Inv s ->
  getitem (all_emails s) (current_level s) = Some e ->
  exists s',
    save_result_and_continue skip now s = Done s' /\ Inv s' /\
    score s' = score s /\ lives s' = lives s /\
    results s' = results s ++ [level_result skip e s] /\
    all_emails s' = all_emails s /\ total_levels s' = total_levels s /\
    paused s' = paused s /\
    ((lives s <= 0 \/ total_levels s <= current_level s + 1)%Z ->
     current_level s' = current_level s /\ flags_found s' = flags_found s /\
     summaries s' = summaries s ++ [score s]) /\
    ((0 < lives s /\ current_level s + 1 < total_levels s)%Z ->
     current_level s' = (current_level s + 1)%Z /\ flags_found s' = [] /\
     summaries s' = summaries s).
Proof.
  intros H He. rewrite (save_result_and_continue_eq _ _ _ _ He). cbv zeta.
  destruct (recorded_frame skip e s H)
    as (Hi & Hp & R1 & R2 & R3 & R4 & R5 & R6 & R7 & R8 & R9).
  destruct (finish_game_frame (recorded skip e s))
    as (F1 & F2 & F3 & F4 & F5 & F6 & F7 & F8 & F9).
  assert (Hfin : exists s', Done (finish_game (recorded skip e s)) = Done s' /\
    Inv s' /\ score s' = score s /\ lives s' = lives s /\
    results s' = results s ++ [level_result skip e s] /\
    all_emails s' = all_emails s /\ total_levels s' = total_levels s /\
    paused s' = paused s /\
    current_level s' = current_level s /\ flags_found s' = flags_found s /\
    summaries s' = summaries s ++ [score s]).
  { eexists. split; [reflexivity|]. split; [now apply Inv_finish_game|].
    repeat split; congruence. }
  destruct (lives s <=? 0)%Z eqn:El.
  { destruct Hfin as (s' & E & ? & ? & ? & ? & ? & ? & ? & ? & ? & ?).
    exists s'. apply Z.leb_le in El. conj_split; auto; intros; (tauto || lia). }
  destruct (total_levels s <=? current_level s + 1)%Z eqn:Et.
  { destruct Hfin as (s' & E & ? & ? & ? & ? & ? & ? & ? & ? & ? & ?).
    exists s'. apply Z.leb_le in Et. conj_split; auto; intros; (tauto || lia). }
  apply Z.leb_gt in El, Et.
  pose proof (proj1 (level_ok_spec s) (inv_level s H)) as [Hl0 _].
  destruct (Inv_load_level (current_level s + 1) now
              (set_current_level (current_level s + 1) (recorded skip e s)))
    as (s' & E & Hi' & L1 & L2 & L3 & L4 & L5 & L6 & L7 & L8 & L9); gsimpl.
  - rewrite R1. apply H.
  - rewrite R5, R4. apply H.
  - unfold timer_ok. gsimpl. now rewrite Hp.
  - rewrite R5. lia.
  - exists s'. split; [exact E|]. split; [exact Hi'|].
    conj_split; try congruence; intros; conj_split; try congruence; lia.
Qed.

Lemma save_result_and_continue_none skip now s :
  getitem (all_emails s) (current_level s) = None ->
  save_result_and_continue skip now s = Raised IndexError s.
Proof.
  intros He. unfold save_result_and_continue, save_result_and_continue_with.
  now rewrite He.
Qed.

(** What a run of [_tick] can change. *)
Lemma _tick_sound now s :
  Inv s -> after_pending s = [] ->
  Inv (state_of (_tick now s)) /\
  score (state_of (_tick now s)) = score s /\
  all_emails (state_of (_tick now s)) = all_emails s /\
  total_levels (state_of (_tick now s)) = total_levels s /\
  paused (state_of (_tick now s)) = paused s.
Proof.
  intros H Hp. destruct (paused s) eqn:Eq.
  { rewrite _tick_paused by assumption. gsimpl. auto. }
  destruct (Z_lt_le_dec 0 (time_left s)) as [Hl|Hl].
  { rewrite _tick_live by assumption. gsimpl. split.
    - apply Inv_schedule_tick; gsimpl; auto.
      apply Inv_set_time_left; [|exact H].
      pose proof (inv_time s H). lia.
    - unfold schedule_tick. gsimpl. auto. }
  rewrite _tick_expired by assumption.
  unfold on_time_up, on_time_up_with. cbv zeta.
  fold save_result_and_continue.
  set (s1 := set_lives _ _).
  assert (H1 : Inv s1) by (apply Inv_set_lives, Inv_set_lbl_msg, H).
  destruct (getitem (all_emails s1) (current_level s1)) as [e|] eqn:He.
  - destruct (save_result_and_continue_sound true now s1 e H1 He)
      as (s' & E & Hi & E1 & E2 & E3 & E4 & E5 & E6 & _).
    rewrite E. subst s1. gsimpl. conj_split; congruence.
  - rewrite save_result_and_continue_none by assumption.
    subst s1. gsimpl. auto.
Qed.

Lemma Inv_credited f gained s e :
  Inv s ->
  getitem (all_emails s) (current_level s) = Some e ->
  In f (flags e) -> ~ In f (flags_found s) -> (0 <= gained)%Z ->
  Inv (credited f gained s).
Proof.
  intros H He Hf Hn Hg.
  pose proof (proj1 (found_ok_spec s) (inv_found s H)) as [Hnd Hincl].
  rewrite He in Hincl.
  inv_open H. unfold credited. constructor; gsimpl; auto; try lia.
  apply found_ok_spec. gsimpl. rewrite He. split.
  - apply NoDup_app; [assumption | repeat constructor; intros [] |].
    intros x Hx [<-|[]]. contradiction.
  - intros x Hx. apply in_app_or in Hx. destruct Hx as [Hx|[<-|[]]]; auto.
Qed.

Lemma Inv_perfected s : Inv s -> Inv (perfected s).
Proof.
  intros H. unfold perfected. apply Inv_set_btn_next, Inv_stop_timer.
  apply Inv_set_lbl_msg, Inv_set_score; [|exact H].
  pose proof (inv_score s H). unfold BONUS_PERFECT. lia.
Qed.

Lemma Inv_start_time s e :
  Inv s -> getitem (all_emails s) (current_level s) = Some e ->
  exists t0, start_time s = Some t0.
Proof.
  intros H He. destruct (Inv_current s H) as [[Ht _]|(_ & _ & _ & Hn & _)];
    [|congruence].
  pose proof (inv_start s H Ht). destruct (start_time s); [eauto | congruence].
Qed.

Lemma on_submit_Inv entry now s : Inv s -> Inv (state_of (on_submit entry now s)).
Proof.
  intros H.
  destruct (paused s) eqn:Ep; [unfold on_submit; now rewrite Ep|].
  destruct (truthy (strip entry)) eqn:Eu;
    [|unfold on_submit; now rewrite Ep, Eu].
  destruct (getitem (all_emails s) (current_level s)) as [e|] eqn:He;
    [|unfold on_submit; now rewrite Ep, Eu, He].
  destruct (find_flag (strip entry) (flags_found s) (flags e)) as [f|] eqn:Ef.
  - destruct (Inv_start_time s e H He) as [t0 Ht].
    rewrite (on_submit_matched _ _ t0 _ e f) by assumption. cbv zeta.
    destruct (find_flag_In _ _ _ _ Ef) as (Hin & Hnin & _).
    assert (Hc : Inv (credited f (10 + speed_bonus (pb_maximum s) (now - t0)) s)).
    { apply (Inv_credited _ _ _ e); auto.
      pose proof (speed_bonus_nonneg (pb_maximum s) (now - t0)). lia. }
    destruct (_ =? _)%nat; gsimpl; [now apply Inv_perfected | exact Hc].
  - rewrite (on_submit_unmatched _ _ _ e) by assumption. gsimpl.
    apply Inv_set_lbl_msg, Inv_set_score; [lia | exact H].
Qed.

(** [use_hint], branch by branch. *)
Lemma use_hint_eq r s e :
  paused s = false ->
  getitem (all_emails s) (current_level s) = Some e ->
  match unfound (flags e) (flags_found s) with
  | [] => use_hint r s = Done (set_lbl_msg MsgNoHints s)
  | remaining =>
      exists hint_token,
        Random.choice remaining r = Some hint_token /\
        In hint_token remaining /\
        let cost := Z.min 20 (HINT_COST_BASE + current_level s * 3) in
        let s1 := set_lbl_msg (MsgHint hint_token cost)
                    (set_score (Z.max 0 (score s - cost)) s) in
        use_hint r s =
        Done (if (1 <=? List.length (flags_found s))%nat
              then set_btn_next true s1 else s1)
  end.
Proof.
  intros Hp He. unfold use_hint. rewrite Hp, He.
  destruct (unfound (flags e) (flags_found s)) as [|x l] eqn:Er; [reflexivity|].
  destruct (choice_In (x :: l) r) as (h & Hc & Hin); [discriminate|].
  exists h. split; [exact Hc|]. split; [exact Hin|].
  cbv zeta. rewrite Hc. gsimpl.
  destruct (1 <=? List.length (flags_found s))%nat; reflexivity.
Qed.

Lemma use_hint_Inv r s : Inv s -> Inv (state_of (use_hint r s)).
Proof.
  intros H.
  destruct (paused s) eqn:Ep; [unfold use_hint; now rewrite Ep|].
  destruct (getitem (all_emails s) (current_level s)) as [e|] eqn:He;
    [|unfold use_hint; now rewrite Ep, He].
  pose proof (use_hint_eq r s e Ep He) as Hh.
  destruct (unfound (flags e) (flags_found s)).
  - rewrite Hh. gsimpl. now apply Inv_set_lbl_msg.
  - destruct Hh as (h & _ & _ & ->).
    assert (Hi : Inv (set_lbl_msg
                       (MsgHint h (Z.min 20 (HINT_COST_BASE + current_level s * 3)))
                       (set_score
                          (Z.max 0 (score s - Z.min 20 (HINT_COST_BASE + current_level s * 3)))
                          s)))
      by (apply Inv_set_lbl_msg, Inv_set_score; [lia | exact H]).
    destruct (1 <=? _)%nat; gsimpl; [now apply Inv_set_btn_next | exact Hi].
Qed.

Lemma save_result_and_continue_Inv skip now s :
  Inv s -> Inv (state_of (save_result_and_continue skip now s)).
Proof.
  intros H.
  destruct (getitem (all_emails s) (current_level s)) as [e|] eqn:He.
  - destruct (save_result_and_continue_sound skip now s e H He)
      as (s' & E & Hi & _).
    now rewrite E.
  - now rewrite save_result_and_continue_none.
Qed.

Lemma next_level_Inv now s : Inv s -> Inv (state_of (next_level now s)).
Proof.
  intros H. unfold next_level.
  destruct (paused s); [exact H | now apply save_result_and_continue_Inv].
Qed.

Lemma state_of_bind_msg o m :
  state_of (bind o (fun s => Done (set_lbl_msg m s))) =
  match o with
  | Done s => set_lbl_msg m s
  | Raised _ s => s
  end.
Proof. destruct o; reflexivity. Qed.

Lemma toggle_pause_Inv now s : Inv s -> Inv (state_of (toggle_pause now s)).
Proof.
  intros H. unfold toggle_pause. destruct (paused s) eqn:Ep.
  - cbv zeta. rewrite state_of_bind_msg. unfold start_timer, start_timer_with.
    destruct (Inv_resume s H) as (Hi & Hp & _).
    destruct (_tick_sound now _ Hi Hp) as (Hi' & _).
    destruct (_tick now _); gsimpl; [now apply Inv_set_lbl_msg | exact Hi'].
  - gsimpl. now apply Inv_pause.
Qed.

Lemma timer_fires_Inv now s : Inv s -> Inv (state_of (timer_fires now s)).
Proof.
  intros H. unfold timer_fires.
  destruct (after_pending s) as [|id rest] eqn:Ea; [exact H|].
  assert (Er : rest = []).
  { pose proof (inv_timer s H) as Ht. unfold timer_ok in Ht. rewrite Ea in Ht.
    destruct rest; [reflexivity | discriminate]. }
  subst rest.
  assert (Hi : Inv (set_after_pending [] s)).
  { inv_open H. constructor; inv_unfold; auto. }
  apply (_tick_sound now _ Hi). reflexivity.
Qed.

Lemma restart_game_Inv confirmed rs now s :
  Inv s -> Inv (state_of (restart_game confirmed rs now s)).
Proof.
  intros H. unfold restart_game.
  destruct confirmed; [|exact H]. cbv zeta. gsimpl.
  set (s1 := set_all_emails _ _).
  assert (Ht : total_levels s1 =
               Z.min 5 (Z.of_nat (List.length (all_emails s1)))).
  { subst s1. gsimpl. rewrite length_shuffle. apply H. }
  destruct (Inv_current s H) as [[Hpos _]|(Hz & Hc & He & _ & Hf)].
  - destruct (Inv_load_level 0 now s1) as (s' & E & Hi & _); auto.
    + subst s1. gsimpl. lia.
    + subst s1. unfold timer_ok. gsimpl. apply H.
    + subst s1. gsimpl. lia.
    + now rewrite E.
  - rewrite load_level_finished by (subst s1; gsimpl; lia).
    gsimpl. apply Inv_finish_game.
    assert (Es : Random.shuffle (all_emails s) rs = []).
    { rewrite He. reflexivity. }
    subst s1. inv_open H. constructor; inv_unfold; auto; try lia.
    + rewrite Es, Hf. rewrite getitem_nil. reflexivity.
    + rewrite Hpb, Hc. reflexivity.
Qed.

Theorem dispatch_Inv ev s : Inv s -> Inv (state_of (dispatch ev s)).
Proof.
  destruct ev as [now [entry|r| | |confirmed rs|]]; simpl.
  - apply on_submit_Inv.
  - apply use_hint_Inv.
  - apply next_level_Inv.
  - apply toggle_pause_Inv.
  - apply restart_game_Inv.
  - apply timer_fires_Inv.
Qed.

Theorem run_Inv evs s : Inv s -> Inv (run evs s).
Proof.
  revert s. induction evs as [|ev evs IH]; intros s H; simpl; [exact H|].
  apply IH, dispatch_Inv, H.
Qed.

(** [random.sample] is asked for no more than the table holds. *)
Lemma sample_granted (emails : list Email) :
  let n := Z.of_nat (List.length emails) in
  ((0 <=? Z.min n 6) && (Z.min n 6 <=? n))%Z = true.
Proof. cbv zeta. apply andb_true_iff. split; apply Z.leb_le; lia. Qed.

(** Construction fails when the leaderboard cannot be shown, with the
    exception of [update_leaderboard_ui] ... *)
Lemma __init___raises (emails : list Email) (rs : list nat)
      (board : list Json) (now : Q) (e : Exn) :
  update_leaderboard_ui board = inl e -> __init__ emails rs board now = inl e.
Proof.
  intros H. unfold __init__, Random.sample.
  rewrite (sample_granted emails). cbv zeta. rewrite H. reflexivity.
Qed.

(** ... and in that case only. *)
Lemma __init___shown (emails : list Email) (rs : list nat)
      (board : list Json) (now : Q) (g : Game) :
  __init__ emails rs board now = inr g ->
  exists rows, update_leaderboard_ui board = inr rows.
Proof.
  destruct (update_leaderboard_ui board) as [e|rows] eqn:H; [|eauto].
  rewrite (__init___raises _ _ _ _ e H). discriminate.
Qed.

(** Otherwise construction succeeds and establishes the invariant. *)
Lemma __init___sound (emails : list Email) (rs : list nat)
      (board : list Json) (now : Q) (rows : list Row) :
  update_leaderboard_ui board = inr rows ->
  exists g, __init__ emails rs board now = inr g /\ Inv g /\
    total_levels g = Z.min 5 (Z.of_nat (List.length emails)) /\
    Z.of_nat (List.length (all_emails g)) =
      Z.min (Z.of_nat (List.length emails)) 6 /\
    (forall P : Email -> Prop, Forall P emails -> Forall P (all_emails g)) /\
    score g = 0%Z /\ lives g = 3%Z /\ current_level g = 0%Z /\
    results g = [] /\ flags_found g = [] /\ paused g = false.
Proof.
  intros Hrows. unfold __init__, Random.sample. rewrite Hrows.
  set (n := Z.of_nat (List.length emails)).
  assert (Hk : ((0 <=? Z.min n 6) && (Z.min n 6 <=? n))%Z = true).
  { apply andb_true_iff. split; apply Z.leb_le; lia. }
  rewrite Hk.
  set (sampled := Random.sample_loop _ _ _ _).
  assert (Hlen : Z.of_nat (List.length sampled) = Z.min n 6).
  { subst sampled. rewrite length_sample_loop; lia. }
  assert (Hall : forall P : Email -> Prop, Forall P emails -> Forall P sampled).
  { intros P HP. now apply Forall_sample_loop. }
  set (s0 := mkGame _ _ _ _ _ _ _ _ _ _ _ _ _ _ _ _ _).
  destruct (Z_lt_le_dec 0 (total_levels s0)) as [Hpos|Hz].
  - destruct (Inv_load_level 0 now s0) as
      (s' & E & Hi & L1 & L2 & L3 & L4 & L5 & L6 & L7 & L8 & L9);
      try (subst s0; gsimpl; (reflexivity || lia)).
    rewrite E. exists s'. split; [reflexivity|]. split; [exact Hi|].
    rewrite L1, L2, L3, L4, L5, L6, L7, L8. subst s0. gsimpl.
    conj_split; auto; lia.
  - rewrite load_level_finished by (subst s0; gsimpl; lia).
    eexists. split; [reflexivity|].
    destruct (finish_game_frame (set_current_level 0 s0))
      as (F1 & F2 & F3 & F4 & F5 & F6 & F7 & F8 & F9).
    rewrite F1, F2, F3, F4, F5, F6, F7, F8.
    split.
    + apply Inv_finish_game. subst s0. gsimpl.
      constructor; inv_unfold; try reflexivity; try lia; try discriminate;
        try (destruct (getitem sampled 0); reflexivity);
        try (unfold BASE_TIME; lia).
    + subst s0. gsimpl. conj_split; auto; lia.
Qed.

(** ** Shuffling keeps the templates *)

Lemma list_set_insert_perm {A} (l : list A) (j : nat) (a b : A) :
  nth_error l j = Some b ->
  Permutation (b :: Random.list_set l j a) (a :: l).
Proof.
  revert j. induction l as [|y l IH]; intros [|j] H; simpl in *;
    try discriminate.
  - injection H as ->. apply perm_swap.
  - apply perm_trans with (y :: b :: Random.list_set l j a);
      [apply perm_swap|].
    apply perm_trans with (y :: a :: l); [|apply perm_swap].
    apply perm_skip, IH, H.
Qed.

Lemma list_set_swap_perm {A} (l : list A) (i j : nat) (a b : A) :
  nth_error l i = Some a -> nth_error l j = Some b ->
  Permutation (Random.list_set (Random.list_set l i b) j a) l.
Proof.
  revert i j. induction l as [|y l IH]; intros [|i] [|j] Hi Hj; simpl in *;
    try discriminate.
  - injection Hi as ->. reflexivity.
  - injection Hi as ->. apply list_set_insert_perm, Hj.
  - injection Hj as ->. apply list_set_insert_perm, Hi.
  - apply perm_skip, IH; assumption.
Qed.

Lemma shuffle_perm {A} (x : list A) (rs : list nat) :
  Permutation (Random.shuffle x rs) x.
Proof.
  unfold Random.shuffle. generalize (List.length x - 1)%nat as i.
  intros i. revert x rs. induction i as [|i IH]; intros x rs; [reflexivity|].
  cbn [Random.shuffle_loop].
  destruct (nth_error x (S i)) eqn:E1; [|reflexivity].
  destruct (nth_error x (Random.randbelow _ _)) eqn:E2; [|reflexivity].
  eapply perm_trans; [apply IH|].
  apply list_set_swap_perm; assumption.
Qed.

(** ** The templates of a session

    Only [restart_game] touches [all_emails], and it shuffles them. *)

Lemma all_emails_stop_timer (s : Game) :
  all_emails (stop_timer s) = all_emails s.
Proof. exact (proj1 (stop_timer_frame s)). Qed.

Lemma all_emails_finish_game (s : Game) :
  all_emails (finish_game s) = all_emails s.
Proof.
  destruct (finish_game_frame s) as (_ & _ & _ & E & _). exact E.
Qed.

Section TemplatesFlow.
Variable tick : Q -> Game -> outcome.
Hypothesis tick_emails :
  forall now s, all_emails (state_of (tick now s)) = all_emails s.

Lemma load_level_with_emails (level_index : Z) (now : Q) (s : Game) :
  all_emails (state_of (load_level_with tick level_index now s))
  = all_emails s.
Proof.
  unfold load_level_with, start_timer_with. cbv zeta.
  destruct (total_levels (set_current_level level_index s) <=? level_index)%Z.
  - cbn [state_of]. now rewrite all_emails_finish_game.
  - destruct (getitem (all_emails (set_current_level level_index s))
                      level_index); [|reflexivity].
    now rewrite tick_emails, all_emails_stop_timer.
Qed.

Lemma save_result_and_continue_with_emails (skip : bool) (now : Q)
      (s : Game) :
  all_emails (state_of (save_result_and_continue_with tick skip now s))
  = all_emails s.
Proof.
  unfold save_result_and_continue_with.
  destruct (getitem (all_emails s) (current_level s)) as [e|]; [|reflexivity].
  cbv zeta. set (s1 := stop_timer _).
  assert (H1 : all_emails s1 = all_emails s)
    by (subst s1; now rewrite all_emails_stop_timer).
  clearbody s1.
  destruct (lives s1 <=? 0)%Z;
    [cbn [state_of]; now rewrite all_emails_finish_game|].
  destruct (total_levels s1 <=? current_level s1 + 1)%Z;
    [cbn [state_of]; now rewrite all_emails_finish_game|].
  now rewrite load_level_with_emails.
Qed.

Lemma tick_body_emails (now : Q) (s : Game) :
  all_emails (state_of (tick_body tick now s)) = all_emails s.
Proof.
  unfold tick_body, on_time_up_with.
  destruct (paused s); [reflexivity|].
  destruct (time_left s <=? 0)%Z; [|reflexivity].
  cbv zeta. now rewrite save_result_and_continue_with_emails.
Qed.
End TemplatesFlow.

Lemma tick_at_depth_emails (depth : nat) (now : Q) (s : Game) :
  all_emails (state_of (tick_at_depth depth now s)) = all_emails s.
Proof.
  revert now s. induction depth as [|d IH]; intros now s; [reflexivity|].
  cbn [tick_at_depth]. now apply tick_body_emails.
Qed.

Lemma all_emails_perfected (s : Game) :
  all_emails (perfected s) = all_emails s.
Proof.
  unfold perfected.
  remember (set_lbl_msg MsgAllFound (set_score (score s + BONUS_PERFECT) s))
    as s1 eqn:Es1.
  assert (F : all_emails s1 = all_emails s) by (subst s1; reflexivity).
  clear Es1. cbn [all_emails set_btn_next].
  now rewrite all_emails_stop_timer.
Qed.

Lemma on_submit_emails (entry : string) (now : Q) (s : Game) :
  all_emails (state_of (on_submit entry now s)) = all_emails s.
Proof.
  destruct (paused s) eqn:Ep; [unfold on_submit; now rewrite Ep|].
  destruct (truthy (strip entry)) eqn:Eu;
    [|unfold on_submit; now rewrite Ep, Eu].
  destruct (getitem (all_emails s) (current_level s)) as [e|] eqn:He;
    [|unfold on_submit; now rewrite Ep, Eu, He].
  destruct (find_flag (strip entry) (flags_found s) (flags e)) as [f|] eqn:Ef.
  - destruct (start_time s) as [t0|] eqn:Et.
    + rewrite (on_submit_matched _ _ t0 _ e f) by assumption. cbv zeta.
      destruct (_ =? _)%nat; cbn [state_of]; [|reflexivity].
      now rewrite all_emails_perfected.
    + destruct (find_flag_In _ _ _ _ Ef) as (_ & _ & Hm & _).
      destruct (truthy_String f (proj2 (fuzzy_match_truthy _ _ Hm)))
        as (c & r & ->).
      unfold on_submit. rewrite Ep, Eu, He, Ef. cbn [negb]. cbv zeta.
      gsimpl_goal. rewrite Et. reflexivity.
  - now rewrite (on_submit_unmatched _ _ _ e).
Qed.

Lemma use_hint_emails (r : nat) (s : Game) :
  all_emails (state_of (use_hint r s)) = all_emails s.
Proof.
  unfold use_hint.
  destruct (paused s); [reflexivity|].
  destruct (getitem (all_emails s) (current_level s)) as [e|]; [|reflexivity].
  destruct (unfound (flags e) (flags_found s)); [reflexivity|].
  cbv zeta. destruct (Random.choice _ r); [|reflexivity].
  gsimpl_goal. destruct (1 <=? _)%nat; reflexivity.
Qed.

(** Every operation but a confirmed restart keeps the templates; a
    restart rearranges them. *)
Lemma dispatch_emails (ev : Event) (s : Game) :
  Permutation (all_emails (state_of (dispatch ev s))) (all_emails s).
Proof.
  destruct ev as [now []]; cbn [dispatch].
  - now rewrite on_submit_emails.
  - now rewrite use_hint_emails.
  - unfold next_level. destruct (paused s); [reflexivity|].
    unfold save_result_and_continue.
    rewrite save_result_and_continue_with_emails;
      [reflexivity | apply tick_at_depth_emails].
  - unfold toggle_pause. destruct (paused s); cbv zeta.
    + unfold start_timer, start_timer_with.
      pose proof (tick_at_depth_emails 2 now
                    (stop_timer (set_paused false s))) as H.
      fold _tick in H. rewrite all_emails_stop_timer in H.
      change (all_emails (set_paused false s)) with (all_emails s) in H.
      destruct (_tick now (stop_timer (set_paused false s)));
        cbn [bind state_of] in *; rewrite <- H; reflexivity.
    + cbn [state_of].
      change (all_emails (set_lbl_msg MsgPaused ?x)) with (all_emails x).
      now rewrite all_emails_stop_timer.
  - unfold restart_game. destruct confirmed; [|reflexivity].
    cbn [negb]. cbv zeta. unfold load_level.
    rewrite load_level_with_emails by apply tick_at_depth_emails.
    gsimpl_goal. apply shuffle_perm.
  - unfold timer_fires. destruct (after_pending s); [reflexivity|].
    unfold _tick. now rewrite tick_at_depth_emails.
Qed.

Lemma run_emails (evs : list Event) (s : Game) :
  Permutation (all_emails (run evs s)) (all_emails s).
Proof.
  revert s. induction evs as [|ev evs IH]; intros s; [reflexivity|].
  cbn [run]. etransitivity; [apply IH | apply dispatch_emails].
Qed.

(** The template played in a session is a template of the table. *)
Lemma session_current_template (emails : list Email) (rs : list nat)
      (board : list Json) (now : Q) (g : Game) (evs : list Event)
      (e : Email) :
  __init__ emails rs board now = inr g ->
  getitem (all_emails (run evs g)) (current_level (run evs g)) = Some e ->
  In e emails.
Proof.
  intros E He. apply getitem_In in He.
  apply (Permutation_in _ (run_emails evs g)) in He.
  destruct (__init___shown _ _ _ _ _ E) as [rows Hrows].
  destruct (__init___sound emails rs board now rows Hrows)
    as (g' & E' & _ & _ & _ & Hall & _).
  assert (g' = g) by congruence. subst g'.
  assert (Hf : Forall (fun x => In x emails) emails)
    by (apply Forall_forall; auto).
  apply Hall in Hf. rewrite Forall_forall in Hf. exact (Hf e He).
Qed.

(** * The claims *)

(** ** C3: empty and blank operands of the matcher *)

(** The claim as written fails for the matcher taken alone. The test for
    an empty operand comes before the trimming: an operand made of white
    space only passes it, trims to the empty string, and the empty
    string is a substring of everything. *)
Lemma C3_blank_operand_accepted :
  strip "  " = "" /\
  fuzzy_match "  " "abc" = true /\
  fuzzy_match "abc" "  " = true.
Proof. repeat split; reflexivity. Qed.

(** No flag of the table is empty or blank. *)
Lemma EMAILS_flags_not_blank (e : Email) (f : string) :
  In e EMAILS -> In f (flags e) -> truthy (strip f) = true.
Proof.
  intros He Hf.
  assert (H : forallb (fun e => forallb (fun f => truthy (strip f)) (flags e))
                      EMAILS = true) by (vm_compute; reflexivity).
  rewrite forallb_forall in H. specialize (H e He).
  rewrite forallb_forall in H. exact (H f Hf).
Qed.

(** C3, as the code has it. [fuzzy_match] is false when either operand
    is the empty string. The trimming of the guess is done by its only
    caller: in every state of a session [on_submit] strips the entry and
    returns, changing nothing, when nothing is left, so a guess of white
    space only matches nothing; and on the operands it does pass on, the
    stripped entry and a flag of the template being played, which is a
    template of [EMAILS], the matcher is false whenever one of them is
    empty after trimming. *)
Theorem C3_blank_guess_matches_nothing (rs : list nat) (board : list Json)
        (t0 : Q) (game : Game) (evs : list Event) (entry : string) (now : Q)
        (e : Email) (f g t : string) :
  __init__ EMAILS rs board t0 = inr game ->
  fuzzy_match "" t = false /\
  fuzzy_match g "" = false /\
  (strip entry = "" ->
   on_submit entry now (run evs game) = Done (run evs game)) /\
  (getitem (all_emails (run evs game)) (current_level (run evs game))
   = Some e ->
   In f (flags e) ->
   strip (strip entry) = "" \/ strip f = "" ->
   fuzzy_match (strip entry) f = false).
Proof.
  intros E.
  split; [apply fuzzy_match_empty_guess|].
  split; [apply fuzzy_match_empty_token|]. split.
  - intros H. unfold on_submit. rewrite H.
    destruct (paused (run evs game)); reflexivity.
  - intros He Hf [H|H].
    + rewrite strip_idem in H. rewrite H. apply fuzzy_match_empty_guess.
    + pose proof (session_current_template _ _ _ _ _ _ _ E He) as Hin.
      pose proof (EMAILS_flags_not_blank e f Hin Hf) as Hb.
      rewrite H in Hb. discriminate.
Qed.

(** Three spaces typed on the first level of a session, after a wrong
    guess and a hint: nothing changes, and the matcher rejects the
    stripped entry for the flag "verify". *)
Lemma C3_blank_guess_matches_nothing_witness :
  __init__ EMAILS demo_rs [] 0 = inr demo_session /\
  strip "   " = "" /\
  getitem (all_emails (run wrong_then_hint demo_session))
          (current_level (run wrong_then_hint demo_session))
  = Some bank_notice /\
  In "verify" (flags bank_notice) /\
  (strip (strip "   ") = "" \/ strip "verify" = "") /\
  on_submit "   " 5 (run wrong_then_hint demo_session)
  = Done (run wrong_then_hint demo_session) /\
  fuzzy_match (strip "   ") "verify" = false.
Proof.
  assert (H0 : __init__ EMAILS demo_rs [] 0 = inr demo_session)
    by (vm_compute; reflexivity).
  assert (H1 : strip "   " = "") by reflexivity.
  assert (H2 : getitem (all_emails (run wrong_then_hint demo_session))
                       (current_level (run wrong_then_hint demo_session))
               = Some bank_notice) by (vm_compute; reflexivity).
  assert (H3 : In "verify" (flags bank_notice)) by (vm_compute; tauto).
  assert (H4 : strip (strip "   ") = "" \/ strip "verify" = "")
    by (left; reflexivity).
  destruct (C3_blank_guess_matches_nothing
              demo_rs [] 0 demo_session wrong_then_hint "   " 5
              bank_notice "verify" "abc" "abc" H0)
    as (_ & _ & A & B).
  split; [exact H0|]. split; [exact H1|]. split; [exact H2|].
  split; [exact H3|]. split; [exact H4|].
  split; [exact (A H1) | exact (B H2 H3 H4)].
Defined.

(** ** C5: the first remaining flag that matches *)

(** C5. [on_submit] goes through the flags of the current template in
    authoring order and skips those already found; the flag credited is
    the first remaining one that [fuzzy_match] accepts for the trimmed
    text, every flag before it being found already or not matching. When
    no remaining flag matches nothing is credited and the guess costs 3
    points. A flag of [flags_found] is therefore never credited again. *)
Theorem C5_first_remaining_match (s : Game) (entry : string) (now : Q)
        (e : Email) :
  inv s = true ->
  paused s = false ->
  truthy (strip entry) = true ->
  getitem (all_emails s) (current_level s) = Some e ->
  let u := strip entry in
  let s' := state_of (on_submit entry now s) in
  (exists pre f post,
      flags e = pre ++ f :: post /\
      (forall g, In g pre ->
                 mem g (flags_found s) = true \/ fuzzy_match u g = false) /\
      mem f (flags_found s) = false /\
      fuzzy_match u f = true /\
      flags_found s' = flags_found s ++ [f] /\
      (score s + 10 <= score s')%Z) \/
  ((forall g, In g (flags e) ->
              mem g (flags_found s) = true \/ fuzzy_match u g = false) /\
   flags_found s' = flags_found s /\
   score s' = Z.max 0 (score s - 3)).
Proof.
  intros Hinv Hp Hu He u s'. apply inv_Inv in Hinv.
  destruct (find_flag u (flags_found s) (flags e)) as [f|] eqn:Ef.
  - left. destruct (find_flag_Some _ _ _ _ Ef) as (pre & post & E & Hpre & Hm & Hf).
    exists pre, f, post.
    destruct (Inv_start_time s e Hinv He) as [t0 Ht].
    subst s'. rewrite (on_submit_matched _ _ t0 _ e f) by assumption.
    cbv zeta.
    pose proof (speed_bonus_nonneg (pb_maximum s) (now - t0)).
    destruct (credited_frame f (10 + speed_bonus (pb_maximum s) (now - t0)) s)
      as (C1 & C2 & _).
    destruct (perfected_frame
                (credited f (10 + speed_bonus (pb_maximum s) (now - t0)) s))
      as (P1 & P2 & _).
    destruct (_ =? _)%nat; cbn [state_of]; rewrite ?P1, ?P2, ?C1, ?C2;
      conj_split; auto; unfold BONUS_PERFECT; lia.
  - right. subst s'. rewrite (on_submit_unmatched _ _ _ e) by assumption.
    gsimpl. split; [|auto]. now apply find_flag_None.
Qed.

(** The first level of the demonstration session: "verify-account" is
    credited to the flag "verify", which comes first and is contained in
    the text typed. *)
Lemma C5_first_remaining_match_witness :
  inv demo_session = true /\
  paused demo_session = false /\
  truthy (strip "verify-account") = true /\
  getitem (all_emails demo_session) (current_level demo_session)
  = Some bank_notice /\
  ((exists pre f post,
      flags bank_notice = pre ++ f :: post /\
      (forall g, In g pre ->
                 mem g (flags_found demo_session) = true \/
                 fuzzy_match (strip "verify-account") g = false) /\
      mem f (flags_found demo_session) = false /\
      fuzzy_match (strip "verify-account") f = true /\
      flags_found (state_of (on_submit "verify-account" 1 demo_session))
      = flags_found demo_session ++ [f] /\
      (score demo_session + 10
       <= score (state_of (on_submit "verify-account" 1 demo_session)))%Z) \/
   ((forall g, In g (flags bank_notice) ->
               mem g (flags_found demo_session) = true \/
               fuzzy_match (strip "verify-account") g = false) /\
    flags_found (state_of (on_submit "verify-account" 1 demo_session))
    = flags_found demo_session /\
    score (state_of (on_submit "verify-account" 1 demo_session))
    = Z.max 0 (score demo_session - 3))).
Proof.
  split; [vm_compute; reflexivity|].
  split; [reflexivity|].
  split; [reflexivity|].
  split; [reflexivity|].
  apply (C5_first_remaining_match demo_session "verify-account" 1 bank_notice);
    vm_compute; reflexivity.
Defined.

(** ** C2: construction *)

(** C2, as the code has it. The templates never abort construction.
    [__init__] takes [min(len(EMAILS), 6)] templates, which
    [random.sample] always grants, and plays [min(5, number of
    templates)] levels: a table with fewer than five templates shortens
    the run instead of raising. The time limit is not an input; the
    first level, when there is one, starts with the 40 seconds of
    [BASE_TIME]. Whenever the leaderboard can be shown the session is
    built. *)
Theorem C2_construction_never_aborts (emails : list Email) (rs : list nat)
        (board : list Json) (now : Q) (rows : list Row) :
  update_leaderboard_ui board = inr rows ->
  exists g,
    __init__ emails rs board now = inr g /\
    total_levels g = Z.min 5 (Z.of_nat (List.length emails)) /\
    Z.of_nat (List.length (all_emails g))
    = Z.min (Z.of_nat (List.length emails)) 6 /\
    pb_maximum g = BASE_TIME /\
    (10 <= level_time (current_level g))%Z.
Proof.
  intros Hrows.
  destruct (__init___sound emails rs board now rows Hrows)
    as (g & E & Hi & Ht & Hl & _ & _ & _ & Hc & _).
  exists g. conj_split; auto.
  - rewrite (inv_pb g Hi), Hc. reflexivity.
  - apply level_time_pos.
Qed.

(** Three templates where five levels are asked for: the session is
    built, with three levels. *)
Lemma C2_three_templates_build :
  (forall e, __init__ (firstn 3 EMAILS) demo_rs [] 0 <> inl e) /\
  exists g, __init__ (firstn 3 EMAILS) demo_rs [] 0 = inr g /\
            total_levels g = 3%Z.
Proof.
  assert (E : __init__ (firstn 3 EMAILS) demo_rs [] 0
              = inr (session (firstn 3 EMAILS) demo_rs 0))
    by (vm_compute; reflexivity).
  split.
  - intros e. rewrite E. discriminate.
  - exists (session (firstn 3 EMAILS) demo_rs 0).
    split; [exact E | vm_compute; reflexivity].
Qed.

(** ** C8: score and level index stay in range *)

Lemma session_Inv (emails : list Email) (rs : list nat) (board : list Json)
      (now : Q) (g : Game) :
  __init__ emails rs board now = inr g -> Inv g.
Proof.
  intros E. destruct (__init___shown _ _ _ _ _ E) as [rows Hrows].
  destruct (__init___sound emails rs board now rows Hrows)
    as (g' & E' & Hi & _).
  congruence.
Qed.

(** C8. Whatever the player and the timer do after construction, the
    score is never negative and the level index stays between 0 and the
    number of levels. In the state reached, a guess that matches no
    remaining flag sets the score to [max(0, score - 3)] and a hint, when
    a flag is left to reveal, sets it to [max(0, score - cost)] with
    [cost = min(20, 6 + 3 * level)]. *)
Theorem C8_score_and_level_in_range (emails : list Email) (rs : list nat)
        (board : list Json) (now : Q) (g : Game) (evs : list Event) :
  __init__ emails rs board now = inr g ->
  let s := run evs g in
  (0 <= score s)%Z /\
  (0 <= current_level s <= total_levels s)%Z /\
  (forall entry t e,
      paused s = false -> truthy (strip entry) = true ->
      getitem (all_emails s) (current_level s) = Some e ->
      find_flag (strip entry) (flags_found s) (flags e) = None ->
      score (state_of (on_submit entry t s)) = Z.max 0 (score s - 3)) /\
  (forall r e,
      paused s = false ->
      getitem (all_emails s) (current_level s) = Some e ->
      unfound (flags e) (flags_found s) <> [] ->
      score (state_of (use_hint r s))
      = Z.max 0 (score s - Z.min 20 (HINT_COST_BASE + current_level s * 3))).
Proof.
  intros E s.
  assert (Hi : Inv s) by (apply run_Inv, (session_Inv _ _ _ _ _ E)).
  split; [apply Hi|]. split.
  - pose proof (proj1 (level_ok_spec s) (inv_level s Hi)). lia.
  - split.
    + intros entry t e Hp Hu He Hf.
      now rewrite (on_submit_unmatched _ _ _ e).
    + intros r e Hp He Hr.
      pose proof (use_hint_eq r s e Hp He) as Hh.
      destruct (unfound (flags e) (flags_found s)); [congruence|].
      destruct Hh as (h & _ & _ & ->).
      destruct (1 <=? _)%nat; reflexivity.
Qed.

(** A wrong guess on a fresh session leaves the score at 0; so does a
    hint. *)
Lemma C8_score_and_level_in_range_witness :
  __init__ EMAILS demo_rs [] 0 = inr demo_session /\
  ((0 <= score (run wrong_then_hint demo_session))%Z /\
   (0 <= current_level (run wrong_then_hint demo_session)
    <= total_levels (run wrong_then_hint demo_session))%Z /\
   (forall entry t e,
       paused (run wrong_then_hint demo_session) = false ->
       truthy (strip entry) = true ->
       getitem (all_emails (run wrong_then_hint demo_session))
               (current_level (run wrong_then_hint demo_session))
       = Some e ->
       find_flag (strip entry)
                 (flags_found (run wrong_then_hint demo_session))
                 (flags e) = None ->
       score (state_of (on_submit entry t (run wrong_then_hint demo_session)))
       = Z.max 0 (score (run wrong_then_hint demo_session) - 3)) /\
   (forall r e,
       paused (run wrong_then_hint demo_session) = false ->
       getitem (all_emails (run wrong_then_hint demo_session))
               (current_level (run wrong_then_hint demo_session))
       = Some e ->
       unfound (flags e) (flags_found (run wrong_then_hint demo_session))
       <> [] ->
       score (state_of (use_hint r (run wrong_then_hint demo_session)))
       = Z.max 0 (score (run wrong_then_hint demo_session)
                  - Z.min 20 (HINT_COST_BASE
                              + current_level (run wrong_then_hint demo_session)
                                * 3)))).
Proof.
  split; [vm_compute; reflexivity|].
  apply (C8_score_and_level_in_range EMAILS demo_rs [] 0 demo_session
           wrong_then_hint).
  vm_compute; reflexivity.
Defined.

(** ** C1: the points of a correct guess *)

(** C1, as the code has it. A guess that matches a remaining flag [f]
    credits [f] and adds [10 + max(0, floor((timeLimit - elapsed) / 3))]
    points, where [timeLimit = max(10, 40 - 6 * level)] and [elapsed] is
    the time of the wall clock since the level was loaded
    ([time.time() - self.start_time]): the seconds spent in pause are
    part of it. The perfect bonus comes on top when the guess completes
    the level. *)
Theorem C1_points_of_correct_guess (s : Game) (entry : string) (now t0 : Q)
        (e : Email) (f : string) :
  inv s = true ->
  paused s = false ->
  getitem (all_emails s) (current_level s) = Some e ->
  find_flag (strip entry) (flags_found s) (flags e) = Some f ->
  start_time s = Some t0 ->
  let s' := state_of (on_submit entry now s) in
  let timeLimit := level_time (current_level s) in
  let elapsed := now - t0 in
  flags_found s' = flags_found s ++ [f] /\
  score s' =
  (score s
   + (10 + Z.max 0 (Qfloor ((inject_Z timeLimit - elapsed) / 3)))
   + (if (List.length (flags_found s') =? List.length (flags e))%nat
      then BONUS_PERFECT else 0))%Z.
Proof.
  intros Hinv Hp He Hf Ht s' timeLimit elapsed. apply inv_Inv in Hinv.
  subst s' timeLimit elapsed.
  rewrite (on_submit_matched _ _ t0 _ e f) by assumption. cbv zeta.
  rewrite <- (inv_pb s Hinv). fold (speed_bonus (pb_maximum s) (now - t0)).
  destruct (credited_frame f (10 + speed_bonus (pb_maximum s) (now - t0)) s)
    as (C1 & C2 & _).
  destruct (perfected_frame
              (credited f (10 + speed_bonus (pb_maximum s) (now - t0)) s))
    as (P1 & P2 & _).
  destruct (List.length (flags_found s ++ [f]) =? List.length (flags e))%nat
    eqn:El; cbn [state_of]; rewrite ?P1, ?P2, ?C1, ?C2, ?El; split; auto; lia.
Qed.

(** After a pause of thirty seconds, "verify" typed 31 seconds after the
    level was loaded earns 10 + floor((40 - 31) / 3) = 13 points. *)
Lemma C1_points_of_correct_guess_witness :
  inv (run pause_thirty demo_session) = true /\
  paused (run pause_thirty demo_session) = false /\
  getitem (all_emails (run pause_thirty demo_session))
          (current_level (run pause_thirty demo_session))
  = Some bank_notice /\
  find_flag (strip "verify") (flags_found (run pause_thirty demo_session))
            (flags bank_notice) = Some "verify" /\
  start_time (run pause_thirty demo_session) = Some 0 /\
  (flags_found (state_of (on_submit "verify" 31 (run pause_thirty demo_session)))
   = flags_found (run pause_thirty demo_session) ++ ["verify"] /\
   score (state_of (on_submit "verify" 31 (run pause_thirty demo_session)))
   = (score (run pause_thirty demo_session)
      + (10 + Z.max 0
                (Qfloor ((inject_Z
                            (level_time
                               (current_level (run pause_thirty demo_session)))
                          - (31 - 0)) / 3)))
      + (if (List.length
               (flags_found
                  (state_of (on_submit "verify" 31
                               (run pause_thirty demo_session))))
             =? List.length (flags bank_notice))%nat
         then BONUS_PERFECT else 0))%Z).
Proof.
  split; [vm_compute; reflexivity|].
  split; [vm_compute; reflexivity|].
  split; [vm_compute; reflexivity|].
  split; [vm_compute; reflexivity|].
  split; [vm_compute; reflexivity|].
  apply (C1_points_of_correct_guess (run pause_thirty demo_session)
           "verify" 31 0 bank_notice "verify");
    vm_compute; reflexivity.
Defined.

(** The claim as written fails. The level is loaded at time 0; the
    player pauses at 0.5 s and resumes at 30.5 s, which leaves 38 seconds
    on the countdown; "verify" is typed at 31 s. With
    [elapsed = timeLimit - timeRemaining = 2] the claim gives
    10 + floor(38 / 3) = 22 points; the code adds 13. *)
Lemma C1_paused_time_counts :
  time_left (run pause_thirty demo_session) = 38%Z /\
  claimed_points (run pause_thirty demo_session) = 22%Z /\
  (score (state_of (on_submit "verify" 31 (run pause_thirty demo_session)))
   - score (run pause_thirty demo_session))%Z = 13%Z /\
  (score (state_of (on_submit "verify" 31 (run pause_thirty demo_session)))
   - score (run pause_thirty demo_session))%Z
  <> claimed_points (run pause_thirty demo_session).
Proof.
  repeat split; try (vm_compute; reflexivity).
  vm_compute. discriminate.
Qed.

(** ** C6: expiry of the countdown *)

(** The two ways of finalising a level differ by the [skipped] mark of
    the record only. *)
Lemma save_result_and_continue_skipped now s e :
  Inv s ->
  getitem (all_emails s) (current_level s) = Some e ->
  exists s_t s_f,
    save_result_and_continue true now s = Done s_t /\
    save_result_and_continue false now s = Done s_f /\
    s_t = set_results (results s ++ [level_result true e s]) s_f.
Proof.
  intros H He.
  rewrite !(save_result_and_continue_eq _ _ _ _ He). cbv zeta.
  assert (Hfin : finish_game (recorded true e s)
                 = set_results (results s ++ [level_result true e s])
                     (finish_game (recorded false e s))).
  { destruct s as [a1 a2 a3 a4 a5 a6 a7 a8 a9 [id|] a11 a12 a13 a14 a15 a16 a17];
      vm_compute; reflexivity. }
  destruct (lives s <=? 0)%Z; [eauto|].
  destruct (total_levels s <=? current_level s + 1)%Z eqn:Et; [eauto|].
  apply Z.leb_gt in Et.
  pose proof (proj1 (level_ok_spec s) (inv_level s H)) as [Hl0 _].
  destruct (getitem_in_range (all_emails s) (current_level s + 1)) as [e' He'].
  { rewrite (inv_total s H) in Et. lia. }
  destruct (recorded_frame true e s H)
    as (_ & _ & _ & _ & _ & Rt4 & Rt5 & _ & _ & Rt8 & _).
  destruct (recorded_frame false e s H)
    as (_ & _ & _ & _ & _ & Rf4 & Rf5 & _ & _ & Rf8 & _).
  rewrite !(load_level_loaded _ _ _ e') by (gsimpl; (lia || congruence)).
  cbv zeta. gsimpl. rewrite Rt8, Rf8.
  set (l := (current_level s + 1)%Z).
  assert (Hs : stop_timer (fresh_level l now (set_current_level l (recorded true e s)))
               = set_results (results s ++ [level_result true e s])
                   (stop_timer (fresh_level l now
                      (set_current_level l (recorded false e s))))).
  { subst l.
    destruct s as [a1 a2 a3 a4 a5 a6 a7 a8 a9 [id|] a11 a12 a13 a14 a15 a16 a17];
      vm_compute; reflexivity. }
  destruct (paused s); do 2 eexists; (split; [reflexivity|]);
    (split; [reflexivity|]); rewrite Hs; [reflexivity|].
  generalize (stop_timer
                (fresh_level l now (set_current_level l (recorded false e s)))).
  intros x. destruct x. reflexivity.
Qed.

(** C6. When [_tick] runs with no time left (and the game is not
    paused), one life is taken and the level is recorded with
    [skipped = True]: its [found] list is [flags_found] in the order of
    discovery and its [missed] list holds exactly the flags of the
    template that are not in it. From there the session goes on as
    [next_level] does from the same state with the life already taken:
    the two results differ by the [skipped] mark of the last record
    only. *)
Theorem C6_timer_expiry (s : Game) (now : Q) (e : Email) :
  inv s = true ->
  paused s = false ->
  (time_left s <= 0)%Z ->
  getitem (all_emails s) (current_level s) = Some e ->
  exists s' s'',
    _tick now s = Done s' /\
    next_level now (set_lives (lives s - 1) (set_lbl_msg MsgTimeUp s))
    = Done s'' /\
    lives s' = (lives s - 1)%Z /\
    results s' =
      results s ++
      [mkResult (title e) (text e) (flags_found s)
                (unfound (flags e) (flags_found s)) true] /\
    (forall f, In f (unfound (flags e) (flags_found s)) <->
               In f (flags e) /\ ~ In f (flags_found s)) /\
    results s'' =
      results s ++
      [mkResult (title e) (text e) (flags_found s)
                (unfound (flags e) (flags_found s)) false] /\
    s' = set_results (results s') s''.
Proof.
  intros Hinv Hp Ht He. apply inv_Inv in Hinv.
  rewrite _tick_expired by assumption.
  unfold on_time_up, on_time_up_with, next_level. cbv zeta.
  fold save_result_and_continue. gsimpl. rewrite Hp.
  set (s1 := set_lives (lives s - 1) (set_lbl_msg MsgTimeUp s)).
  assert (H1 : Inv s1) by (apply Inv_set_lives, Inv_set_lbl_msg, Hinv).
  assert (He1 : getitem (all_emails s1) (current_level s1) = Some e) by exact He.
  destruct (save_result_and_continue_skipped now s1 e H1 He1)
    as (s_t & s_f & Et & Ef & Eq).
  destruct (save_result_and_continue_sound true now s1 e H1 He1)
    as (x & Ex & _ & _ & Lx & Rx & _).
  destruct (save_result_and_continue_sound false now s1 e H1 He1)
    as (y & Ey & _ & _ & _ & Ry & _).
  assert (x = s_t) by congruence. assert (y = s_f) by congruence. subst x y.
  exists s_t, s_f.
  split; [exact Et|]. split; [exact Ef|].
  split; [exact Lx|]. split; [exact Rx|]. split; [|split].
  - intros f. unfold unfound. rewrite filter_In, negb_true_iff, mem_not_In.
    reflexivity.
  - exact Ry.
  - rewrite Rx. exact Eq.
Qed.

(** * Further properties of the code *)

(** ** Invariants of a session *)

Lemma reached_Inv (emails : list Email) (rs : list nat)
        (board : list Json) (now : Q) (g : Game)
      (evs : list Event) :
  __init__ emails rs board now = inr g -> Inv (run evs g).
Proof. intros E. apply run_Inv, (session_Inv _ _ _ _ _ E). Qed.

Lemma timer_ok_spec (s : Game) :
  timer_ok s = true <->
  after_pending s = [] \/
  exists id, after_pending s = [id] /\ timer_id s = Some id.
Proof.
  unfold timer_ok. destruct (after_pending s) as [|id [|id' l]].
  - split; auto.
  - destruct (timer_id s) as [id'|].
    + rewrite Nat.eqb_eq. split.
      * intros ->. right. eauto.
      * intros [H|(x & [= ->] & [= ->])]; [discriminate | reflexivity].
    + split; [discriminate|].
      intros [H|(x & _ & H)]; discriminate.
  - split; [discriminate|].
    intros [H|(x & H & _)]; discriminate.
Qed.

(** X1. The cancellation discipline of [start_timer], [stop_timer] and
    [_tick]: whatever the player and the timer have done since
    construction, at most one [_tick] callback is scheduled, the handle
    kept in [timer_id] is that callback's, and no callback is scheduled
    while the game is paused. *)
Theorem X1_single_pending_tick (emails : list Email) (rs : list nat)
        (board : list Json) (now : Q)
        (g : Game) (evs : list Event) :
  __init__ emails rs board now = inr g ->
  (after_pending (run evs g) = [] \/
   exists id, after_pending (run evs g) = [id] /\
              timer_id (run evs g) = Some id) /\
  (paused (run evs g) = true -> after_pending (run evs g) = []).
Proof.
  intros E. pose proof (reached_Inv _ _ _ _ _ evs E) as H.
  split; [apply timer_ok_spec, H | apply H].
Qed.

Lemma X1_single_pending_tick_witness :
  __init__ EMAILS demo_rs [] 0 = inr demo_session /\
  ((after_pending (run pause_thirty demo_session) = [] \/
    exists id, after_pending (run pause_thirty demo_session) = [id] /\
               timer_id (run pause_thirty demo_session) = Some id) /\
   (paused (run pause_thirty demo_session) = true ->
    after_pending (run pause_thirty demo_session) = [])).
Proof.
  split; [vm_compute; reflexivity|].
  apply (X1_single_pending_tick EMAILS demo_rs [] 0 demo_session pause_thirty).
  vm_compute; reflexivity.
Defined.

(** X2. The countdown stays in range and the floor of the time limit is
    dead code in a session: a run has at most five levels, so the limit
    set by [load_level] is always [40 - 6 * level], never less than 16,
    and [max(10, ...)] never takes its first argument; [time_left] stays
    between 0 and that limit. *)
Theorem X2_time_limit_of_level (emails : list Email) (rs : list nat)
        (board : list Json) (now : Q)
        (g : Game) (evs : list Event) :
  __init__ emails rs board now = inr g ->
  pb_maximum (run evs g) = (BASE_TIME - 6 * current_level (run evs g))%Z /\
  (16 <= pb_maximum (run evs g) <= 40)%Z /\
  (0 <= time_left (run evs g) <= pb_maximum (run evs g))%Z.
Proof.
  intros E. pose proof (reached_Inv _ _ _ _ _ evs E) as H.
  pose proof (proj1 (level_ok_spec _) (inv_level _ H)) as Hl.
  pose proof (inv_total _ H) as Ht.
  pose proof (inv_pb _ H) as Hpb. pose proof (inv_time _ H) as Htime.
  unfold level_time, BASE_TIME in *. lia.
Qed.

Lemma X2_time_limit_of_level_witness :
  __init__ EMAILS demo_rs [] 0 = inr demo_session /\
  (pb_maximum (run countdown demo_session)
   = (BASE_TIME - 6 * current_level (run countdown demo_session))%Z /\
   (16 <= pb_maximum (run countdown demo_session) <= 40)%Z /\
   (0 <= time_left (run countdown demo_session)
    <= pb_maximum (run countdown demo_session))%Z).
Proof.
  split; [vm_compute; reflexivity|].
  apply (X2_time_limit_of_level EMAILS demo_rs [] 0 demo_session countdown).
  vm_compute; reflexivity.
Defined.

(** X3. [flags_found] never holds a flag twice and never holds anything
    but flags of the template being played; with no template to play it
    is empty. *)
Theorem X3_flags_found_of_current_template (emails : list Email)
        (rs : list nat)
        (board : list Json) (now : Q) (g : Game) (evs : list Event) :
  __init__ emails rs board now = inr g ->
  NoDup (flags_found (run evs g)) /\
  match getitem (all_emails (run evs g)) (current_level (run evs g)) with
  | Some e => forall f, In f (flags_found (run evs g)) -> In f (flags e)
  | None => flags_found (run evs g) = []
  end.
Proof.
  intros E. pose proof (reached_Inv _ _ _ _ _ evs E) as H.
  apply found_ok_spec, H.
Qed.

Lemma X3_flags_found_of_current_template_witness :
  __init__ EMAILS demo_rs [] 0 = inr demo_session /\
  (NoDup (flags_found (run countdown demo_session)) /\
   match getitem (all_emails (run countdown demo_session))
                 (current_level (run countdown demo_session)) with
   | Some e => forall f, In f (flags_found (run countdown demo_session)) ->
                         In f (flags e)
   | None => flags_found (run countdown demo_session) = []
   end).
Proof.
  split; [vm_compute; reflexivity|].
  apply (X3_flags_found_of_current_template EMAILS demo_rs [] 0 demo_session
           countdown).
  vm_compute; reflexivity.
Defined.

(** ** Hints *)

(** X4. [use_hint] on a running level with a flag left: the flag shown
    is a flag of the template that is not in [flags_found]; the cost is
    [6 + 3 * level], at most 18, so the cap of [min(20, ...)] is never
    reached in a session; the score drops by the cost but not below 0;
    the "Next" button is enabled only when a flag has already been
    found; flags found, lives, countdown, timer and history are left as
    they were. With no flag left only the message changes. *)
Theorem X4_hint_cost_and_frame (emails : list Email) (rs : list nat)
        (board : list Json) (now : Q)
        (g : Game) (evs : list Event) (r : nat) (e : Email) :
  __init__ emails rs board now = inr g ->
  paused (run evs g) = false ->
  getitem (all_emails (run evs g)) (current_level (run evs g)) = Some e ->
  let s := run evs g in
  let s' := state_of (use_hint r s) in
  let cost := (HINT_COST_BASE + 3 * current_level s)%Z in
  (unfound (flags e) (flags_found s) = [] ->
   use_hint r s = Done (set_lbl_msg MsgNoHints s)) /\
  (unfound (flags e) (flags_found s) <> [] ->
   (cost <= 18)%Z /\
   (exists h, lbl_msg s' = MsgHint h cost /\
              In h (flags e) /\ ~ In h (flags_found s)) /\
   score s' = Z.max 0 (score s - cost) /\
   btn_next s' = (if (1 <=? List.length (flags_found s))%nat
                  then true else btn_next s) /\
   flags_found s' = flags_found s /\ lives s' = lives s /\
   time_left s' = time_left s /\ after_pending s' = after_pending s /\
   timer_id s' = timer_id s /\ results s' = results s /\
   current_level s' = current_level s /\ paused s' = false).
Proof.
  intros E Hp He s s' cost.
  pose proof (reached_Inv _ _ _ _ _ evs E) as H. fold s in H, Hp, He.
  pose proof (use_hint_eq r s e Hp He) as Hh.
  assert (Hc : Z.min 20 (HINT_COST_BASE + current_level s * 3) = cost /\
               (cost <= 18)%Z).
  { pose proof (proj1 (level_ok_spec _) (inv_level _ H)) as Hl.
    pose proof (inv_total _ H) as Ht.
    subst cost. unfold HINT_COST_BASE. lia. }
  destruct Hc as [Hc Hc18].
  destruct (unfound (flags e) (flags_found s)) as [|x l] eqn:Er.
  - split; [intros _; exact Hh | congruence].
  - split; [discriminate|]. intros _.
    destruct Hh as (h & _ & Hin & Hu). cbv zeta in Hu. rewrite Hc in Hu.
    subst s'. rewrite Hu. split; [exact Hc18|].
    assert (Hh2 : In h (flags e) /\ ~ In h (flags_found s)).
    { rewrite <- Er in Hin. unfold unfound in Hin. apply filter_In in Hin.
      destruct Hin as [Hi Hn]. apply negb_true_iff, mem_not_In in Hn. auto. }
    destruct (1 <=? List.length (flags_found s))%nat; gsimpl_goal;
      (split; [exists h; split; [reflexivity | exact Hh2]|]);
      conj_split; auto.
Qed.

(** On the fresh demonstration session the first hint costs 6 points of
    a score of 0. *)
Lemma X4_hint_cost_and_frame_witness :
  __init__ EMAILS demo_rs [] 0 = inr demo_session /\
  paused (run [] demo_session) = false /\
  getitem (all_emails (run [] demo_session))
          (current_level (run [] demo_session)) = Some bank_notice /\
  ((unfound (flags bank_notice) (flags_found (run [] demo_session)) = [] ->
    use_hint 0 (run [] demo_session)
    = Done (set_lbl_msg MsgNoHints (run [] demo_session))) /\
   (unfound (flags bank_notice) (flags_found (run [] demo_session)) <> [] ->
    (HINT_COST_BASE + 3 * current_level (run [] demo_session) <= 18)%Z /\
    (exists h,
        lbl_msg (state_of (use_hint 0 (run [] demo_session)))
        = MsgHint h (HINT_COST_BASE + 3 * current_level (run [] demo_session)) /\
        In h (flags bank_notice) /\
        ~ In h (flags_found (run [] demo_session))) /\
    score (state_of (use_hint 0 (run [] demo_session)))
    = Z.max 0 (score (run [] demo_session)
               - (HINT_COST_BASE + 3 * current_level (run [] demo_session))) /\
    btn_next (state_of (use_hint 0 (run [] demo_session)))
    = (if (1 <=? List.length (flags_found (run [] demo_session)))%nat
       then true else btn_next (run [] demo_session)) /\
    flags_found (state_of (use_hint 0 (run [] demo_session)))
    = flags_found (run [] demo_session) /\
    lives (state_of (use_hint 0 (run [] demo_session)))
    = lives (run [] demo_session) /\
    time_left (state_of (use_hint 0 (run [] demo_session)))
    = time_left (run [] demo_session) /\
    after_pending (state_of (use_hint 0 (run [] demo_session)))
    = after_pending (run [] demo_session) /\
    timer_id (state_of (use_hint 0 (run [] demo_session)))
    = timer_id (run [] demo_session) /\
    results (state_of (use_hint 0 (run [] demo_session)))
    = results (run [] demo_session) /\
    current_level (state_of (use_hint 0 (run [] demo_session)))
    = current_level (run [] demo_session) /\
    paused (state_of (use_hint 0 (run [] demo_session))) = false)).
Proof.
  split; [vm_compute; reflexivity|].
  split; [reflexivity|].
  split; [reflexivity|].
  apply (X4_hint_cost_and_frame EMAILS demo_rs [] 0 demo_session [] 0%nat
           bank_notice); vm_compute; reflexivity.
Defined.

(** ** Lives *)

(** [on_time_up] with a template to record: the life taken, the record
    and the way the session goes on. *)
Lemma on_time_up_sound now s e :
  Inv s ->
  getitem (all_emails s) (current_level s) = Some e ->
  exists s',
    on_time_up now s = Done s' /\ Inv s' /\
    score s' = score s /\ lives s' = (lives s - 1)%Z /\
    results s' = results s ++ [level_result true e s] /\
    all_emails s' = all_emails s /\ total_levels s' = total_levels s /\
    paused s' = paused s /\
    ((lives s <= 1 \/ total_levels s <= current_level s + 1)%Z ->
     current_level s' = current_level s /\ flags_found s' = flags_found s /\
     summaries s' = summaries s ++ [score s]) /\
    ((1 < lives s /\ current_level s + 1 < total_levels s)%Z ->
     current_level s' = (current_level s + 1)%Z /\ flags_found s' = [] /\
     summaries s' = summaries s).
Proof.
  intros H He. unfold on_time_up, on_time_up_with. cbv zeta.
  fold save_result_and_continue.
  remember (set_lives _ _) as s1 eqn:Es1.
  assert (F : Inv s1 /\ score s1 = score s /\ lives s1 = (lives s - 1)%Z /\
              results s1 = results s /\ all_emails s1 = all_emails s /\
              total_levels s1 = total_levels s /\ paused s1 = paused s /\
              current_level s1 = current_level s /\
              flags_found s1 = flags_found s /\ summaries s1 = summaries s /\
              level_result true e s1 = level_result true e s).
  { subst s1. split; [apply Inv_set_lives, Inv_set_lbl_msg, H|].
    repeat split. }
  destruct F as (H1 & F1 & F2 & F3 & F4 & F5 & F6 & F7 & F8 & F9 & F10).
  clear Es1.
  assert (He1 : getitem (all_emails s1) (current_level s1) = Some e)
    by (rewrite F4, F7; exact He).
  destruct (save_result_and_continue_sound true now s1 e H1 He1)
    as (s' & E & Hi & S1 & S2 & S3 & S4 & S5 & S6 & S7 & S8).
  exists s'. split; [exact E|]. split; [exact Hi|].
  rewrite F10, F3 in S3. rewrite F1, F2, F5, F7, F8, F9 in *.
  conj_split; try congruence.
  - intros Hc. apply S7. lia.
  - intros Hc. apply S8. lia.
Qed.

Lemma _tick_lives now s :
  Inv s ->
  (lives s - 1 <= lives (state_of (_tick now s)) <= lives s)%Z.
Proof.
  intros H. destruct (paused s) eqn:Ep.
  { rewrite _tick_paused by assumption. gsimpl_goal. lia. }
  destruct (Z_lt_le_dec 0 (time_left s)) as [Hl|Hl].
  { rewrite _tick_live by assumption. unfold schedule_tick. gsimpl_goal. lia. }
  rewrite _tick_expired by assumption.
  destruct (getitem (all_emails s) (current_level s)) as [e|] eqn:He.
  - destruct (on_time_up_sound now s e H He) as (s' & E & _ & _ & L & _).
    rewrite E. gsimpl_goal. lia.
  - unfold on_time_up, on_time_up_with. cbv zeta.
    fold save_result_and_continue.
    rewrite save_result_and_continue_none by exact He. gsimpl_goal. lia.
Qed.

Lemma dispatch_lives ev s :
  Inv s ->
  match snd ev with
  | Submit _ | Hint _ | Next =>
      lives (state_of (dispatch ev s)) = lives s
  | TogglePause | TimerFires =>
      (lives s - 1 <= lives (state_of (dispatch ev s)) <= lives s)%Z
  | Restart _ _ =>
      lives (state_of (dispatch ev s)) = lives s \/
      lives (state_of (dispatch ev s)) = 3%Z
  end.
Proof.
  intros H. destruct ev as [now [entry|r| | |confirmed rs|]]; simpl.
  - (* on_submit *)
    destruct (paused s) eqn:Ep; [unfold on_submit; now rewrite Ep|].
    destruct (truthy (strip entry)) eqn:Eu;
      [|unfold on_submit; now rewrite Ep, Eu].
    destruct (getitem (all_emails s) (current_level s)) as [e|] eqn:He;
      [|unfold on_submit; now rewrite Ep, Eu, He].
    destruct (find_flag (strip entry) (flags_found s) (flags e)) as [f|] eqn:Ef.
    + destruct (Inv_start_time s e H He) as [t0 Ht].
      rewrite (on_submit_matched _ _ t0 _ e f) by assumption. cbv zeta.
      destruct (credited_frame f (10 + speed_bonus (pb_maximum s) (now - t0)) s)
        as (_ & _ & _ & _ & _ & C6 & _).
      destruct (perfected_frame
                  (credited f (10 + speed_bonus (pb_maximum s) (now - t0)) s))
        as (_ & _ & _ & _ & P5 & _).
      destruct (_ =? _)%nat; cbn [state_of]; congruence.
    + now rewrite (on_submit_unmatched _ _ _ e).
  - (* use_hint *)
    destruct (paused s) eqn:Ep; [unfold use_hint; now rewrite Ep|].
    destruct (getitem (all_emails s) (current_level s)) as [e|] eqn:He;
      [|unfold use_hint; now rewrite Ep, He].
    pose proof (use_hint_eq r s e Ep He) as Hh.
    destruct (unfound (flags e) (flags_found s)).
    + now rewrite Hh.
    + destruct Hh as (h & _ & _ & ->).
      destruct (1 <=? _)%nat; reflexivity.
  - (* next_level *)
    unfold next_level. destruct (paused s); [reflexivity|].
    destruct (getitem (all_emails s) (current_level s)) as [e|] eqn:He.
    + destruct (save_result_and_continue_sound false now s e H He)
        as (s' & E & _ & _ & L & _).
      now rewrite E.
    + now rewrite save_result_and_continue_none.
  - (* toggle_pause *)
    unfold toggle_pause. destruct (paused s) eqn:Ep.
    + cbv zeta. rewrite state_of_bind_msg.
      unfold start_timer, start_timer_with.
      destruct (Inv_resume s H) as (Hi & _).
      pose proof (_tick_lives now _ Hi) as Hl.
      destruct (stop_timer_frame (set_paused false s))
        as (_ & _ & _ & _ & E5 & _).
      rewrite E5 in Hl. cbn [lives set_paused] in Hl.
      destruct (_tick now _); gsimpl; exact Hl.
    + destruct (stop_timer_frame (set_paused true s))
        as (_ & _ & _ & _ & E5 & _).
      cbn [state_of lives set_lbl_msg]. rewrite E5. cbn [lives set_paused]. lia.
  - (* restart_game *)
    unfold restart_game. destruct confirmed; [|now left]. right.
    cbv zeta. cbn [negb].
    remember (set_all_emails _ _) as s1 eqn:Es1.
    assert (F : lives s1 = 3%Z /\ score s1 = 0%Z /\
                total_levels s1 = total_levels s /\
                List.length (all_emails s1) = List.length (all_emails s) /\
                timer_ok s1 = timer_ok s).
    { subst s1. gsimpl_goal. rewrite length_shuffle. repeat split. }
    destruct F as (F1 & F2 & F3 & F4 & F5). clear Es1.
    destruct (Z_lt_le_dec 0 (total_levels s1)) as [Hpos|Hz].
    + destruct (Inv_load_level 0 now s1) as (s' & E & _ & _ & _ & _ & L & _).
      * lia.
      * rewrite F3, F4. apply H.
      * rewrite F5. apply H.
      * lia.
      * rewrite E. cbn [state_of]. congruence.
    + rewrite load_level_finished by exact Hz. cbn [state_of].
      destruct (finish_game_frame (set_current_level 0 s1)) as (_ & L & _).
      rewrite L. exact F1.
  - (* timer_fires *)
    unfold timer_fires. destruct (after_pending s) as [|id rest] eqn:Ea.
    + gsimpl_goal. lia.
    + assert (Hi : Inv (set_after_pending rest s)).
      { assert (Er : rest = []).
        { pose proof (inv_timer s H) as Ht. unfold timer_ok in Ht.
          rewrite Ea in Ht. destruct rest; [reflexivity | discriminate]. }
        subst rest. inv_open H. constructor; inv_unfold; auto. }
      exact (_tick_lives now _ Hi).
Qed.

(** X5. Lives are taken by the run-out of the countdown only. A guess, a
    hint or an explicit advance never changes [lives]; a timer firing or
    a resume takes at most one life; a confirmed restart sets it back
    to 3. In a session [lives] therefore never exceeds 3. *)
Theorem X5_lives_taken_by_expiry_only (emails : list Email) (rs : list nat)

        (board : list Json) (now : Q) (g : Game) (evs : list Event) (ev : Event) :
  __init__ emails rs board now = inr g ->
  (lives (run evs g) <= 3)%Z /\
  match snd ev with
  | Submit _ | Hint _ | Next =>
      lives (state_of (dispatch ev (run evs g))) = lives (run evs g)
  | TogglePause | TimerFires =>
      (lives (run evs g) - 1
       <= lives (state_of (dispatch ev (run evs g))) <= lives (run evs g))%Z
  | Restart _ _ =>
      lives (state_of (dispatch ev (run evs g))) = lives (run evs g) \/
      lives (state_of (dispatch ev (run evs g))) = 3%Z
  end.
Proof.
  intros E. split.
  - destruct (__init___shown _ _ _ _ _ E) as [rows Hrows].
    destruct (__init___sound emails rs board now rows Hrows)
      as (g' & E' & Hi & _ & _ & _ & _ & Hl & _).
    assert (g' = g) by congruence. subst g'. clear E E'.
    assert (Hl3 : (lives g <= 3)%Z) by lia. clear Hl.
    revert g Hi Hl3. induction evs as [|ev' evs IH]; intros g Hi Hl; simpl.
    + lia.
    + apply IH; [now apply dispatch_Inv|].
      pose proof (dispatch_lives ev' g Hi) as Hd.
      destruct (snd ev'); lia.
  - apply dispatch_lives, (reached_Inv _ _ _ _ _ evs E).
Qed.

Lemma X5_lives_taken_by_expiry_only_witness :
  __init__ EMAILS demo_rs [] 0 = inr demo_session /\
  ((lives (run countdown demo_session) <= 3)%Z /\
   (lives (run countdown demo_session) - 1
    <= lives (state_of (dispatch (40%Q, TimerFires)
                          (run countdown demo_session)))
    <= lives (run countdown demo_session))%Z).
Proof.
  split; [vm_compute; reflexivity|].
  apply (X5_lives_taken_by_expiry_only EMAILS demo_rs [] 0 demo_session
           countdown (40%Q, TimerFires)).
  vm_compute; reflexivity.
Defined.

(** ** Level flow *)

Lemma fresh_level_stopped level_index now s :
  timer_ok s = true ->
  let s1 := stop_timer (fresh_level level_index now s) in
  current_level s1 = level_index /\ flags_found s1 = [] /\
  lbl_msg s1 = MsgEmpty /\ btn_next s1 = false /\
  pb_maximum s1 = level_time level_index /\
  time_left s1 = level_time level_index /\
  start_time s1 = Some now /\ score s1 = score s /\ lives s1 = lives s /\
  results s1 = results s /\ all_emails s1 = all_emails s /\
  total_levels s1 = total_levels s /\ paused s1 = paused s /\
  summaries s1 = summaries s /\ after_next s1 = after_next s /\
  after_pending s1 = [] /\ timer_id s1 = None.
Proof.
  intros Ht. cbv zeta.
  remember (fresh_level level_index now s) as s0 eqn:Es0.
  assert (F : current_level s0 = level_index /\ flags_found s0 = [] /\
              lbl_msg s0 = MsgEmpty /\ btn_next s0 = false /\
              pb_maximum s0 = level_time level_index /\
              time_left s0 = level_time level_index /\
              start_time s0 = Some now /\ score s0 = score s /\
              lives s0 = lives s /\ results s0 = results s /\
              all_emails s0 = all_emails s /\
              total_levels s0 = total_levels s /\ paused s0 = paused s /\
              summaries s0 = summaries s /\ after_next s0 = after_next s /\
              timer_ok s0 = timer_ok s)
    by (subst s0; repeat split).
  clear Es0.
  destruct F as (F1 & F2 & F3 & F4 & F5 & F6 & F7 & F8 & F9 & F10 & F11 & F12
                 & F13 & F14 & F15 & F16).
  rewrite <- F16 in Ht. pose proof (stop_timer_pending s0 Ht) as Hp.
  destruct (stop_timer_frame s0)
    as (E1 & E2 & E3 & E4 & E5 & E6 & E7 & E8 & E9 & E10 & E11 & E12 & E13
        & E14 & E15 & E16).
  conj_split; congruence.
Qed.

(** What [load_level] does to a state on a level that exists. *)
Lemma load_level_sound (s : Game) (level_index : Z) (now : Q) :
  timer_ok s = true ->
  (0 <= level_index < total_levels s)%Z ->
  (total_levels s <= Z.of_nat (List.length (all_emails s)))%Z ->
  exists s',
    load_level level_index now s = Done s' /\
    current_level s' = level_index /\ flags_found s' = [] /\
    lbl_msg s' = MsgEmpty /\ btn_next s' = false /\
    pb_maximum s' = level_time level_index /\
    start_time s' = Some now /\
    score s' = score s /\ lives s' = lives s /\ results s' = results s /\
    all_emails s' = all_emails s /\ total_levels s' = total_levels s /\
    paused s' = paused s /\ summaries s' = summaries s /\
    (paused s = false ->
     time_left s' = (level_time level_index - 1)%Z /\
     after_pending s' = [after_next s] /\
     timer_id s' = Some (after_next s)) /\
    (paused s = true ->
     time_left s' = level_time level_index /\
     after_pending s' = [] /\ timer_id s' = None).
Proof.
  intros Ht Hl Hlen.
  destruct (getitem_in_range (all_emails s) level_index) as [e He]; [lia|].
  rewrite (load_level_loaded _ _ _ e) by (lia || assumption).
  pose proof (fresh_level_stopped level_index now s Ht) as F. cbv zeta in *.
  remember (stop_timer (fresh_level level_index now s)) as s1 eqn:Es1.
  clear Es1.
  destruct F as (F1 & F2 & F3 & F4 & F5 & F6 & F7 & F8 & F9 & F10 & F11 & F12
                 & F13 & F14 & F15 & F16 & F17).
  destruct (paused s) eqn:Ep.
  - exists s1. conj_split; auto; discriminate.
  - eexists. split; [reflexivity|]. unfold schedule_tick. gsimpl_goal.
    rewrite F15, F16. conj_split; auto; discriminate.
Qed.

(** X6. Loading a level that exists resets the level and nothing else:
    no flag found, empty message, "Next" disabled, limit
    [max(10, 40 - 6 * level)], clock taken as start; score, lives,
    history, templates and the pause flag are kept, and any tick of the
    level before is cancelled. When the game is not paused the first
    tick runs at once: the countdown already shows one second less than
    the limit and exactly one tick is scheduled. When it is paused
    nothing is scheduled and the countdown stays at the limit. *)
Theorem X6_load_level_resets_the_level (s : Game) (level_index : Z) (now : Q) :
  timer_ok s = true ->
  (0 <= level_index < total_levels s)%Z ->
  (total_levels s <= Z.of_nat (List.length (all_emails s)))%Z ->
  exists s',
    load_level level_index now s = Done s' /\
    current_level s' = level_index /\ flags_found s' = [] /\
    lbl_msg s' = MsgEmpty /\ btn_next s' = false /\
    pb_maximum s' = level_time level_index /\
    start_time s' = Some now /\
    score s' = score s /\ lives s' = lives s /\ results s' = results s /\
    all_emails s' = all_emails s /\ total_levels s' = total_levels s /\
    paused s' = paused s /\ summaries s' = summaries s /\
    (paused s = false ->
     time_left s' = (level_time level_index - 1)%Z /\
     after_pending s' = [after_next s] /\
     timer_id s' = Some (after_next s)) /\
    (paused s = true ->
     time_left s' = level_time level_index /\
     after_pending s' = [] /\ timer_id s' = None).
Proof. exact (load_level_sound s level_index now). Qed.

(** Level 1 loaded over the demonstration session, 32 seconds in. *)
Lemma X6_load_level_resets_the_level_witness :
  timer_ok (run pause_thirty demo_session) = true /\
  (0 <= 1 < total_levels (run pause_thirty demo_session))%Z /\
  (total_levels (run pause_thirty demo_session)
   <= Z.of_nat (List.length (all_emails (run pause_thirty demo_session))))%Z /\
  exists s',
    load_level 1 32 (run pause_thirty demo_session) = Done s' /\
    current_level s' = 1%Z /\ flags_found s' = [] /\
    lbl_msg s' = MsgEmpty /\ btn_next s' = false /\
    pb_maximum s' = level_time 1 /\
    start_time s' = Some 32 /\
    score s' = score (run pause_thirty demo_session) /\
    lives s' = lives (run pause_thirty demo_session) /\
    results s' = results (run pause_thirty demo_session) /\
    all_emails s' = all_emails (run pause_thirty demo_session) /\
    total_levels s' = total_levels (run pause_thirty demo_session) /\
    paused s' = paused (run pause_thirty demo_session) /\
    summaries s' = summaries (run pause_thirty demo_session) /\
    (paused (run pause_thirty demo_session) = false ->
     time_left s' = (level_time 1 - 1)%Z /\
     after_pending s' = [after_next (run pause_thirty demo_session)] /\
     timer_id s' = Some (after_next (run pause_thirty demo_session))) /\
    (paused (run pause_thirty demo_session) = true ->
     time_left s' = level_time 1 /\
     after_pending s' = [] /\ timer_id s' = None).
Proof.
  split; [vm_compute; reflexivity|].
  split; [vm_compute; split; [discriminate | reflexivity]|].
  split; [vm_compute; discriminate|].
  apply (X6_load_level_resets_the_level (run pause_thirty demo_session) 1 32).
  - vm_compute; reflexivity.
  - vm_compute; split; [discriminate | reflexivity].
  - vm_compute; discriminate.
Defined.

(** X7. The explicit advance. While the game is paused [next_level] does
    nothing. Otherwise it records the level with [skipped = False]
    (found flags in discovery order, missed flags in authoring order),
    keeps score and lives, and then either ends the run, opening a
    summary with the score, when no life is left or the level was the
    last one, or loads the next level with no flag found. *)
Theorem X7_next_level_records_and_advances (s : Game) (now : Q) (e : Email) :
  inv s = true ->
  getitem (all_emails s) (current_level s) = Some e ->
  (paused s = true -> next_level now s = Done s) /\
  (paused s = false ->
   exists s',
     next_level now s = Done s' /\
     score s' = score s /\ lives s' = lives s /\
     results s' =
       results s ++
       [mkResult (title e) (text e) (flags_found s)
                 (unfound (flags e) (flags_found s)) false] /\
     ((lives s <= 0 \/ total_levels s <= current_level s + 1)%Z ->
      current_level s' = current_level s /\
      flags_found s' = flags_found s /\
      summaries s' = summaries s ++ [score s]) /\
     ((0 < lives s /\ current_level s + 1 < total_levels s)%Z ->
      current_level s' = (current_level s + 1)%Z /\
      flags_found s' = [] /\
      summaries s' = summaries s)).
Proof.
  intros Hinv He. apply inv_Inv in Hinv. unfold next_level. split.
  - now intros ->.
  - intros ->.
    destruct (save_result_and_continue_sound false now s e Hinv He)
      as (s' & E & _ & S1 & S2 & S3 & _ & _ & _ & S7 & S8).
    exists s'. conj_split; auto.
Qed.

Lemma X7_next_level_records_and_advances_witness :
  inv (run countdown demo_session) = true /\
  getitem (all_emails (run countdown demo_session))
          (current_level (run countdown demo_session)) = Some bank_notice /\
  ((paused (run countdown demo_session) = true ->
    next_level 40 (run countdown demo_session)
    = Done (run countdown demo_session)) /\
   (paused (run countdown demo_session) = false ->
    exists s',
      next_level 40 (run countdown demo_session) = Done s' /\
      score s' = score (run countdown demo_session) /\
      lives s' = lives (run countdown demo_session) /\
      results s' =
        results (run countdown demo_session) ++
        [mkResult (title bank_notice) (text bank_notice)
                  (flags_found (run countdown demo_session))
                  (unfound (flags bank_notice)
                           (flags_found (run countdown demo_session)))
                  false] /\
      ((lives (run countdown demo_session) <= 0 \/
        total_levels (run countdown demo_session)
        <= current_level (run countdown demo_session) + 1)%Z ->
       current_level s' = current_level (run countdown demo_session) /\
       flags_found s' = flags_found (run countdown demo_session) /\
       summaries s' = summaries (run countdown demo_session)
                      ++ [score (run countdown demo_session)]) /\
      ((0 < lives (run countdown demo_session) /\
        current_level (run countdown demo_session) + 1
        < total_levels (run countdown demo_session))%Z ->
       current_level s' = (current_level (run countdown demo_session) + 1)%Z /\
       flags_found s' = [] /\
       summaries s' = summaries (run countdown demo_session)))).
Proof.
  split; [vm_compute; reflexivity|].
  split; [vm_compute; reflexivity|].
  apply (X7_next_level_records_and_advances (run countdown demo_session) 40
           bank_notice); vm_compute; reflexivity.
Defined.

(** ** Sampling keeps the templates *)

Lemma firstn_snoc_nth {A} (l : list A) (m : nat) (y : A) :
  nth_error l m = Some y -> firstn (S m) l = firstn m l ++ [y].
Proof.
  revert m. induction l as [|p l IH]; intros [|m] H; simpl in *;
    try discriminate.
  - now injection H as ->.
  - f_equal. apply IH, H.
Qed.

(** One step of the selection: the item drawn, followed by what is left
    to draw from, is what there was to draw from. *)
Lemma sample_step_perm {A} (pool : list A) (j m : nat) (x y : A) :
  (j < m)%nat ->
  nth_error pool j = Some x ->
  nth_error pool (m - 1) = Some y ->
  Permutation (x :: firstn (m - 1) (Random.list_set pool j y)) (firstn m pool).
Proof.
  revert j m. induction pool as [|p pool IH]; intros j m Hj Hx Hy.
  { destruct j; discriminate. }
  destruct m as [|[|m]]; [lia| |].
  - assert (j = 0)%nat by lia. subst j. simpl in *. injection Hx as ->.
    reflexivity.
  - replace (S (S m) - 1)%nat with (S m) in * by lia.
    destruct j as [|j]; simpl in Hx, Hy.
    + injection Hx as ->. cbn [Random.list_set]. rewrite !firstn_cons.
      apply perm_skip. rewrite (firstn_snoc_nth pool m y Hy).
      apply Permutation_cons_append.
    + cbn [Random.list_set]. rewrite !firstn_cons.
      apply perm_trans
        with (p :: x :: firstn m (Random.list_set pool j y));
        [apply perm_swap|].
      apply perm_skip.
      specialize (IH j (S m)).
      replace (S m - 1)%nat with m in IH by lia.
      apply IH; [lia | assumption | assumption].
Qed.

Lemma sample_loop_perm {A} (k i : nat) (pool : list A) (rs : list nat) :
  (i + k <= List.length pool)%nat ->
  exists rest,
    Permutation (Random.sample_loop k i pool rs ++ rest)
                (firstn (List.length pool - i) pool) /\
    List.length rest = (List.length pool - i - k)%nat.
Proof.
  revert i pool rs. induction k as [|k IH]; intros i pool rs H.
  - exists (firstn (List.length pool - i) pool). split; [reflexivity|].
    rewrite length_firstn. lia.
  - cbn [Random.sample_loop].
    assert (Hj : (Random.randbelow (List.length pool - i) (hd 0%nat rs)
                  < List.length pool - i)%nat).
    { unfold Random.randbelow. apply Nat.mod_upper_bound. lia. }
    destruct (nth_error pool (Random.randbelow _ _)) as [x|] eqn:E1.
    2:{ apply nth_error_None in E1. lia. }
    destruct (nth_error pool (List.length pool - i - 1)) as [y|] eqn:E2.
    2:{ apply nth_error_None in E2. lia. }
    destruct (IH (S i)
                 (Random.list_set pool
                    (Random.randbelow (List.length pool - i) (hd 0%nat rs)) y)
                 (tl rs))
      as (rest & Hp & Hl).
    { rewrite length_list_set. lia. }
    rewrite length_list_set in Hp, Hl.
    exists rest. split; [|lia].
    simpl. eapply perm_trans; [apply perm_skip, Hp|].
    replace (List.length pool - S i)%nat with (List.length pool - i - 1)%nat
      by lia.
    apply sample_step_perm; assumption.
Qed.

(** X8. [restart_game]. A declined dialog changes nothing. A confirmed
    restart sets the score to 0, the lives to 3, the level to 0 and
    empties the history; the templates are the same ones in a shuffled
    order and the number of levels is kept. The pause flag is not reset:
    a game restarted while paused stays paused, with the countdown of
    the first level at its full 40 seconds and no tick scheduled, while
    a running game shows 39 at once. Summary windows already open stay
    open; with no template at all a new summary is opened instead. *)
Theorem X8_restart_game (s : Game) (rs : list nat) (now : Q) :
  inv s = true ->
  restart_game false rs now s = Done s /\
  exists s',
    restart_game true rs now s = Done s' /\
    score s' = 0%Z /\ lives s' = 3%Z /\ current_level s' = 0%Z /\
    results s' = [] /\ flags_found s' = [] /\
    Permutation (all_emails s') (all_emails s) /\
    total_levels s' = total_levels s /\ paused s' = paused s /\
    ((0 < total_levels s)%Z ->
     summaries s' = summaries s /\ pb_maximum s' = 40%Z /\
     start_time s' = Some now /\
     (paused s = false ->
      time_left s' = 39%Z /\ after_pending s' = [after_next s]) /\
     (paused s = true ->
      time_left s' = 40%Z /\ after_pending s' = [])) /\
    (total_levels s = 0%Z -> summaries s' = summaries s ++ [0%Z]).
Proof.
  intros Hinv. apply inv_Inv in Hinv. split; [reflexivity|].
  unfold restart_game. cbn [negb]. cbv zeta.
  remember (set_all_emails _ _) as s1 eqn:Es1.
  assert (F : lives s1 = 3%Z /\ score s1 = 0%Z /\ results s1 = [] /\
              total_levels s1 = total_levels s /\
              all_emails s1 = Random.shuffle (all_emails s) rs /\
              timer_ok s1 = timer_ok s /\ paused s1 = paused s /\
              summaries s1 = summaries s /\ after_next s1 = after_next s /\
              flags_found s1 = flags_found s)
    by (subst s1; repeat split).
  destruct F as (F1 & F2 & F3 & F4 & F5 & F6 & F7 & F8 & F9 & F10).
  clear Es1.
  pose proof (shuffle_perm (all_emails s) rs) as Hperm.
  destruct (Inv_current s Hinv) as [[Hpos _]|(Hz & Hc & He & _ & Hf)].
  - destruct (load_level_sound s1 0 now)
      as (s' & E & L1 & L2 & L3 & L4 & L5 & L6 & L7 & L8 & L9 & L10 & L11
          & L12 & L13 & L14 & L15).
    + rewrite F6. apply Hinv.
    + lia.
    + rewrite F4, F5, length_shuffle, (inv_total s Hinv). lia.
    + exists s'. split; [exact E|].
      rewrite F7, F9 in *. change (level_time 0) with 40%Z in *.
      split; [congruence|]. split; [congruence|]. split; [exact L1|].
      split; [congruence|]. split; [exact L2|].
      split; [rewrite L10, F5; exact Hperm|].
      split; [congruence|]. split; [congruence|]. split.
      * intros _. split; [congruence|]. split; [exact L5|].
        split; [exact L6|]. split.
        -- intros Hp. destruct (L14 Hp) as (T1 & T2 & _).
           split; [rewrite T1; reflexivity | exact T2].
        -- intros Hp. destruct (L15 Hp) as (T1 & T2 & _).
           split; assumption.
      * intros Hz. lia.
  - rewrite load_level_finished by lia.
    destruct (finish_game_frame (set_current_level 0 s1))
      as (G1 & G2 & G3 & G4 & G5 & G6 & G7 & G8 & G9).
    cbn [score lives results all_emails total_levels current_level
         flags_found paused summaries set_current_level] in *.
    eexists. split; [reflexivity|].
    split; [congruence|]. split; [congruence|]. split; [exact G6|].
    split; [congruence|]. split; [congruence|].
    split; [rewrite G4, F5; exact Hperm|].
    split; [congruence|]. split; [congruence|]. split.
    + intros Hpos. lia.
    + intros _. rewrite G9, F8, F2. reflexivity.
Qed.

(** A restart of the demonstration session while it shows no time left. *)
Lemma X8_restart_game_witness :
  inv (run countdown demo_session) = true /\
  (restart_game false demo_rs 41 (run countdown demo_session)
   = Done (run countdown demo_session) /\
   exists s',
     restart_game true demo_rs 41 (run countdown demo_session) = Done s' /\
     score s' = 0%Z /\ lives s' = 3%Z /\ current_level s' = 0%Z /\
     results s' = [] /\ flags_found s' = [] /\
     Permutation (all_emails s') (all_emails (run countdown demo_session)) /\
     total_levels s' = total_levels (run countdown demo_session) /\
     paused s' = paused (run countdown demo_session) /\
     ((0 < total_levels (run countdown demo_session))%Z ->
      summaries s' = summaries (run countdown demo_session) /\
      pb_maximum s' = 40%Z /\
      start_time s' = Some 41 /\
      (paused (run countdown demo_session) = false ->
       time_left s' = 39%Z /\
       after_pending s' = [after_next (run countdown demo_session)]) /\
      (paused (run countdown demo_session) = true ->
       time_left s' = 40%Z /\ after_pending s' = [])) /\
     (total_levels (run countdown demo_session) = 0%Z ->
      summaries s' = summaries (run countdown demo_session) ++ [0%Z])).
Proof.
  split; [vm_compute; reflexivity|].
  apply (X8_restart_game (run countdown demo_session) demo_rs 41).
  vm_compute; reflexivity.
Defined.

(** The session that [__init__] builds when the leaderboard can be
    shown. *)
Lemma __init___built (emails : list Email) (rs : list nat)
      (board : list Json) (now : Q) (rows : list Row) :
  update_leaderboard_ui board = inr rows ->
  exists g,
    __init__ emails rs board now = inr g /\
    (exists rest,
        Permutation (all_emails g ++ rest) emails /\
        List.length rest = (List.length emails - 6)%nat) /\
    total_levels g = Z.min 5 (Z.of_nat (List.length emails)) /\
    score g = 0%Z /\ lives g = 3%Z /\ current_level g = 0%Z /\
    results g = [] /\ flags_found g = [] /\ paused g = false /\
    (emails <> [] ->
     summaries g = [] /\ pb_maximum g = 40%Z /\ time_left g = 39%Z /\
     start_time g = Some now /\ after_pending g = [0%nat] /\
     timer_id g = Some 0%nat) /\
    (emails = [] ->
     summaries g = [0%Z] /\ after_pending g = [] /\ start_time g = None).
Proof.
  intros Hrows. unfold __init__, Random.sample. rewrite Hrows.
  set (n := Z.of_nat (List.length emails)).
  assert (Hk : ((0 <=? Z.min n 6) && (Z.min n 6 <=? n))%Z = true).
  { apply andb_true_iff. split; apply Z.leb_le; lia. }
  rewrite Hk.
  remember (Random.sample_loop _ _ _ _) as sampled eqn:Es.
  assert (Hlen : Z.of_nat (List.length sampled) = Z.min n 6).
  { subst sampled. rewrite length_sample_loop; lia. }
  assert (Hperm : exists rest,
             Permutation (sampled ++ rest) emails /\
             List.length rest = (List.length emails - 6)%nat).
  { destruct (sample_loop_perm (Z.to_nat (Z.min n 6)) 0 emails rs)
      as (rest & Hp & Hl); [lia|].
    rewrite Nat.sub_0_r, firstn_all in Hp. rewrite <- Es in Hp.
    exists rest. split; [exact Hp | lia]. }
  clear Es.
  remember (mkGame _ _ _ _ _ _ _ _ _ _ _ _ _ _ _ _ _) as s0 eqn:Es0.
  assert (F : all_emails s0 = sampled /\
              total_levels s0 = Z.min 5 (Z.of_nat (List.length sampled)) /\
              score s0 = 0%Z /\ lives s0 = 3%Z /\ results s0 = [] /\
              flags_found s0 = [] /\ paused s0 = false /\
              summaries s0 = [] /\ after_next s0 = 0%nat /\
              after_pending s0 = [] /\ start_time s0 = None /\
              timer_ok s0 = true /\ timer_id s0 = None)
    by (subst s0; repeat split).
  destruct F as (F1 & F2 & F3 & F4 & F5 & F6 & F7 & F8 & F9 & F10 & F11 & F12
                 & F13).
  clear Es0.
  assert (Hn : emails = [] <-> n = 0%Z).
  { subst n. destruct emails; simpl List.length; split; intros; try reflexivity;
      try discriminate; lia. }
  destruct (Z_lt_le_dec 0 (total_levels s0)) as [Hpos|Hz].
  - destruct (load_level_sound s0 0 now)
      as (s' & E & L1 & L2 & L3 & L4 & L5 & L6 & L7 & L8 & L9 & L10 & L11
          & L12 & L13 & L14 & L15); [exact F12 | lia | rewrite F2, F1; lia |].
    rewrite E. exists s'. split; [reflexivity|].
    destruct (L14 F7) as (T1 & T2 & T3).
    rewrite F9 in *. change (level_time 0) with 40%Z in *.
    rewrite L10, F1. split; [exact Hperm|].
    split; [rewrite L11, F2; lia|].
    split; [congruence|]. split; [congruence|]. split; [exact L1|].
    split; [congruence|]. split; [exact L2|]. split; [congruence|]. split.
    + intros _. split; [congruence|]. split; [exact L5|].
      split; [rewrite T1; reflexivity|]. split; [exact L6|].
      split; assumption.
    + intros He. apply Hn in He. lia.
  - rewrite load_level_finished by exact Hz.
    destruct (finish_game_frame (set_current_level 0 s0))
      as (G1 & G2 & G3 & G4 & G5 & G6 & G7 & G8 & G9).
    cbn [score lives results all_emails total_levels current_level
         flags_found paused summaries set_current_level] in *.
    eexists. split; [reflexivity|].
    rewrite G4, F1. split; [exact Hperm|].
    assert (Hs : after_pending (finish_game (set_current_level 0 s0)) = [] /\
                 start_time (finish_game (set_current_level 0 s0)) = None).
    { unfold finish_game.
      remember (set_current_level 0 s0) as s1 eqn:Es1.
      assert (F' : timer_ok s1 = true /\ start_time s1 = None)
        by (subst s1; split; assumption).
      clear Es1. destruct F' as [T1 T2].
      pose proof (stop_timer_pending s1 T1).
      destruct (stop_timer_frame s1) as (_ & _ & _ & _ & _ & _ & _ & E8 & _).
      cbn [after_pending start_time set_summaries]. split; congruence. }
    destruct Hs as [Hs1 Hs2].
    split; [rewrite G5, F2; lia|].
    split; [congruence|]. split; [congruence|]. split; [exact G6|].
    split; [congruence|]. split; [congruence|]. split; [congruence|]. split.
    + intros He. exfalso. apply He, Hn. lia.
    + intros _. rewrite G9, F8, F3. conj_split; auto.
Qed.

Lemma subscript_raises (item : Json) (key : string) (e : Exn) :
  subscript item key = inl e -> e = TypeError \/ e = KeyError.
Proof.
  unfold subscript. destruct item as [| | | | | |d];
    try (intros H; injection H as <-; now left).
  destruct (lookup key d); [discriminate|].
  intros H; injection H as <-. now right.
Qed.

(** The loop over the entries shown stops at the first entry that is not
    a dictionary holding a name and a score. *)
Lemma leader_rows_raises (items : list Json) (e : Exn) :
  leader_rows items = inl e ->
  exists item, In item items /\
               (subscript item "name" = inl e \/
                subscript item "score" = inl e).
Proof.
  induction items as [|item rest IH]; cbn [leader_rows]; [discriminate|].
  destruct (subscript item "name") as [e1|name] eqn:E1.
  - intros H; injection H as <-. exists item. split; [now left | now left].
  - destruct (subscript item "score") as [e2|sc] eqn:E2.
    + intros H; injection H as <-. exists item. split; [now left | now right].
    + destruct (leader_rows rest) as [e3|rows]; [|discriminate].
      intros H; injection H as <-.
      destruct (IH eq_refl) as (it & Hin & Hs).
      exists it. split; [now right | exact Hs].
Qed.

Lemma leader_rows_listed (items : list Json) (rows : list Row) :
  leader_rows items = inr rows ->
  List.length rows = List.length items /\
  forall item, In item items ->
    exists name score, subscript item "name" = inr name /\
                       subscript item "score" = inr score /\
                       In (RowOf name score) rows.
Proof.
  revert rows. induction items as [|item rest IH]; intros rows;
    cbn [leader_rows].
  - intros H; injection H as <-. split; [reflexivity | intros item []].
  - destruct (subscript item "name") as [e1|name] eqn:E1; [discriminate|].
    destruct (subscript item "score") as [e2|sc] eqn:E2; [discriminate|].
    destruct (leader_rows rest) as [e3|rows']; [discriminate|].
    intros H; injection H as <-.
    destruct (IH rows' eq_refl) as [Hl Hr]. split; [simpl; now rewrite Hl|].
    intros it [<-|Hin].
    + exists name, sc. repeat split; auto. now left.
    + destruct (Hr it Hin) as (n' & s' & A & B & C).
      exists n', s'. repeat split; auto. now right.
Qed.

(** The entries the game writes can be listed. *)
Lemma leader_rows_written (board : list Leader) :
  leader_rows (map leader_json board)
  = inr (map (fun l => RowOf (JStr (leader_name l)) (JInt (leader_score l)))
             board).
Proof.
  induction board as [|l board IH]; [reflexivity|].
  cbn [map leader_rows]. rewrite IH. reflexivity.
Qed.

(** X9. Construction. The templates never make [__init__] fail: the
    only exceptions come from the leaderboard that [init_ui] lists, when
    one of the first five entries loaded is not a dictionary
    ([TypeError]) or has no "name" or no "score" ([KeyError]); the
    session is then not built. With no leaderboard, or one whose first
    five entries can be listed, such as a board that the game wrote
    itself, [__init__] keeps [min(len(EMAILS), 6)] entries of [EMAILS],
    each taken once (what is not kept, if anything, completes them to a
    rearrangement of the table), and plays [min(5, ...)] of them,
    starting with score 0, three lives and an empty history. With at
    least one template the first level is running: limit 40, 39 on the
    countdown and one tick scheduled. With an empty table the run is
    over at once: a summary showing 0 is opened and no timer is
    started. *)
Theorem X9_construction (emails : list Email) (rs : list nat)
        (board : list Json) (now : Q) :
  match update_leaderboard_ui board with
  | inl e =>
      __init__ emails rs board now = inl e /\
      (e = TypeError \/ e = KeyError) /\
      exists item, In item (firstn 5 board) /\
                   (subscript item "name" = inl e \/
                    subscript item "score" = inl e)
  | inr _ =>
      (forall item, In item (firstn 5 board) ->
         exists name score, subscript item "name" = inr name /\
                            subscript item "score" = inr score) /\
      exists g,
        __init__ emails rs board now = inr g /\
        (exists rest,
            Permutation (all_emails g ++ rest) emails /\
            List.length rest = (List.length emails - 6)%nat) /\
        total_levels g = Z.min 5 (Z.of_nat (List.length emails)) /\
        score g = 0%Z /\ lives g = 3%Z /\ current_level g = 0%Z /\
        results g = [] /\ flags_found g = [] /\ paused g = false /\
        (emails <> [] ->
         summaries g = [] /\ pb_maximum g = 40%Z /\ time_left g = 39%Z /\
         start_time g = Some now /\ after_pending g = [0%nat] /\
         timer_id g = Some 0%nat) /\
        (emails = [] ->
         summaries g = [0%Z] /\ after_pending g = [] /\
         start_time g = None)
  end /\
  update_leaderboard_ui [] = inr [NoScoresYet] /\
  forall written : list Leader,
    exists rows, update_leaderboard_ui (map leader_json written) = inr rows.
Proof.
  split; [|split; [reflexivity|]].
  - destruct (update_leaderboard_ui board) as [e|rows] eqn:Hu.
    + split; [now apply __init___raises|].
      assert (Hl : leader_rows (firstn 5 board) = inl e).
      { destruct board; [discriminate | exact Hu]. }
      destruct (leader_rows_raises _ _ Hl) as (item & Hin & Hs).
      split; [|exists item; split; assumption].
      destruct Hs as [Hs|Hs]; exact (subscript_raises _ _ _ Hs).
    + split; [|exact (__init___built emails rs board now rows Hu)].
      intros item Hin. destruct board as [|b board]; [destruct Hin|].
      destruct (leader_rows_listed _ _ Hu) as [_ Hr].
      destruct (Hr item Hin) as (name & sc & A & B & _).
      exists name, sc. split; assumption.
  - intros [|l written]; [eexists; reflexivity|].
    unfold update_leaderboard_ui. cbn [map].
    change (leader_json l :: map leader_json written)
      with (map leader_json (l :: written)).
    rewrite firstn_map, leader_rows_written. eexists. reflexivity.
Qed.

(** A leaderboard file that holds [[1, 2]] aborts construction with a
    [TypeError]; one that holds an entry of the game does not. *)
Lemma X9_construction_witness :
  update_leaderboard_ui [JInt 1; JInt 2] = inl TypeError /\
  __init__ EMAILS demo_rs [JInt 1; JInt 2] 0 = inl TypeError /\
  exists g,
    __init__ EMAILS demo_rs [leader_json (mkLeader "ABC" 42 100)] 0 = inr g /\
    total_levels g = 5%Z /\ time_left g = 39%Z.
Proof.
  assert (E1 : update_leaderboard_ui [JInt 1; JInt 2] = inl TypeError)
    by (vm_compute; reflexivity).
  assert (E2 : update_leaderboard_ui [leader_json (mkLeader "ABC" 42 100)]
               = inr [RowOf (JStr "ABC") (JInt 42)])
    by (vm_compute; reflexivity).
  split; [exact E1|]. split.
  - destruct (X9_construction EMAILS demo_rs [JInt 1; JInt 2] 0) as [H _].
    rewrite E1 in H. exact (proj1 H).
  - destruct (X9_construction EMAILS demo_rs
                [leader_json (mkLeader "ABC" 42 100)] 0) as [H _].
    rewrite E2 in H.
    destruct H as (_ & g & Eg & _ & Ht & _ & _ & _ & _ & _ & _ & Hr & _).
    exists g. split; [exact Eg|]. split; [exact Ht|].
    apply Hr. discriminate.
Defined.

(** ** The countdown, tick by tick *)

(** A scheduled tick that finds time left. *)
Lemma timer_fires_live now s :
  Inv s -> paused s = false -> after_pending s <> [] ->
  (0 < time_left s)%Z ->
  exists s',
    timer_fires now s = Done s' /\ Inv s' /\
    time_left s' = (time_left s - 1)%Z /\
    after_pending s' = [after_next s] /\
    timer_id s' = Some (after_next s) /\
    paused s' = false /\ score s' = score s /\ lives s' = lives s /\
    flags_found s' = flags_found s /\ results s' = results s /\
    current_level s' = current_level s /\ all_emails s' = all_emails s /\
    summaries s' = summaries s /\ lbl_msg s' = lbl_msg s.
Proof.
  intros H Hp Ha Ht. unfold timer_fires.
  destruct (after_pending s) as [|id rest] eqn:Ea; [congruence|].
  assert (Er : rest = []).
  { pose proof (inv_timer s H) as Hk. unfold timer_ok in Hk. rewrite Ea in Hk.
    destruct rest; [reflexivity | discriminate]. }
  subst rest.
  assert (Hi : Inv (set_after_pending [] s)).
  { inv_open H. constructor; inv_unfold; auto. }
  rewrite _tick_live by assumption.
  eexists. split; [reflexivity|]. split.
  - apply Inv_schedule_tick; [|reflexivity | exact Hp].
    apply Inv_set_time_left; [|exact Hi].
    pose proof (inv_time s H). cbn [pb_maximum time_left set_after_pending]. lia.
  - unfold schedule_tick. gsimpl_goal. conj_split; auto.
Qed.

Lemma run_ticks_live (times : list Q) (s : Game) :
  Inv s -> paused s = false -> after_pending s <> [] ->
  (Z.of_nat (List.length times) <= time_left s)%Z ->
  Inv (run (ticks times) s) /\
  time_left (run (ticks times) s)
  = (time_left s - Z.of_nat (List.length times))%Z /\
  after_pending (run (ticks times) s) <> [] /\
  paused (run (ticks times) s) = false /\
  score (run (ticks times) s) = score s /\
  lives (run (ticks times) s) = lives s /\
  flags_found (run (ticks times) s) = flags_found s /\
  results (run (ticks times) s) = results s /\
  current_level (run (ticks times) s) = current_level s /\
  all_emails (run (ticks times) s) = all_emails s /\
  summaries (run (ticks times) s) = summaries s.
Proof.
  revert s. induction times as [|t times IH]; intros s H Hp Ha Hl.
  - simpl. conj_split; auto. lia.
  - cbn [ticks map run dispatch]. fold (ticks times).
    simpl List.length in Hl.
    destruct (timer_fires_live t s H Hp Ha)
      as (s' & E & Hi & T & P & _ & Q1 & Q2 & Q3 & Q4 & Q5 & Q6 & Q7 & Q8 & _);
      [lia|].
    rewrite E. cbn [state_of].
    destruct (IH s' Hi Q1) as (R0 & R1 & R2 & R3 & R4 & R5 & R6 & R7 & R8 & R9
                               & R10).
    + rewrite P. discriminate.
    + lia.
    + simpl List.length. conj_split; try congruence. lia.
Qed.

(** X10. A running countdown. While the game is not paused and a tick is
    scheduled, [n] firings of the timer with [n] not above the time left
    take exactly [n] seconds off [time_left] and leave score, lives,
    flags found, history and level as they were; a tick is still
    scheduled afterwards. The readings of the clock play no part. *)
Theorem X10_ticks_count_down (s : Game) (times : list Q) :
  inv s = true ->
  paused s = false ->
  after_pending s <> [] ->
  (Z.of_nat (List.length times) <= time_left s)%Z ->
  time_left (run (ticks times) s)
  = (time_left s - Z.of_nat (List.length times))%Z /\
  after_pending (run (ticks times) s) <> [] /\
  paused (run (ticks times) s) = false /\
  score (run (ticks times) s) = score s /\
  lives (run (ticks times) s) = lives s /\
  flags_found (run (ticks times) s) = flags_found s /\
  results (run (ticks times) s) = results s /\
  current_level (run (ticks times) s) = current_level s.
Proof.
  intros Hinv Hp Ha Hl. apply inv_Inv in Hinv.
  destruct (run_ticks_live times s Hinv Hp Ha Hl)
    as (_ & R1 & R2 & R3 & R4 & R5 & R6 & R7 & R8 & _).
  conj_split; assumption.
Qed.

(** The 39 seconds left on the first level of the demonstration session
    are all counted down. *)
Lemma X10_ticks_count_down_witness :
  inv demo_session = true /\
  paused demo_session = false /\
  after_pending demo_session <> [] /\
  (Z.of_nat (List.length (seconds 39)) <= time_left demo_session)%Z /\
  (time_left (run (ticks (seconds 39)) demo_session)
   = (time_left demo_session - Z.of_nat (List.length (seconds 39)))%Z /\
   after_pending (run (ticks (seconds 39)) demo_session) <> [] /\
   paused (run (ticks (seconds 39)) demo_session) = false /\
   score (run (ticks (seconds 39)) demo_session) = score demo_session /\
   lives (run (ticks (seconds 39)) demo_session) = lives demo_session /\
   flags_found (run (ticks (seconds 39)) demo_session)
   = flags_found demo_session /\
   results (run (ticks (seconds 39)) demo_session) = results demo_session /\
   current_level (run (ticks (seconds 39)) demo_session)
   = current_level demo_session).
Proof.
  split; [vm_compute; reflexivity|].
  split; [vm_compute; reflexivity|].
  split; [vm_compute; discriminate|].
  split; [vm_compute; discriminate|].
  apply (X10_ticks_count_down demo_session (seconds 39)).
  - vm_compute; reflexivity.
  - vm_compute; reflexivity.
  - vm_compute; discriminate.
  - vm_compute; discriminate.
Defined.

(** The state [toggle_pause] hands to [_tick] when the game resumes. *)
Lemma resumed_frame s :
  Inv s ->
  let s2 := stop_timer (set_paused false s) in
  Inv s2 /\ after_pending s2 = [] /\ paused s2 = false /\
  time_left s2 = time_left s /\ score s2 = score s /\ lives s2 = lives s /\
  flags_found s2 = flags_found s /\ results s2 = results s /\
  current_level s2 = current_level s /\ all_emails s2 = all_emails s /\
  total_levels s2 = total_levels s /\ summaries s2 = summaries s /\
  after_next s2 = after_next s.
Proof.
  intros H. cbv zeta. destruct (Inv_resume s H) as (Hi & Hp & Hq).
  destruct (stop_timer_frame (set_paused false s))
    as (E1 & E2 & E3 & E4 & E5 & E6 & E7 & E8 & E9 & E10 & E11 & E12 & E13
        & E14 & E15 & E16).
  conj_split; assumption.
Qed.

(** X11. A pause costs a second. [toggle_pause] cancels the tick when it
    pauses and, when it resumes, runs [_tick] at once instead of waiting
    for a second to pass: a pause followed by a resume, however short or
    long, leaves the countdown one second lower than it was, with score,
    lives, flags found, history and level unchanged and a tick scheduled
    again. *)
Theorem X11_pause_and_resume_cost_a_second (s : Game) (t1 t2 : Q) :
  inv s = true ->
  paused s = false ->
  (0 < time_left s)%Z ->
  let s' := run [(t1, TogglePause); (t2, TogglePause)] s in
  time_left s' = (time_left s - 1)%Z /\
  paused s' = false /\
  after_pending s' = [after_next s] /\
  lbl_msg s' = MsgResumed /\
  score s' = score s /\ lives s' = lives s /\
  flags_found s' = flags_found s /\ results s' = results s /\
  current_level s' = current_level s.
Proof.
  intros Hinv Hp Ht s'. apply inv_Inv in Hinv.
  assert (E : exists s2,
             s' = set_lbl_msg MsgResumed
                    (schedule_tick (set_time_left (time_left s2 - 1) s2)) /\
             after_pending s2 = [] /\ time_left s2 = time_left s /\
             score s2 = score s /\ lives s2 = lives s /\
             flags_found s2 = flags_found s /\ results s2 = results s /\
             current_level s2 = current_level s /\
             after_next s2 = after_next s /\ paused s2 = false).
  { subst s'. cbn [run dispatch]. unfold toggle_pause at 2. rewrite Hp.
    cbn [state_of].
    remember (set_lbl_msg MsgPaused (stop_timer (set_paused true s))) as s1
      eqn:Es1.
    assert (F : Inv s1 /\ paused s1 = true /\ time_left s1 = time_left s /\
                score s1 = score s /\ lives s1 = lives s /\
                flags_found s1 = flags_found s /\ results s1 = results s /\
                current_level s1 = current_level s /\
                after_next s1 = after_next s).
    { subst s1. split; [now apply Inv_pause|].
      destruct (stop_timer_frame (set_paused true s))
        as (E1 & E2 & E3 & E4 & E5 & E6 & E7 & E8 & E9 & E10 & E11 & E12 & E13
            & E14 & E15 & E16).
      cbn [paused time_left score lives flags_found results current_level
           after_next set_lbl_msg].
      conj_split; assumption. }
    clear Es1. destruct F as (H1 & P1 & F1 & F2 & F3 & F4 & F5 & F6 & F7).
    unfold toggle_pause. rewrite P1. cbv zeta. rewrite state_of_bind_msg.
    unfold start_timer, start_timer_with.
    pose proof (resumed_frame s1 H1) as R. cbv zeta in R.
    remember (stop_timer (set_paused false s1)) as s2 eqn:Es2. clear Es2.
    destruct R as (H2 & R1 & R2 & R3 & R4 & R5 & R6 & R7 & R8 & R9 & R10 & R11
                   & R12).
    rewrite _tick_live by (assumption || lia).
    exists s2. split; [reflexivity|]. conj_split; congruence. }
  destruct E as (s2 & -> & R1 & R3 & R4 & R5 & R6 & R7 & R8 & R12 & R2).
  unfold schedule_tick. gsimpl_goal. rewrite R1.
  conj_split; try congruence. simpl. congruence.
Qed.

(** A pause of thirty seconds on the demonstration session: 39 before,
    38 after. *)
Lemma X11_pause_and_resume_cost_a_second_witness :
  inv demo_session = true /\
  paused demo_session = false /\
  (0 < time_left demo_session)%Z /\
  (time_left (run [((1 # 2)%Q, TogglePause); ((61 # 2)%Q, TogglePause)]
                  demo_session)
   = (time_left demo_session - 1)%Z /\
   paused (run [((1 # 2)%Q, TogglePause); ((61 # 2)%Q, TogglePause)]
               demo_session) = false /\
   after_pending (run [((1 # 2)%Q, TogglePause); ((61 # 2)%Q, TogglePause)]
                      demo_session)
   = [after_next demo_session] /\
   lbl_msg (run [((1 # 2)%Q, TogglePause); ((61 # 2)%Q, TogglePause)]
                demo_session) = MsgResumed /\
   score (run [((1 # 2)%Q, TogglePause); ((61 # 2)%Q, TogglePause)]
              demo_session) = score demo_session /\
   lives (run [((1 # 2)%Q, TogglePause); ((61 # 2)%Q, TogglePause)]
              demo_session) = lives demo_session /\
   flags_found (run [((1 # 2)%Q, TogglePause); ((61 # 2)%Q, TogglePause)]
                    demo_session) = flags_found demo_session /\
   results (run [((1 # 2)%Q, TogglePause); ((61 # 2)%Q, TogglePause)]
                demo_session) = results demo_session /\
   current_level (run [((1 # 2)%Q, TogglePause); ((61 # 2)%Q, TogglePause)]
                      demo_session) = current_level demo_session).
Proof.
  split; [vm_compute; reflexivity|].
  split; [vm_compute; reflexivity|].
  split; [vm_compute; reflexivity|].
  apply (X11_pause_and_resume_cost_a_second demo_session (1 # 2) (61 # 2));
    vm_compute; reflexivity.
Defined.

(** ** Running out of time *)

(** X12. The tick that finds no time left. When the scheduled tick fires
    on a running level whose countdown shows 0, one life is taken, the
    score is kept and the level is recorded as skipped with the flags
    found so far and the flags missed. The run ends there, with a
    summary of the score, when that was the last life or the last level,
    even if levels remain; otherwise the next level starts with no flag
    found. *)
Theorem X12_timer_expiry (s : Game) (now : Q) (e : Email) :
  inv s = true ->
  paused s = false ->
  after_pending s <> [] ->
  (time_left s <= 0)%Z ->
  getitem (all_emails s) (current_level s) = Some e ->
  exists s',
    timer_fires now s = Done s' /\
    lives s' = (lives s - 1)%Z /\ score s' = score s /\
    results s' =
      results s ++
      [mkResult (title e) (text e) (flags_found s)
                (unfound (flags e) (flags_found s)) true] /\
    ((lives s <= 1 \/ total_levels s <= current_level s + 1)%Z ->
     current_level s' = current_level s /\
     flags_found s' = flags_found s /\
     summaries s' = summaries s ++ [score s]) /\
    ((1 < lives s /\ current_level s + 1 < total_levels s)%Z ->
     current_level s' = (current_level s + 1)%Z /\
     flags_found s' = [] /\
     summaries s' = summaries s).
Proof.
  intros Hinv Hp Ha Ht He. apply inv_Inv in Hinv. unfold timer_fires.
  destruct (after_pending s) as [|id rest] eqn:Ea; [congruence|].
  assert (Er : rest = []).
  { pose proof (inv_timer s Hinv) as Hk. unfold timer_ok in Hk.
    rewrite Ea in Hk. destruct rest; [reflexivity | discriminate]. }
  subst rest.
  assert (Hi : Inv (set_after_pending [] s)).
  { inv_open Hinv. constructor; inv_unfold; auto. }
  rewrite _tick_expired by assumption.
  destruct (on_time_up_sound now (set_after_pending [] s) e Hi He)
    as (s' & E & _ & S1 & S2 & S3 & _ & _ & _ & S7 & S8).
  exists s'. conj_split; auto.
Qed.

Lemma X12_timer_expiry_witness :
  inv (run countdown demo_session) = true /\
  paused (run countdown demo_session) = false /\
  after_pending (run countdown demo_session) <> [] /\
  (time_left (run countdown demo_session) <= 0)%Z /\
  getitem (all_emails (run countdown demo_session))
          (current_level (run countdown demo_session)) = Some bank_notice /\
  exists s',
    timer_fires 40 (run countdown demo_session) = Done s' /\
    lives s' = (lives (run countdown demo_session) - 1)%Z /\
    score s' = score (run countdown demo_session) /\
    results s' =
      results (run countdown demo_session) ++
      [mkResult (title bank_notice) (text bank_notice)
                (flags_found (run countdown demo_session))
                (unfound (flags bank_notice)
                         (flags_found (run countdown demo_session)))
                true] /\
    ((lives (run countdown demo_session) <= 1 \/
      total_levels (run countdown demo_session)
      <= current_level (run countdown demo_session) + 1)%Z ->
     current_level s' = current_level (run countdown demo_session) /\
     flags_found s' = flags_found (run countdown demo_session) /\
     summaries s' = summaries (run countdown demo_session)
                    ++ [score (run countdown demo_session)]) /\
    ((1 < lives (run countdown demo_session) /\
      current_level (run countdown demo_session) + 1
      < total_levels (run countdown demo_session))%Z ->
     current_level s' = (current_level (run countdown demo_session) + 1)%Z /\
     flags_found s' = [] /\
     summaries s' = summaries (run countdown demo_session)).
Proof.
  split; [vm_compute; reflexivity|].
  split; [vm_compute; reflexivity|].
  split; [vm_compute; discriminate|].
  split; [vm_compute; discriminate|].
  split; [vm_compute; reflexivity|].
  apply (X12_timer_expiry (run countdown demo_session) 40 bank_notice).
  - vm_compute; reflexivity.
  - vm_compute; reflexivity.
  - vm_compute; discriminate.
  - vm_compute; discriminate.
  - vm_compute; reflexivity.
Defined.

(** X13. Resuming with no time left. When the game was paused during
    the last second, with the countdown at 0, [toggle_pause] does not
    just resume: the tick it runs at once finds no time left, so the
    resume itself takes a life, records the level as skipped and ends
    the run or loads the next level, whose flags found are then empty.
    The score is not changed and the game is no longer paused. *)
Theorem X13_resume_without_time_left (s : Game) (now : Q) (e : Email) :
  inv s = true ->
  paused s = true ->
  (time_left s <= 0)%Z ->
  getitem (all_emails s) (current_level s) = Some e ->
  exists s',
    toggle_pause now s = Done s' /\
    paused s' = false /\ lbl_msg s' = MsgResumed /\
    lives s' = (lives s - 1)%Z /\ score s' = score s /\
    results s' =
      results s ++
      [mkResult (title e) (text e) (flags_found s)
                (unfound (flags e) (flags_found s)) true] /\
    ((lives s <= 1 \/ total_levels s <= current_level s + 1)%Z ->
     current_level s' = current_level s /\
     flags_found s' = flags_found s /\
     summaries s' = summaries s ++ [score s]) /\
    ((1 < lives s /\ current_level s + 1 < total_levels s)%Z ->
     current_level s' = (current_level s + 1)%Z /\
     flags_found s' = [] /\
     summaries s' = summaries s).
Proof.
  intros Hinv Hp Ht He. apply inv_Inv in Hinv.
  unfold toggle_pause. rewrite Hp. cbv zeta.
  unfold start_timer, start_timer_with.
  pose proof (resumed_frame s Hinv) as R. cbv zeta in R.
  remember (stop_timer (set_paused false s)) as s2 eqn:Es2. clear Es2.
  destruct R as (H2 & R1 & R2 & R3 & R4 & R5 & R6 & R7 & R8 & R9 & R10 & R11
                 & R12).
  rewrite _tick_expired by (assumption || lia).
  assert (He2 : getitem (all_emails s2) (current_level s2) = Some e)
    by (rewrite R9, R8; exact He).
  destruct (on_time_up_sound now s2 e H2 He2)
    as (s' & E & _ & S1 & S2 & S3 & _ & _ & S6 & S7 & S8).
  rewrite E. cbn [bind]. eexists. split; [reflexivity|].
  assert (Hr : level_result true e s2 = level_result true e s)
    by (unfold level_result; congruence).
  rewrite Hr in S3. rewrite R4, R5, R6, R7, R8, R10, R11 in *.
  gsimpl_goal. conj_split; try congruence; try assumption.
Qed.

Lemma X13_resume_without_time_left_witness :
  inv (run countdown_paused demo_session) = true /\
  paused (run countdown_paused demo_session) = true /\
  (time_left (run countdown_paused demo_session) <= 0)%Z /\
  getitem (all_emails (run countdown_paused demo_session))
          (current_level (run countdown_paused demo_session))
  = Some bank_notice /\
  exists s',
    toggle_pause 50 (run countdown_paused demo_session) = Done s' /\
    paused s' = false /\ lbl_msg s' = MsgResumed /\
    lives s' = (lives (run countdown_paused demo_session) - 1)%Z /\
    score s' = score (run countdown_paused demo_session) /\
    results s' =
      results (run countdown_paused demo_session) ++
      [mkResult (title bank_notice) (text bank_notice)
                (flags_found (run countdown_paused demo_session))
                (unfound (flags bank_notice)
                         (flags_found (run countdown_paused demo_session)))
                true] /\
    ((lives (run countdown_paused demo_session) <= 1 \/
      total_levels (run countdown_paused demo_session)
      <= current_level (run countdown_paused demo_session) + 1)%Z ->
     current_level s' = current_level (run countdown_paused demo_session) /\
     flags_found s' = flags_found (run countdown_paused demo_session) /\
     summaries s' = summaries (run countdown_paused demo_session)
                    ++ [score (run countdown_paused demo_session)]) /\
    ((1 < lives (run countdown_paused demo_session) /\
      current_level (run countdown_paused demo_session) + 1
      < total_levels (run countdown_paused demo_session))%Z ->
     current_level s' =
       (current_level (run countdown_paused demo_session) + 1)%Z /\
     flags_found s' = [] /\
     summaries s' = summaries (run countdown_paused demo_session)).
Proof.
  split; [vm_compute; reflexivity|].
  split; [vm_compute; reflexivity|].
  split; [vm_compute; discriminate|].
  split; [vm_compute; reflexivity|].
  apply (X13_resume_without_time_left (run countdown_paused demo_session) 50
           bank_notice).
  - vm_compute; reflexivity.
  - vm_compute; reflexivity.
  - vm_compute; discriminate.
  - vm_compute; reflexivity.
Defined.

(** ** More on the matcher *)

Lemma lower_char_idem (c : ascii) : lower_char (lower_char c) = lower_char c.
Proof. destruct c as [[] [] [] [] [] [] [] []]; reflexivity. Qed.

Lemma lower_idem (s : string) : lower (lower s) = lower s.
Proof.
  induction s as [|c r IH]; simpl; [reflexivity|].
  now rewrite lower_char_idem, IH.
Qed.

Lemma truthy_lower (s : string) : truthy (lower s) = truthy s.
Proof. destruct s; reflexivity. Qed.

Lemma startswith_refl (s : string) : startswith s s = true.
Proof.
  induction s as [|c r IH]; simpl; [reflexivity|].
  now rewrite Ascii.eqb_refl, IH.
Qed.

Lemma contains_refl (s : string) : contains s s = true.
Proof. destruct s; simpl; [reflexivity|]. now rewrite Ascii.eqb_refl, startswith_refl. Qed.

(** [fuzzy_match] on operands that are not empty, in terms of the
    normalised operands. *)
Lemma fuzzy_match_nonempty (g t : string) :
  truthy g = true -> truthy t = true ->
  fuzzy_match g t =
  let u := strip (lower g) in
  let v := strip (lower t) in
  if String.eqb u v || contains v u || contains u v then true
  else if word_level u (split v) then true
  else Qle_bool (72 # 100) (Difflib.ratio u v).
Proof. intros Hg Ht. unfold fuzzy_match. now rewrite Hg, Ht. Qed.

(** X14. [fuzzy_match] does not see the case of letters nor the white
    space around its operands: lower-casing either operand never changes
    the answer, and neither does trimming an operand, provided the
    operand does not trim to the empty string. *)
Theorem X14_fuzzy_match_ignores_case_and_margins (g t : string) :
  fuzzy_match (lower g) t = fuzzy_match g t /\
  fuzzy_match g (lower t) = fuzzy_match g t /\
  (truthy (strip g) = true -> fuzzy_match (strip g) t = fuzzy_match g t) /\
  (truthy (strip t) = true -> fuzzy_match g (strip t) = fuzzy_match g t).
Proof.
  assert (Hs : forall x, strip (lower (strip x)) = strip (lower x)).
  { intros x. now rewrite !strip_lower, strip_idem. }
  unfold fuzzy_match. rewrite !truthy_lower, !lower_idem.
  split; [reflexivity|]. split; [reflexivity|]. split.
  - intros H. rewrite H, (truthy_strip _ H), Hs. reflexivity.
  - intros H. rewrite H, (truthy_strip _ H), Hs. reflexivity.
Qed.

Lemma X14_fuzzy_match_ignores_case_and_margins_witness :
  fuzzy_match (lower "  VeriFY ") "verify-account"
  = fuzzy_match "  VeriFY " "verify-account" /\
  fuzzy_match "  VeriFY " (lower "verify-account")
  = fuzzy_match "  VeriFY " "verify-account" /\
  (truthy (strip "  VeriFY ") = true ->
   fuzzy_match (strip "  VeriFY ") "verify-account"
   = fuzzy_match "  VeriFY " "verify-account") /\
  (truthy (strip "verify-account") = true ->
   fuzzy_match "  VeriFY " (strip "verify-account")
   = fuzzy_match "  VeriFY " "verify-account").
Proof.
  exact (X14_fuzzy_match_ignores_case_and_margins "  VeriFY " "verify-account").
Defined.

(** X15. What always matches. For operands that are not empty, a guess
    equal to the flag up to case and surrounding white space matches it,
    and so does a guess that occurs inside the flag or contains it: the
    similarity ratios are not consulted, so a single letter of a flag is
    enough. In particular every non-empty string matches itself. *)
Theorem X15_fuzzy_match_equal_or_contained (g t : string) :
  truthy g = true ->
  truthy t = true ->
  (strip (lower g) = strip (lower t) \/
   contains (strip (lower t)) (strip (lower g)) = true \/
   contains (strip (lower g)) (strip (lower t)) = true) ->
  fuzzy_match g t = true /\ fuzzy_match g g = true.
Proof.
  intros Hg Ht H. split.
  - rewrite fuzzy_match_nonempty by assumption. cbv zeta.
    destruct H as [H|[H|H]].
    + rewrite H, String.eqb_refl. reflexivity.
    + rewrite H, orb_true_r. reflexivity.
    + rewrite H, orb_true_r. reflexivity.
  - rewrite fuzzy_match_nonempty by assumption. cbv zeta.
    rewrite String.eqb_refl. reflexivity.
Qed.

(** The letter "e" alone matches the flag "expire". *)
Lemma X15_fuzzy_match_equal_or_contained_witness :
  truthy "e" = true /\
  truthy "expire" = true /\
  (strip (lower "e") = strip (lower "expire") \/
   contains (strip (lower "expire")) (strip (lower "e")) = true \/
   contains (strip (lower "e")) (strip (lower "expire")) = true) /\
  (fuzzy_match "e" "expire" = true /\ fuzzy_match "e" "e" = true).
Proof.
  split; [reflexivity|]. split; [reflexivity|].
  split; [right; left; reflexivity|].
  apply (X15_fuzzy_match_equal_or_contained "e" "expire");
    [reflexivity | reflexivity | right; left; reflexivity].
Defined.

(** ** More on guesses *)

(** X16. Only flags not yet found can be credited. A guess that is not
    blank and that matches no flag outside [flags_found] takes the
    wrong-guess branch, even when it is the exact text of a flag found
    before: the score loses 3 points, not going below 0, the message
    says the text was not recognised and nothing else changes. *)
Theorem X16_found_flags_are_not_credited_again (s : Game) (entry : string)
        (now : Q) (e : Email) :
  paused s = false ->
  truthy (strip entry) = true ->
  getitem (all_emails s) (current_level s) = Some e ->
  (forall f, In f (flags e) -> fuzzy_match (strip entry) f = true ->
             In f (flags_found s)) ->
  on_submit entry now s =
  Done (set_lbl_msg MsgNotRecognized (set_score (Z.max 0 (score s - 3)) s)).
Proof.
  intros Hp Hu He Hall. apply (on_submit_unmatched _ _ _ e); auto.
  apply find_flag_None. intros g Hg.
  destruct (fuzzy_match (strip entry) g) eqn:Em; [|now right].
  left. apply mem_In. apply Hall; assumption.
Qed.

(** "http://" typed a second time on the two-flag template. *)
Lemma X16_found_flags_are_not_credited_again_witness :
  paused (run found_http two_flags_session) = false /\
  truthy (strip "http://") = true /\
  getitem (all_emails (run found_http two_flags_session))
          (current_level (run found_http two_flags_session))
  = Some (hd bank_notice two_flags) /\
  (forall f, In f (flags (hd bank_notice two_flags)) ->
             fuzzy_match (strip "http://") f = true ->
             In f (flags_found (run found_http two_flags_session))) /\
  on_submit "http://" 2 (run found_http two_flags_session) =
  Done (set_lbl_msg MsgNotRecognized
          (set_score (Z.max 0 (score (run found_http two_flags_session) - 3))
             (run found_http two_flags_session))).
Proof.
  assert (Hall : forall f, In f (flags (hd bank_notice two_flags)) ->
                           fuzzy_match (strip "http://") f = true ->
                           In f (flags_found (run found_http two_flags_session))).
  { intros f [<-|[<-|[]]] Hm.
    - vm_compute. left. reflexivity.
    - vm_compute in Hm. discriminate. }
  split; [vm_compute; reflexivity|].
  split; [reflexivity|].
  split; [vm_compute; reflexivity|].
  split; [exact Hall|].
  apply (X16_found_flags_are_not_credited_again
           (run found_http two_flags_session) "http://" 2
           (hd bank_notice two_flags));
    [vm_compute; reflexivity | reflexivity | vm_compute; reflexivity
    | exact Hall].
Defined.

Lemma speed_bonus_bounds (m : Z) (el : Q) :
  (m <= 40)%Z -> 0 <= el ->
  (0 <= speed_bonus m el <= 13)%Z /\
  (inject_Z m - 3 < el -> speed_bonus m el = 0%Z).
Proof.
  intros Hm Hel. unfold speed_bonus. split.
  - split; [lia|]. apply Z.max_lub; [lia|].
    change 13%Z with (Qfloor (inject_Z 40 / 3)).
    apply Qfloor_resp_le. apply Qmult_le_compat_r; [|discriminate].
    assert (H1 : inject_Z m <= inject_Z 40) by (rewrite <- Zle_Qle; exact Hm).
    apply Qle_trans with (inject_Z m - 0).
    + apply Qplus_le_r. apply Qopp_le_compat. exact Hel.
    + unfold Qminus. rewrite Qplus_0_r. exact H1.
  - intros Hlt. apply Z.max_l.
    assert (Hx : (inject_Z m - el) / 3 < 1).
    { apply Qlt_shift_div_r; [reflexivity|].
      apply (Qplus_lt_l _ _ (el - 3)). ring_simplify. exact Hlt. }
    pose proof (Qfloor_le ((inject_Z m - el) / 3)) as Hf.
    assert (Hz : inject_Z (Qfloor ((inject_Z m - el) / 3)) < inject_Z 1)
      by (eapply Qle_lt_trans; [exact Hf | exact Hx]).
    rewrite <- Zlt_Qlt in Hz. lia.
Qed.

(** X17. What a correct guess is worth. When the clock has not gone back
    since the level was loaded, a guess that matches a remaining flag
    adds between 10 and 23 points, plus 15 when it completes the level;
    once fewer than 3 seconds of the limit are left on the wall clock the
    speed bonus is 0 and the guess adds exactly 10 (plus the 15). *)
Theorem X17_points_of_a_guess_in_range (s : Game) (entry : string)
        (now t0 : Q) (e : Email) (f : string) :
  inv s = true ->
  paused s = false ->
  getitem (all_emails s) (current_level s) = Some e ->
  find_flag (strip entry) (flags_found s) (flags e) = Some f ->
  start_time s = Some t0 ->
  t0 <= now ->
  let s' := state_of (on_submit entry now s) in
  let bonus := if (List.length (flags_found s') =? List.length (flags e))%nat
               then BONUS_PERFECT else 0%Z in
  (score s + 10 + bonus <= score s' <= score s + 23 + bonus)%Z /\
  (inject_Z (pb_maximum s) - 3 < now - t0 ->
   score s' = (score s + 10 + bonus)%Z).
Proof.
  intros Hinv Hp He Hf Ht Hle s'. apply inv_Inv in Hinv.
  assert (Hm : (pb_maximum s <= 40)%Z).
  { pose proof (proj1 (level_ok_spec s) (inv_level s Hinv)) as [Hl _].
    rewrite (inv_pb s Hinv). unfold level_time, BASE_TIME. lia. }
  assert (Hel : 0 <= now - t0).
  { apply (Qplus_le_l _ _ t0). ring_simplify. exact Hle. }
  destruct (speed_bonus_bounds (pb_maximum s) (now - t0) Hm Hel) as [Hb Hz].
  subst s'. rewrite (on_submit_matched _ _ t0 _ e f) by assumption. cbv zeta.
  destruct (credited_frame f (10 + speed_bonus (pb_maximum s) (now - t0)) s)
    as (C1 & C2 & _).
  destruct (perfected_frame
              (credited f (10 + speed_bonus (pb_maximum s) (now - t0)) s))
    as (P1 & P2 & _).
  destruct (List.length (flags_found s ++ [f]) =? List.length (flags e))%nat
    eqn:El; cbn [state_of]; rewrite ?P1, ?P2, ?C1, ?C2, ?El;
    (split; [lia | intros Hlt; rewrite (Hz Hlt); lia]).
Qed.

Lemma X17_points_of_a_guess_in_range_witness :
  inv (run pause_thirty demo_session) = true /\
  paused (run pause_thirty demo_session) = false /\
  getitem (all_emails (run pause_thirty demo_session))
          (current_level (run pause_thirty demo_session))
  = Some bank_notice /\
  find_flag (strip "verify") (flags_found (run pause_thirty demo_session))
            (flags bank_notice) = Some "verify" /\
  start_time (run pause_thirty demo_session) = Some 0 /\
  0 <= 38 /\
  ((score (run pause_thirty demo_session) + 10
    + (if (List.length
             (flags_found
                (state_of (on_submit "verify" 38
                             (run pause_thirty demo_session))))
           =? List.length (flags bank_notice))%nat
       then BONUS_PERFECT else 0%Z)
    <= score (state_of (on_submit "verify" 38 (run pause_thirty demo_session)))
    <= score (run pause_thirty demo_session) + 23
       + (if (List.length
                (flags_found
                   (state_of (on_submit "verify" 38
                                (run pause_thirty demo_session))))
              =? List.length (flags bank_notice))%nat
          then BONUS_PERFECT else 0%Z))%Z /\
   (inject_Z (pb_maximum (run pause_thirty demo_session)) - 3 < 38 - 0 ->
    score (state_of (on_submit "verify" 38 (run pause_thirty demo_session)))
    = (score (run pause_thirty demo_session) + 10
       + (if (List.length
                (flags_found
                   (state_of (on_submit "verify" 38
                                (run pause_thirty demo_session))))
              =? List.length (flags bank_notice))%nat
          then BONUS_PERFECT else 0%Z))%Z)).
Proof.
  split; [vm_compute; reflexivity|].
  split; [vm_compute; reflexivity|].
  split; [vm_compute; reflexivity|].
  split; [vm_compute; reflexivity|].
  split; [vm_compute; reflexivity|].
  split; [vm_compute; discriminate|].
  apply (X17_points_of_a_guess_in_range (run pause_thirty demo_session)
           "verify" 38 0 bank_notice "verify");
    try (vm_compute; reflexivity).
  vm_compute; discriminate.
Defined.

(** X18. Completing a level. When a correct guess brings the number of
    flags found to the number of flags of the template, [on_submit] adds
    the 15 points of [BONUS_PERFECT] to the points of the guess, shows
    the "all flags found" message, enables "Next" and stops the timer:
    no tick stays scheduled and the countdown keeps the value it had.
    When flags remain, the guess is credited alone and the timer is not
    touched. *)
Theorem X18_completing_a_level_stops_the_timer (s : Game) (entry : string)
        (now t0 : Q) (e : Email) (f : string) :
  inv s = true ->
  paused s = false ->
  getitem (all_emails s) (current_level s) = Some e ->
  find_flag (strip entry) (flags_found s) (flags e) = Some f ->
  start_time s = Some t0 ->
  let s' := state_of (on_submit entry now s) in
  let gained := (10 + speed_bonus (pb_maximum s) (now - t0))%Z in
  flags_found s' = flags_found s ++ [f] /\
  btn_next s' = true /\ time_left s' = time_left s /\
  lives s' = lives s /\
  (S (List.length (flags_found s)) = List.length (flags e) ->
   score s' = (score s + gained + BONUS_PERFECT)%Z /\
   lbl_msg s' = MsgAllFound /\
   after_pending s' = [] /\ timer_id s' = None) /\
  (S (List.length (flags_found s)) <> List.length (flags e) ->
   score s' = (score s + gained)%Z /\
   lbl_msg s' = MsgMatched f /\
   after_pending s' = after_pending s /\ timer_id s' = timer_id s).
Proof.
  intros Hinv Hp He Hf Ht s' gained. apply inv_Inv in Hinv.
  subst s'. rewrite (on_submit_matched _ _ t0 _ e f) by assumption. cbv zeta.
  fold gained.
  assert (Hc : Inv (credited f gained s)).
  { destruct (find_flag_In _ _ _ _ Hf) as (Hin & Hnin & _).
    apply (Inv_credited _ _ _ e); auto.
    pose proof (speed_bonus_nonneg (pb_maximum s) (now - t0)).
    subst gained. lia. }
  destruct (credited_frame f gained s)
    as (C1 & C2 & C3 & C4 & C5 & C6 & C7 & C8).
  destruct (perfected_frame (credited f gained s))
    as (P1 & P2 & P3 & P4 & P5 & P6 & P7 & P8).
  specialize (P8 (inv_timer _ Hc)).
  assert (Hlen : List.length (flags_found s ++ [f])
                 = S (List.length (flags_found s)))
    by (rewrite length_app; simpl; lia).
  rewrite Hlen.
  destruct (S (List.length (flags_found s)) =? List.length (flags e))%nat
    eqn:El; cbn [state_of].
  - apply Nat.eqb_eq in El.
    rewrite P1, P2, P3, P4, P5, P7, P8, C1, C2, C6, C8.
    split; [reflexivity|]. split; [unfold perfected; reflexivity|].
    split; [reflexivity|]. split; [reflexivity|]. split.
    + intros _. conj_split; reflexivity.
    + intros Hne. contradiction.
  - apply Nat.eqb_neq in El.
    rewrite C1, C2, C3, C4, C5, C6, C8.
    split; [reflexivity|]. split; [unfold credited; reflexivity|].
    split; [reflexivity|]. split; [reflexivity|]. split.
    + intros Heq. contradiction.
    + intros _. conj_split; reflexivity.
Qed.

(** The two-flag template: "suspension" typed after "http://" completes
    the level. *)
Lemma X18_completing_a_level_stops_the_timer_witness :
  inv (run found_http two_flags_session) = true /\
  paused (run found_http two_flags_session) = false /\
  getitem (all_emails (run found_http two_flags_session))
          (current_level (run found_http two_flags_session))
  = Some (hd bank_notice two_flags) /\
  find_flag (strip "suspension")
            (flags_found (run found_http two_flags_session))
            (flags (hd bank_notice two_flags)) = Some "suspension" /\
  start_time (run found_http two_flags_session) = Some 0 /\
  (flags_found (state_of (on_submit "suspension" 8
                            (run found_http two_flags_session)))
   = flags_found (run found_http two_flags_session) ++ ["suspension"] /\
   btn_next (state_of (on_submit "suspension" 8
                         (run found_http two_flags_session))) = true /\
   time_left (state_of (on_submit "suspension" 8
                          (run found_http two_flags_session)))
   = time_left (run found_http two_flags_session) /\
   lives (state_of (on_submit "suspension" 8
                      (run found_http two_flags_session)))
   = lives (run found_http two_flags_session) /\
   (S (List.length (flags_found (run found_http two_flags_session)))
    = List.length (flags (hd bank_notice two_flags)) ->
    score (state_of (on_submit "suspension" 8
                       (run found_http two_flags_session)))
    = (score (run found_http two_flags_session)
       + (10 + speed_bonus (pb_maximum (run found_http two_flags_session))
                           (8 - 0))
       + BONUS_PERFECT)%Z /\
    lbl_msg (state_of (on_submit "suspension" 8
                         (run found_http two_flags_session))) = MsgAllFound /\
    after_pending (state_of (on_submit "suspension" 8
                               (run found_http two_flags_session))) = [] /\
    timer_id (state_of (on_submit "suspension" 8
                          (run found_http two_flags_session))) = None) /\
   (S (List.length (flags_found (run found_http two_flags_session)))
    <> List.length (flags (hd bank_notice two_flags)) ->
    score (state_of (on_submit "suspension" 8
                       (run found_http two_flags_session)))
    = (score (run found_http two_flags_session)
       + (10 + speed_bonus (pb_maximum (run found_http two_flags_session))
                           (8 - 0)))%Z /\
    lbl_msg (state_of (on_submit "suspension" 8
                         (run found_http two_flags_session)))
    = MsgMatched "suspension" /\
    after_pending (state_of (on_submit "suspension" 8
                               (run found_http two_flags_session)))
    = after_pending (run found_http two_flags_session) /\
    timer_id (state_of (on_submit "suspension" 8
                          (run found_http two_flags_session)))
    = timer_id (run found_http two_flags_session))).
Proof.
  split; [vm_compute; reflexivity|].
  split; [vm_compute; reflexivity|].
  split; [vm_compute; reflexivity|].
  split; [vm_compute; reflexivity|].
  split; [vm_compute; reflexivity|].
  apply (X18_completing_a_level_stops_the_timer
           (run found_http two_flags_session) "suspension" 8 0
           (hd bank_notice two_flags) "suspension");
    vm_compute; reflexivity.
Defined.

(** X19. A template that lists a flag twice cannot be completed. A flag
    is credited once, so on such a template [flags_found] always stays
    shorter than the list of flags: the test
    [len(self.flags_found) == len(email_obj['flags'])] never holds and
    the perfect bonus is out of reach. *)
Theorem X19_repeated_flag_blocks_completion (emails : list Email)
        (rs : list nat)
        (board : list Json) (now : Q) (g : Game) (evs : list Event) (e : Email) :
  __init__ emails rs board now = inr g ->
  getitem (all_emails (run evs g)) (current_level (run evs g)) = Some e ->
  ~ NoDup (flags e) ->
  (List.length (flags_found (run evs g)) < List.length (flags e))%nat.
Proof.
  intros E He Hdup.
  pose proof (reached_Inv _ _ _ _ _ evs E) as H.
  pose proof (proj1 (found_ok_spec _) (inv_found _ H)) as [Hnd Hincl].
  rewrite He in Hincl.
  pose proof (NoDup_incl_length Hnd Hincl) as Hle.
  destruct (Nat.eq_dec (List.length (flags_found (run evs g)))
                       (List.length (flags e))) as [Heq|Hne]; [|lia].
  exfalso. apply Hdup.
  apply (NoDup_incl_NoDup Hnd); [lia | exact Hincl].
Qed.

(** On the template that lists "verify" twice, the flag is found once
    and the level stays incomplete. *)
Lemma X19_repeated_flag_blocks_completion_witness :
  __init__ twice_listed [] [] 0 = inr (session twice_listed [] 0) /\
  getitem (all_emails (run [(1%Q, Submit "verify"); (2%Q, Submit "verify")]
                           (session twice_listed [] 0)))
          (current_level (run [(1%Q, Submit "verify"); (2%Q, Submit "verify")]
                              (session twice_listed [] 0)))
  = Some (hd bank_notice twice_listed) /\
  ~ NoDup (flags (hd bank_notice twice_listed)) /\
  (List.length (flags_found
                  (run [(1%Q, Submit "verify"); (2%Q, Submit "verify")]
                       (session twice_listed [] 0)))
   < List.length (flags (hd bank_notice twice_listed)))%nat.
Proof.
  assert (Hd : ~ NoDup (flags (hd bank_notice twice_listed))).
  { intros H. inversion H as [|x l Hn _]. apply Hn. left. reflexivity. }
  split; [vm_compute; reflexivity|].
  split; [vm_compute; reflexivity|].
  split; [exact Hd|].
  apply (X19_repeated_flag_blocks_completion twice_listed [] [] 0
           (session twice_listed [] 0)
           [(1%Q, Submit "verify"); (2%Q, Submit "verify")]
           (hd bank_notice twice_listed)).
  - vm_compute; reflexivity.
  - vm_compute; reflexivity.
  - exact Hd.
Defined.

(** ** The leaderboard *)

Lemma insert_leader_perm (x : Leader) (l : list Leader) :
  Permutation (insert_leader x l) (x :: l).
Proof.
  induction l as [|y l IH]; simpl; [reflexivity|].
  destruct (leader_score x <? leader_score y)%Z; [|reflexivity].
  apply perm_trans with (y :: x :: l); [apply perm_skip, IH | apply perm_swap].
Qed.

Lemma sort_by_score_perm (board : list Leader) :
  Permutation (sort_by_score board) board.
Proof.
  induction board as [|x board IH]; simpl; [reflexivity|].
  apply perm_trans with (x :: sort_by_score board);
    [apply insert_leader_perm | apply perm_skip, IH].
Qed.

Lemma insert_leader_sorted (x : Leader) (l : list Leader) :
  StronglySorted by_score l -> StronglySorted by_score (insert_leader x l).
Proof.
  induction l as [|y l IH]; intros Hs; simpl.
  - repeat constructor.
  - inversion Hs as [|? ? Hs' Hy]; subst.
    destruct (leader_score x <? leader_score y)%Z eqn:E.
    + apply Z.ltb_lt in E. constructor; [apply IH, Hs'|].
      apply Forall_forall. intros z Hz.
      apply (Permutation_in _ (insert_leader_perm x l)) in Hz.
      destruct Hz as [<-|Hz]; [unfold by_score; lia|].
      rewrite Forall_forall in Hy. apply Hy, Hz.
    + apply Z.ltb_ge in E. constructor; [exact Hs|].
      constructor; [exact E|].
      apply Forall_forall. intros z Hz. rewrite Forall_forall in Hy.
      specialize (Hy z Hz). unfold by_score in *. lia.
Qed.

Lemma sort_by_score_sorted (board : list Leader) :
  StronglySorted by_score (sort_by_score board).
Proof.
  induction board as [|x board IH]; simpl;
    [constructor | apply insert_leader_sorted, IH].
Qed.

Lemma In_firstn {A : Type} (n : nat) (l : list A) (z : A) :
  In z (firstn n l) -> In z l.
Proof.
  revert n. induction l as [|y l IH]; intros [|n]; simpl; try tauto.
  intros [E|H]; [left; exact E | right; exact (IH n H)].
Qed.

Lemma firstn_sorted (n : nat) (l : list Leader) :
  StronglySorted by_score l -> StronglySorted by_score (firstn n l).
Proof.
  revert n. induction l as [|y l IH]; intros [|n] Hs; simpl;
    try constructor.
  - inversion Hs; subst. apply IH. assumption.
  - inversion Hs as [|? ? _ Hy]; subst.
    apply Forall_forall. intros z Hz. rewrite Forall_forall in Hy.
    apply Hy. eapply In_firstn. exact Hz.
Qed.

(** Where a new entry lands among entries already sorted: after every
    entry whose score is at least its own. *)
Lemma insert_leader_split (new x : Leader) (hi lo : list Leader) :
  Forall (fun y => (leader_score new <= leader_score y)%Z) hi ->
  Forall (fun y => (leader_score y < leader_score new)%Z) lo ->
  exists hi' lo',
    insert_leader x (hi ++ lo) = hi' ++ lo' /\
    insert_leader x (hi ++ new :: lo) = hi' ++ new :: lo' /\
    Forall (fun y => (leader_score new <= leader_score y)%Z) hi' /\
    Forall (fun y => (leader_score y < leader_score new)%Z) lo'.
Proof.
  intros Hhi Hlo. induction Hhi as [|y hi Hy Hhi IH].
  - simpl. destruct (leader_score x <? leader_score new)%Z eqn:E.
    + apply Z.ltb_lt in E. exists [], (insert_leader x lo).
      repeat split; auto.
      apply Forall_forall. intros z Hz.
      apply (Permutation_in _ (insert_leader_perm x lo)) in Hz.
      destruct Hz as [<-|Hz]; [exact E|].
      rewrite Forall_forall in Hlo. apply Hlo, Hz.
    + apply Z.ltb_ge in E. exists [x], lo.
      repeat split; auto.
      destruct lo as [|z lo]; [reflexivity|]. simpl.
      inversion Hlo as [|? ? Hz _]; subst.
      assert (Hn : (leader_score x <? leader_score z)%Z = false)
        by (apply Z.ltb_ge; lia).
      now rewrite Hn.
  - destruct IH as (hi' & lo' & E1 & E2 & F1 & F2).
    simpl. destruct (leader_score x <? leader_score y)%Z eqn:E.
    + exists (y :: hi'), lo'. simpl. rewrite E1, E2. repeat split; auto.
    + apply Z.ltb_ge in E. exists (x :: y :: hi), lo.
      repeat split; auto.
      constructor; [lia|]. constructor; assumption.
Qed.

Lemma sort_by_score_new (new : Leader) (board : list Leader) :
  exists hi lo,
    sort_by_score board = hi ++ lo /\
    sort_by_score (board ++ [new]) = hi ++ new :: lo /\
    Forall (fun y => (leader_score new <= leader_score y)%Z) hi /\
    Forall (fun y => (leader_score y < leader_score new)%Z) lo.
Proof.
  induction board as [|x board IH]; simpl.
  - exists [], []. repeat split; constructor.
  - destruct IH as (hi & lo & E1 & E2 & F1 & F2).
    fold (sort_by_score board). fold (sort_by_score (board ++ [new])).
    rewrite E1, E2.
    apply insert_leader_split; assumption.
Qed.

(** X20. What [save_score_and_exit] writes. The board written holds at
    most ten entries in descending order of score, all of them taken,
    each once, from the board loaded and the new entry. The new entry is
    placed after every old entry whose score is at least its own, the
    old entries keeping their order: a tie goes to the older entry, and
    the new score is kept only if fewer than ten old entries have a
    score at least as high. *)
Theorem X20_leaderboard_written (name : string) (final_score : Z) (now : Q)
        (board : list Leader) :
  let new := mkLeader (upper (take 3 (if truthy name then name else "ANON")))
                      final_score now in
  let written := save_score_and_exit name final_score now board in
  (List.length written <= 10)%nat /\
  StronglySorted by_score written /\
  (exists dropped, Permutation (written ++ dropped) (board ++ [new])) /\
  exists hi lo,
    sort_by_score board = hi ++ lo /\
    Forall (fun y => (final_score <= leader_score y)%Z) hi /\
    Forall (fun y => (leader_score y < final_score)%Z) lo /\
    written = firstn 10 (hi ++ new :: lo).
Proof.
  intros new written.
  assert (Ew : written = firstn 10 (sort_by_score (board ++ [new]))).
  { subst written new. unfold save_score_and_exit, save_leaderboard, MAX_LEADERS.
    cbv zeta. rewrite firstn_firstn. reflexivity. }
  rewrite Ew. split; [apply firstn_le_length|].
  split; [apply firstn_sorted, sort_by_score_sorted|].
  split.
  - exists (skipn 10 (sort_by_score (board ++ [new]))).
    rewrite firstn_skipn. apply sort_by_score_perm.
  - destruct (sort_by_score_new new board) as (hi & lo & E1 & E2 & F1 & F2).
    exists hi, lo. rewrite E2. repeat split; assumption.
Qed.

Lemma take_upper (n : nat) (s : string) : take n (upper s) = upper (take n s).
Proof.
  revert s. induction n as [|n IH]; intros [|c r]; simpl; try reflexivity.
  now rewrite IH.
Qed.

Lemma take_take (n : nat) (s : string) : take n (take n s) = take n s.
Proof.
  revert s. induction n as [|n IH]; intros [|c r]; simpl; try reflexivity.
  now rewrite IH.
Qed.

Lemma upper_char_idem (c : ascii) : upper_char (upper_char c) = upper_char c.
Proof. destruct c as [[] [] [] [] [] [] [] []]; reflexivity. Qed.

Lemma upper_idem (s : string) : upper (upper s) = upper s.
Proof.
  induction s as [|c r IH]; simpl; [reflexivity|].
  now rewrite upper_char_idem, IH.
Qed.

Lemma length_take (n : nat) (s : string) :
  (String.length (take n s) <= n)%nat.
Proof.
  revert s. induction n as [|n IH]; intros [|c r]; simpl; try lia.
  specialize (IH r). lia.
Qed.

Lemma length_upper (s : string) : String.length (upper s) = String.length s.
Proof. induction s as [|c r IH]; simpl; [reflexivity | now rewrite IH]. Qed.

Lemma is_ascii_upper_char (c : ascii) :
  (nat_of_ascii c <? 128)%nat = true ->
  (nat_of_ascii (upper_char c) <? 128)%nat = true.
Proof. destruct c as [[] [] [] [] [] [] [] []]; vm_compute; auto. Qed.

Lemma is_ascii_upper (s : string) :
  is_ascii s = true -> is_ascii (upper s) = true.
Proof.
  induction s as [|c r IH]; cbn [is_ascii upper]; [auto|].
  rewrite !andb_true_iff. intros [Hc Hr].
  split; [now apply is_ascii_upper_char | now apply IH].
Qed.

Lemma is_ascii_take (n : nat) (s : string) :
  is_ascii s = true -> is_ascii (take n s) = true.
Proof.
  revert s. induction n as [|n IH]; intros [|c r]; cbn [is_ascii take]; auto.
  rewrite !andb_true_iff. intros [Hc Hr]. split; [exact Hc | now apply IH].
Qed.

(** X21. The name on the board. [SummaryWindow.on_save] saves nothing
    when the dialog is cancelled or left empty. For a name of ASCII
    characters it shortens and upper-cases the name before
    [save_score_and_exit] does the same again, which changes nothing:
    the board written is the one [save_score_and_exit] writes for the
    name as typed, and the name stored has at most three characters, is
    its own upper case and is ASCII again. Names with other characters
    are not covered: there Python's [upper] can lengthen the name. *)
Theorem X21_name_on_the_board (name : string) (final_score : Z) (now : Q)
        (board : list Leader) :
  on_save None final_score now board = None /\
  on_save (Some "") final_score now board = None /\
  (is_ascii name = true ->
   (truthy name = true ->
    on_save (Some name) final_score now board
    = Some (save_score_and_exit name final_score now board)) /\
   (String.length (upper (take 3 (if truthy name then name else "ANON")))
    <= 3)%nat /\
   upper (upper (take 3 (if truthy name then name else "ANON")))
   = upper (take 3 (if truthy name then name else "ANON")) /\
   is_ascii (upper (take 3 (if truthy name then name else "ANON"))) = true).
Proof.
  split; [reflexivity|]. split; [reflexivity|]. intros Ha. split.
  - intros H. unfold on_save. rewrite H. f_equal.
    unfold save_score_and_exit. rewrite H.
    assert (Ht : truthy (upper (take 3 name)) = true)
      by (destruct name; [discriminate | reflexivity]).
    rewrite Ht. cbv zeta.
    now rewrite take_upper, take_take, upper_idem.
  - split; [rewrite length_upper; apply length_take|].
    split; [apply upper_idem|].
    apply is_ascii_upper, is_ascii_take.
    destruct (truthy name); [exact Ha | reflexivity].
Qed.

Lemma X21_name_on_the_board_witness :
  is_ascii "alice" = true /\ truthy "alice" = true /\
  on_save (Some "alice") 42 100 [] = Some [mkLeader "ALI" 42 100] /\
  on_save (Some "alice") 42 100 []
  = Some (save_score_and_exit "alice" 42 100 []).
Proof.
  split; [reflexivity|]. split; [reflexivity|].
  split; [vm_compute; reflexivity|].
  destruct (X21_name_on_the_board "alice" 42 100 []) as (_ & _ & H).
  destruct (H eq_refl) as (H1 & _). exact (H1 eq_refl).
Defined.

(** ** Highlighting *)

Lemma length_lower (s : string) : String.length (lower s) = String.length s.
Proof. induction s as [|c r IH]; simpl; [reflexivity | now rewrite IH]. Qed.

Lemma lower_take (n : nat) (s : string) : lower (take n s) = take n (lower s).
Proof.
  revert s. induction n as [|n IH]; intros [|c r]; simpl; try reflexivity.
  now rewrite IH.
Qed.

Lemma lower_drop (k : nat) (s : string) : lower (drop k s) = drop k (lower s).
Proof.
  revert s. induction k as [|k IH]; intros [|c r]; simpl; try reflexivity.
  apply IH.
Qed.

Lemma startswith_take (t u : string) :
  startswith t u = true <-> take (String.length u) t = u.
Proof.
  revert t. induction u as [|a u IH]; intros t; simpl.
  - destruct t; simpl; tauto.
  - destruct t as [|b t]; simpl; [split; discriminate|].
    rewrite andb_true_iff, Ascii.eqb_eq, IH. split.
    + intros [-> ->]. reflexivity.
    + intros E. injection E as -> E. auto.
Qed.

Lemma startswith_length (t u : string) :
  startswith t u = true -> (String.length u <= String.length t)%nat.
Proof.
  revert t. induction u as [|a u IH]; intros t; simpl; [lia|].
  destruct t as [|b t]; simpl; [discriminate|].
  rewrite andb_true_iff. intros [_ H]. specialize (IH t H). lia.
Qed.

Lemma find_from_some (t u : string) (i k : nat) :
  find_from t u i = Some k ->
  exists j, k = (i + j)%nat /\
            (j + String.length u <= String.length t)%nat /\
            startswith (drop j t) u = true /\
            forall j', (j' < j)%nat -> startswith (drop j' t) u = false.
Proof.
  revert i. induction t as [|c t IH]; intros i; cbn [find_from].
  - destruct (startswith "" u) eqn:E; [|discriminate].
    intros H. injection H as <-. exists 0%nat. split; [lia|]. split.
    + apply startswith_length in E. simpl in *. lia.
    + split; [exact E | intros j' Hj; lia].
  - destruct (startswith (String c t) u) eqn:E.
    + intros H. injection H as <-. exists 0%nat. split; [lia|]. split.
      * apply startswith_length in E. simpl in *. lia.
      * split; [exact E | intros j' Hj; lia].
    + intros H. destruct (IH _ H) as (j & -> & Hl & Hs & Hm).
      exists (S j). split; [lia|]. split; [simpl; lia|].
      split; [exact Hs|].
      intros [|j'] Hj; [exact E | apply Hm; lia].
Qed.

Lemma find_from_none (t u : string) (i : nat) :
  find_from t u i = None ->
  forall j, startswith (drop j t) u = false.
Proof.
  revert i. induction t as [|c t IH]; intros i; cbn [find_from].
  - destruct (startswith "" u) eqn:E; [discriminate|].
    intros _ [|j]; exact E.
  - destruct (startswith (String c t) u) eqn:E; [discriminate|].
    intros H [|j]; [exact E | exact (IH _ H j)].
Qed.

Lemma find_from_contains (t u : string) (i : nat) :
  find_from t u i = None <-> contains t u = false.
Proof.
  revert i. induction t as [|c t IH]; intros i; cbn [find_from contains].
  - destruct (startswith "" u); simpl; split; congruence.
  - destruct (startswith (String c t) u); cbn [orb];
      [split; discriminate | apply IH].
Qed.

(** X22. What [highlight_in_text] tags. When the token occurs in the
    text, whatever the case of the letters, the range tagged starts at
    the first such occurrence, is as long as the token, lies within the
    text and covers the token up to case; when the token does not occur
    (the test [token.lower() in content.lower()] fails) nothing is
    tagged. An empty token gives the empty range at the start. *)
Theorem X22_highlight_first_occurrence (content token : string) :
  let n := String.length token in
  match highlight_in_text content token with
  | Some (a, b) =>
      b = (a + n)%nat /\ (b <= String.length content)%nat /\
      lower (take n (drop a content)) = lower token /\
      (forall i, (i < a)%nat ->
                 lower (take n (drop i content)) <> lower token) /\
      contains (lower content) (lower token) = true
  | None =>
      (forall i, lower (take n (drop i content)) <> lower token) /\
      contains (lower content) (lower token) = false
  end.
Proof.
  intros n. unfold highlight_in_text, find.
  assert (Hn : String.length (lower token) = n) by apply length_lower.
  destruct (find_from (lower content) (lower token) 0) as [k|] eqn:E.
  - assert (Hc : contains (lower content) (lower token) = true).
    { destruct (contains (lower content) (lower token)) eqn:C;
        [reflexivity|].
      apply (find_from_contains _ _ 0%nat) in C. congruence. }
    destruct (find_from_some _ _ _ _ E) as (j & -> & Hl & Hs & Hm).
    simpl. rewrite Hn, length_lower in Hl.
    split; [reflexivity|]. split; [exact Hl|]. split; [|split; [|exact Hc]].
    + rewrite lower_take, lower_drop, <- Hn. apply startswith_take, Hs.
    + intros i Hi F. specialize (Hm i Hi).
      rewrite lower_take, lower_drop, <- Hn in F.
      apply startswith_take in F. congruence.
  - split; [|apply (find_from_contains _ _ 0%nat), E].
    intros i F. pose proof (find_from_none _ _ _ E i) as Hm.
    rewrite lower_take, lower_drop, <- Hn in F.
    apply startswith_take in F. congruence.
Qed.

Lemma X22_highlight_first_occurrence_witness :
  highlight_in_text "Go to HTTP://x.io or http://x.io" "http://"
  = Some (6%nat, 13%nat) /\
  let n := String.length "http://" in
  match highlight_in_text "Go to HTTP://x.io or http://x.io" "http://" with
  | Some (a, b) =>
      b = (a + n)%nat /\
      (b <= String.length "Go to HTTP://x.io or http://x.io")%nat /\
      lower (take n (drop a "Go to HTTP://x.io or http://x.io"))
      = lower "http://" /\
      (forall i, (i < a)%nat ->
                 lower (take n (drop i "Go to HTTP://x.io or http://x.io"))
                 <> lower "http://") /\
      contains (lower "Go to HTTP://x.io or http://x.io") (lower "http://")
      = true
  | None =>
      (forall i, lower (take n (drop i "Go to HTTP://x.io or http://x.io"))
                 <> lower "http://") /\
      contains (lower "Go to HTTP://x.io or http://x.io") (lower "http://")
      = false
  end.
Proof.
  split; [vm_compute; reflexivity|].
  exact (X22_highlight_first_occurrence
           "Go to HTTP://x.io or http://x.io" "http://").
Defined.

(** ** The "Next Email" button *)

Lemma next_ok_ext (s s' : Game) :
  btn_next s' = btn_next s -> flags_found s' = flags_found s ->
  next_ok s' = next_ok s.
Proof. intros E1 E2. unfold next_ok. now rewrite E1, E2. Qed.

Lemma next_ok_stop_timer (s : Game) : next_ok (stop_timer s) = next_ok s.
Proof.
  destruct (stop_timer_frame s)
    as (E1 & E2 & E3 & E4 & E5 & E6 & E7 & E8 & E9 & E10 & E11 & E12 & E13 & E14 & E15 & E16).
  apply next_ok_ext; assumption.
Qed.

Lemma next_ok_finish_game (s : Game) : next_ok (finish_game s) = next_ok s.
Proof.
  unfold finish_game. cbv zeta.
  rewrite <- (next_ok_stop_timer s). apply next_ok_ext; reflexivity.
Qed.

Lemma next_ok_fresh (s : Game) :
  btn_next s = false -> flags_found s = [] -> next_ok s = true.
Proof. intros E1 E2. unfold next_ok. now rewrite E1, E2. Qed.

Section NextFlow.
Variable tick : Q -> Game -> outcome.
Hypothesis tick_next :
  forall now s, next_ok s = true -> next_ok (state_of (tick now s)) = true.

Lemma load_level_with_next (level_index : Z) (now : Q) (s : Game) :
  next_ok s = true ->
  next_ok (state_of (load_level_with tick level_index now s)) = true.
Proof.
  intros H. unfold load_level_with, start_timer_with. cbv zeta.
  destruct (total_levels (set_current_level level_index s) <=? level_index)%Z.
  - cbn [state_of]. rewrite next_ok_finish_game.
    rewrite <- H. apply next_ok_ext; reflexivity.
  - destruct (getitem (all_emails (set_current_level level_index s)) level_index).
    + apply tick_next. rewrite next_ok_stop_timer.
      apply next_ok_fresh; reflexivity.
    + cbn [state_of]. rewrite <- H. apply next_ok_ext; reflexivity.
Qed.

Lemma save_result_and_continue_with_next (skip : bool) (now : Q) (s : Game) :
  next_ok s = true ->
  next_ok (state_of (save_result_and_continue_with tick skip now s)) = true.
Proof.
  intros H. unfold save_result_and_continue_with.
  destruct (getitem (all_emails s) (current_level s)) as [e|]; [|exact H].
  cbv zeta. set (s1 := stop_timer _).
  assert (H1 : next_ok s1 = true).
  { subst s1. rewrite next_ok_stop_timer. rewrite <- H.
    apply next_ok_ext; reflexivity. }
  clearbody s1.
  destruct (lives s1 <=? 0)%Z;
    [cbn [state_of]; now rewrite next_ok_finish_game|].
  destruct (total_levels s1 <=? current_level s1 + 1)%Z;
    [cbn [state_of]; now rewrite next_ok_finish_game|].
  apply load_level_with_next. rewrite <- H1. apply next_ok_ext; reflexivity.
Qed.

Lemma on_time_up_with_next (now : Q) (s : Game) :
  next_ok s = true -> next_ok (state_of (on_time_up_with tick now s)) = true.
Proof.
  intros H. unfold on_time_up_with. cbv zeta.
  apply save_result_and_continue_with_next.
  rewrite <- H. apply next_ok_ext; reflexivity.
Qed.

Lemma tick_body_next (now : Q) (s : Game) :
  next_ok s = true -> next_ok (state_of (tick_body tick now s)) = true.
Proof.
  intros H. unfold tick_body.
  destruct (paused s); [exact H|].
  destruct (time_left s <=? 0)%Z; [now apply on_time_up_with_next|].
  cbv zeta. cbn [state_of]. rewrite <- H. apply next_ok_ext; reflexivity.
Qed.
End NextFlow.

Lemma tick_at_depth_next (depth : nat) (now : Q) (s : Game) :
  next_ok s = true -> next_ok (state_of (tick_at_depth depth now s)) = true.
Proof.
  revert now s. induction depth as [|d IH]; intros now s H; [exact H|].
  cbn [tick_at_depth]. now apply tick_body_next.
Qed.

Lemma _tick_next (now : Q) (s : Game) :
  next_ok s = true -> next_ok (state_of (_tick now s)) = true.
Proof. apply tick_at_depth_next. Qed.

Lemma on_submit_next (entry : string) (now : Q) (s : Game) :
  Inv s -> next_ok s = true ->
  next_ok (state_of (on_submit entry now s)) = true.
Proof.
  intros Hi H.
  destruct (paused s) eqn:Ep; [unfold on_submit; now rewrite Ep|].
  destruct (truthy (strip entry)) eqn:Eu;
    [|unfold on_submit; now rewrite Ep, Eu].
  destruct (getitem (all_emails s) (current_level s)) as [e|] eqn:He;
    [|unfold on_submit; now rewrite Ep, Eu, He].
  destruct (find_flag (strip entry) (flags_found s) (flags e)) as [f|] eqn:Ef.
  - destruct (Inv_start_time s e Hi He) as [t0 Ht].
    rewrite (on_submit_matched _ _ t0 _ e f) by assumption. cbv zeta.
    set (s1 := credited _ _ s).
    assert (H1 : next_ok s1 = true).
    { subst s1. unfold next_ok, credited. gsimpl_goal.
      rewrite length_app. simpl.
      replace (List.length (flags_found s) + 1)%nat
        with (S (List.length (flags_found s))) by lia.
      reflexivity. }
    assert (Hbn : btn_next s1 = true) by reflexivity.
    clearbody s1.
    destruct (_ =? _)%nat; cbn [state_of]; [|exact H1].
    destruct (perfected_frame s1) as (_ & P2 & _).
    unfold next_ok in *. rewrite P2.
    assert (Hb : btn_next (perfected s1) = true) by reflexivity.
    rewrite Hb. rewrite Hbn in H1. exact H1.
  - rewrite (on_submit_unmatched _ _ _ e) by assumption.
    cbn [state_of]. rewrite <- H. apply next_ok_ext; reflexivity.
Qed.

Lemma use_hint_next (r : nat) (s : Game) :
  next_ok s = true -> next_ok (state_of (use_hint r s)) = true.
Proof.
  intros H.
  destruct (paused s) eqn:Ep; [unfold use_hint; now rewrite Ep|].
  destruct (getitem (all_emails s) (current_level s)) as [e|] eqn:He;
    [|unfold use_hint; now rewrite Ep, He].
  pose proof (use_hint_eq r s e Ep He) as Hh.
  destruct (unfound (flags e) (flags_found s)).
  - rewrite Hh. cbn [state_of]. rewrite <- H. apply next_ok_ext; reflexivity.
  - destruct Hh as (h & _ & _ & ->). cbv zeta. cbn [state_of].
    destruct (1 <=? List.length (flags_found s))%nat eqn:E1.
    + unfold next_ok. gsimpl_goal. rewrite E1. reflexivity.
    + rewrite <- H. apply next_ok_ext; reflexivity.
Qed.

Lemma next_level_next (now : Q) (s : Game) :
  next_ok s = true -> next_ok (state_of (next_level now s)) = true.
Proof.
  intros H. unfold next_level. destruct (paused s); [exact H|].
  apply save_result_and_continue_with_next; [apply _tick_next | exact H].
Qed.

Lemma toggle_pause_next (now : Q) (s : Game) :
  next_ok s = true -> next_ok (state_of (toggle_pause now s)) = true.
Proof.
  intros H. unfold toggle_pause. destruct (paused s); cbv zeta.
  - assert (Hs : next_ok (state_of (start_timer now (set_paused false s)))
                 = true).
    { unfold start_timer, start_timer_with. apply _tick_next.
      rewrite next_ok_stop_timer. rewrite <- H.
      apply next_ok_ext; reflexivity. }
    destruct (start_timer now (set_paused false s)) as [s'|x s'];
      cbn [bind state_of] in *; [|exact Hs].
    rewrite <- Hs. apply next_ok_ext; reflexivity.
  - cbn [state_of].
    rewrite (next_ok_ext (stop_timer (set_paused true s))) by reflexivity.
    rewrite next_ok_stop_timer. rewrite <- H. apply next_ok_ext; reflexivity.
Qed.

Lemma timer_fires_next (now : Q) (s : Game) :
  next_ok s = true -> next_ok (state_of (timer_fires now s)) = true.
Proof.
  intros H. unfold timer_fires. destruct (after_pending s); [exact H|].
  apply _tick_next. rewrite <- H. apply next_ok_ext; reflexivity.
Qed.

Lemma restart_game_next (confirmed : bool) (rs : list nat) (now : Q)
      (s : Game) :
  next_ok s = true ->
  next_ok (state_of (restart_game confirmed rs now s)) = true.
Proof.
  intros H. unfold restart_game. destruct confirmed; [|exact H].
  cbn [negb]. cbv zeta.
  apply load_level_with_next; [apply _tick_next|].
  rewrite <- H. apply next_ok_ext; reflexivity.
Qed.

Lemma dispatch_next (ev : Event) (s : Game) :
  Inv s -> next_ok s = true -> next_ok (state_of (dispatch ev s)) = true.
Proof.
  intros Hi H. destruct ev as [now []]; cbn [dispatch].
  - now apply on_submit_next.
  - now apply use_hint_next.
  - now apply next_level_next.
  - now apply toggle_pause_next.
  - now apply restart_game_next.
  - now apply timer_fires_next.
Qed.

Lemma run_next (evs : list Event) (s : Game) :
  Inv s -> next_ok s = true -> next_ok (run evs s) = true.
Proof.
  revert s. induction evs as [|ev evs IH]; intros s Hi H; [exact H|].
  cbn [run]. apply IH; [now apply dispatch_Inv | now apply dispatch_next].
Qed.

Lemma __init___next (emails : list Email) (rs : list nat)
      (board : list Json) (now : Q) (g : Game) :
  __init__ emails rs board now = inr g -> next_ok g = true.
Proof.
  unfold __init__.
  destruct (Random.sample emails _ rs) as [l|]; [|discriminate].
  cbv zeta.
  destruct (update_leaderboard_ui board) as [x|rows]; [discriminate|].
  match goal with |- context [load_level 0 now ?s0] =>
    pose proof (load_level_with_next _tick _tick_next 0 now s0
                  eq_refl) as Hn;
    fold load_level in Hn;
    destruct (load_level 0 now s0) as [s'|x s']
  end; [|discriminate].
  intros E. injection E as <-. exact Hn.
Qed.

(** X23. The "Next Email" button. In every state a session reaches,
    whatever the player and the timer did, the button is enabled exactly
    when at least one flag of the level shown has been found: a fresh
    level disables it, the first recognised flag enables it, and neither
    a hint nor a pause, a resume or the end of the run changes that. *)
Theorem X23_next_button_follows_flags (emails : list Email) (rs : list nat)
        (board : list Json) (now : Q) (g : Game) (evs : list Event) :
  __init__ emails rs board now = inr g ->
  (btn_next (run evs g) = true <-> flags_found (run evs g) <> []).
Proof.
  intros E.
  pose proof (run_next evs g (session_Inv _ _ _ _ _ E) (__init___next _ _ _ _ _ E))
    as H.
  unfold next_ok in H. apply Bool.eqb_prop in H. rewrite H.
  destruct (flags_found (run evs g)); simpl; split;
    congruence || discriminate || auto.
Qed.

Lemma X23_next_button_follows_flags_witness :
  __init__ EMAILS demo_rs [] 0 = inr demo_session /\
  (btn_next (run found_http demo_session) = true <->
   flags_found (run found_http demo_session) <> []) /\
  btn_next (run found_http demo_session) = true.
Proof.
  split; [vm_compute; reflexivity|].
  split; [|vm_compute; reflexivity].
  apply (X23_next_button_follows_flags EMAILS demo_rs [] 0 demo_session found_http).
  vm_compute; reflexivity.
Defined.
